(** * Chess games analysis: the loader, the preprocessor and the opening
      classifier of [utils.py], embedded in Rocq.

    Modelling conventions.
    - A Python [str] is a Rocq [string] of ASCII characters.
    - A missing value (NaN / None) in an object column is [None]; in a
      float64 column it is the IEEE NaN itself, as in pandas.
    - float64 values are [spec_float]s of the binary64 format; the
      operations are the ones of the standard library's [SpecFloat].
    - A raised Python exception is the [Raise] case of [result]. *)

From Stdlib Require Import ZArith List String Ascii Bool Lia.
From Stdlib Require Import Floats.SpecFloat QArith Qpower.
From stdpp Require Import gmap strings list.

Local Open Scope Z_scope.

(** ** Exceptions *)

Inductive exn : Type :=
| ValueError | IndexError | TypeError | AttributeError | KeyError
| FileNotFoundError
| ReferenceError.  (* a reference that is not in the store *)

Inductive result (A : Type) : Type :=
| Ok (a : A)
| Raise (e : exn).
Arguments Ok {A} a.
Arguments Raise {A} e.

Definition rbind {A B} (r : result A) (k : A -> result B) : result B :=
  match r with
  | Ok a => k a
  | Raise e => Raise e
  end.

#[global] Instance result_ret : MRet result := @Ok.
#[global] Instance result_bind : MBind result :=
  fun A B k r => rbind r k.

(** ** binary64 *)

Module Float64.
Definition prec : Z := 53.
Definition emax : Z := 1024.

Definition nan : spec_float := S754_nan.
Definition add : spec_float -> spec_float -> spec_float := SFadd prec emax.
Definition sub : spec_float -> spec_float -> spec_float := SFsub prec emax.
Definition div : spec_float -> spec_float -> spec_float := SFdiv prec emax.
Definition abs : spec_float -> spec_float := SFabs.
Definition ltb : spec_float -> spec_float -> bool := SFltb.

Definition is_nan (x : spec_float) : bool :=
  match x with S754_nan => true | _ => false end.

(** Conversion of an integer, rounded to nearest even. *)
Definition of_Z (z : Z) : spec_float := binary_normalize prec emax z 0 false.

(** The binary64 nearest to [n / d] (ties to even), for [0 < n] and
    [0 < d]; [neg] is the sign. *)
Definition of_ratio (neg : bool) (n d : Z) : spec_float :=
  let '(q, e, l) := SFdiv_core_binary prec emax n 0 d 0 in
  binary_round_aux prec emax neg q e l.

(** The rational a finite float stands for. *)
Definition to_Q (x : spec_float) : option Q :=
  match x with
  | S754_zero _ => Some 0%Q
  | S754_finite s m e =>
      Some (inject_Z (cond_Zopp s (Zpos m)) * Qpower 2 e)%Q
  | _ => None
  end.

(** The float of value [n * 2 ^ e] in normal form, for [n] of at
    most 53 bits and [e] in the range of normal numbers. *)
Definition canon (n e : Z) : spec_float :=
  match n with
  | Z0 => S754_zero false
  | Zpos p =>
      S754_finite false (Z.to_pos (Zpos p * 2 ^ (53 - Zdigits2 n)))
        (e + Zdigits2 n - 53)
  | Zneg p =>
      S754_finite true (Z.to_pos (Zpos p * 2 ^ (53 - Zdigits2 n)))
        (e + Zdigits2 n - 53)
  end.

(** The binary64 nearest to [m * 10 ^ e10], for [0 <= m]. *)
Definition of_decimal (neg : bool) (m e10 : Z) : spec_float :=
  if m =? 0 then S754_zero neg
  else if 0 <=? e10 then of_ratio neg (m * 10 ^ e10) 1
  else of_ratio neg m (10 ^ (- e10)).
End Float64.

(** ** Python built-ins used by [utils.py] *)

Module Py.
Definition code (c : ascii) : Z := Z.of_nat (nat_of_ascii c).

Definition is_space (c : ascii) : bool :=
  ((9 <=? code c) && (code c <=? 13)) || (code c =? 32).
Definition is_digit (c : ascii) : bool :=
  (48 <=? code c) && (code c <=? 57).
Definition digit_val (c : ascii) : Z := code c - 48.

Definition upper_char (c : ascii) : ascii :=
  if (97 <=? code c) && (code c <=? 122)
  then ascii_of_nat (nat_of_ascii c - 32) else c.
Definition lower_char (c : ascii) : ascii :=
  if (65 <=? code c) && (code c <=? 90)
  then ascii_of_nat (nat_of_ascii c + 32) else c.

(** [s.upper()] *)
Fixpoint upper (s : string) : string :=
  match s with
  | EmptyString => EmptyString
  | String c s' => String (upper_char c) (upper s')
  end.

(** [s[i]] for a non-negative index. *)
Definition str_index (s : string) (i : nat) : result ascii :=
  match String.get i s with
  | Some c => Ok c
  | None => Raise IndexError
  end.

(** [l[i]] for a non-negative index. *)
Definition list_index {A} (l : list A) (i : nat) : result A :=
  match nth_error l i with
  | Some a => Ok a
  | None => Raise IndexError
  end.

(** [s.split(sep)] for a one-character separator: the pieces between
    the occurrences of [sep], always at least one. *)
Fixpoint split (sep : ascii) (s : string) : list string :=
  match s with
  | EmptyString => [EmptyString]
  | String c s' =>
      if Ascii.eqb c sep then EmptyString :: split sep s'
      else match split sep s' with
           | p :: ps => String c p :: ps
           | [] => [String c EmptyString]
           end
  end.

(** *** [float(s)]

    The grammar of CPython's [float] on a string: surrounding white
    space, single underscores between digits, an optional sign, then
    [inf], [infinity] or [nan] in any case, or a decimal numeral with
    an optional exponent.  The value is the binary64 nearest to the
    numeral; an overflow gives an infinity. *)

Fixpoint lstrip (s : list ascii) : list ascii :=
  match s with
  | c :: s' => if is_space c then lstrip s' else s
  | [] => []
  end.
Definition strip (s : list ascii) : list ascii :=
  rev (lstrip (rev (lstrip s))).

Fixpoint drop_underscores (prev : ascii) (s : list ascii)
  : option (list ascii) :=
  match s with
  | [] => if Ascii.eqb prev "_"%char then None else Some []
  | c :: s' =>
      if Ascii.eqb c "_"%char then
        if is_digit prev then drop_underscores c s' else None
      else if Ascii.eqb prev "_"%char && negb (is_digit c) then None
      else option_map (cons c) (drop_underscores c s')
  end.

Fixpoint span_digits (s : list ascii) : list ascii * list ascii :=
  match s with
  | c :: s' =>
      if is_digit c then let '(ds, r) := span_digits s' in (c :: ds, r)
      else ([], s)
  | [] => ([], [])
  end.

Definition digits_value (ds : list ascii) : Z :=
  fold_left (fun acc c => 10 * acc + digit_val c) ds 0.

Definition parse_sign (s : list ascii) : bool * list ascii :=
  match s with
  | "-"%char :: r => (true, r)
  | "+"%char :: r => (false, r)
  | _ => (false, s)
  end.

(** The exponent part; a malformed one is left unconsumed. *)
Definition parse_exponent (s : list ascii) : Z * list ascii :=
  match s with
  | c :: r =>
      if Ascii.eqb (lower_char c) "e"%char then
        let '(neg, r1) := parse_sign r in
        let '(ds, r2) := span_digits r1 in
        match ds with
        | [] => (0, s)
        | _ => ((if neg then - digits_value ds else digits_value ds), r2)
        end
      else (0, s)
  | [] => (0, s)
  end.

(** A decimal numeral: mantissa, decimal exponent, unconsumed rest. *)
Definition parse_decimal (s : list ascii) : option (Z * Z * list ascii) :=
  let '(ip, r1) := span_digits s in
  let '(fp, r2) :=
    match r1 with
    | "."%char :: r => span_digits r
    | _ => ([], r1)
    end in
  match ip ++ fp with
  | [] => None
  | ds =>
      let '(e, r3) := parse_exponent r2 in
      Some (digits_value ds, e - Z.of_nat (length fp), r3)
  end.

Definition parse_inf_or_nan (neg : bool) (s : list ascii)
  : option spec_float :=
  let w := string_of_list_ascii (map lower_char s) in
  if String.eqb w "inf"%string || String.eqb w "infinity"%string
  then Some (S754_infinity neg)
  else if String.eqb w "nan"%string then Some S754_nan
  else None.

Definition float_of_chars (s : list ascii) : option spec_float :=
  match lstrip s with
  | [] => None
  | _ =>
      let '(neg, r) := parse_sign (strip s) in
      match parse_decimal r with
      | Some (m, e10, []) => Some (Float64.of_decimal neg m e10)
      | Some (_, _, _ :: _) => None
      | None => parse_inf_or_nan neg r
      end
  end.

Definition float (s : string) : result spec_float :=
  match drop_underscores "000"%char (list_ascii_of_string s) with
  | None => Raise ValueError
  | Some cs =>
      match float_of_chars cs with
      | Some x => Ok x
      | None => Raise ValueError
      end
  end.

(** [x < n] for a float [x] and an integer literal [n]. *)
Definition lt_int (x : spec_float) (n : Z) : bool :=
  Float64.ltb x (Float64.of_Z n).
End Py.

(** ** pandas helpers: missing values *)

(** A cell of an object column: a string, or missing. *)
Abbreviation obj := (option string).

Definition isna (x : obj) : bool :=
  match x with None => true | Some _ => false end.

(** [str(x)] *)
Definition str (x : obj) : string :=
  match x with Some s => s | None => "nan"%string end.

(** ** [categorize_time_control] (utils.py, inside [preprocess_data]) *)

Definition categorize_time_control (x : obj) : string :=
  if isna x then "Unknown"%string
  else
    match
      base ← Py.list_index (Py.split "+"%char (str x)) 0;
      base_time ← Py.float base;
      mret (if Py.lt_int base_time 180 then "Bullet (<3min)"
            else if Py.lt_int base_time 600 then "Blitz (3-10min)"
            else if Py.lt_int base_time 3600 then "Rapid (10-60min)"
            else "Classical (>60min)")%string
    with
    | Ok label => label
    | Raise _ => "Unknown"%string
    end.


(** ** [get_opening_category] (utils.py) *)

Definition categories : list (ascii * string) :=
  [("A"%char, "Flank Openings"%string);
   ("B"%char, "Semi-Open Games"%string);
   ("C"%char, "Open Games"%string);
   ("D"%char, "Closed Games"%string);
   ("E"%char, "Indian Defenses"%string)].

(** [d.get(key, default)] *)
Fixpoint dict_get (d : list (ascii * string)) (key : ascii) (default : string)
  : string :=
  match d with
  | [] => default
  | (k, v) :: d' => if Ascii.eqb k key then v else dict_get d' key default
  end.

Definition get_opening_category (eco_code : obj) : result string :=
  if isna eco_code then Ok "Unknown"%string
  else
    let eco_code := Py.upper (str eco_code) in
    first_letter ← Py.str_index eco_code 0;
    mret (dict_get categories first_letter "Other"%string).

(** ** [calculate_game_duration] (utils.py) *)

(** [s.count(c)] for a one-character [c]. *)
Fixpoint count_char (c : ascii) (s : string) : Z :=
  match s with
  | EmptyString => 0
  | String c' s' => (if Ascii.eqb c' c then 1 else 0) + count_char c s'
  end.

Definition calculate_game_duration (moves_text : obj) : option Z :=
  if isna moves_text then None
  else
    let move_count := count_char "." (str moves_text) in
    Some (move_count * 2).

(** ** A state monad with exceptions

    A computation reads and updates a state and either returns a value
    or raises; the state reached is kept in both cases. *)

Definition M (S A : Type) : Type := S -> result A * S.

#[global] Instance M_ret {S} : MRet (M S) := fun A a s => (Ok a, s).
#[global] Instance M_bind {S} : MBind (M S) :=
  fun A B k m s =>
    match m s with
    | (Ok a, s') => k a s'
    | (Raise e, s') => (Raise e, s')
    end.

(** A pure, possibly raising, step. *)
Definition lift {S A} (r : result A) : M S A := fun s => (r, s).

(** ** pandas: columns *)

(** A timestamp of a [datetime64[ns]] column: nanoseconds since the
    epoch 1970-01-01T00:00:00. *)
Abbreviation instant := Z.

Inductive column : Type :=
| ColObj (l : list obj)                (* dtype object: str or missing *)
| ColFloat (l : list spec_float)       (* dtype float64, NaN is missing *)
| ColInt (l : list Z)                  (* dtype int64 *)
| ColTime (l : list (option instant)). (* dtype datetime64, None is NaT *)

Definition col_len (c : column) : nat :=
  match c with
  | ColObj l => length l
  | ColFloat l => length l
  | ColInt l => length l
  | ColTime l => length l
  end.

(** int64 arithmetic wraps around. *)
Definition wrap64 (z : Z) : Z := (z + 2 ^ 63) mod 2 ^ 64 - 2 ^ 63.

Definition all_present {A} (l : list (option A)) : bool :=
  forallb (fun o => match o with Some _ => true | None => false end) l.

(** An integer-valued result that has missing entries: pandas stores it
    as int64 when nothing is missing and as float64 with NaN otherwise. *)
Definition int_or_float (l : list (option Z)) : column :=
  if all_present l
  then ColInt (omap id l)
  else ColFloat (map (fun o => match o with
                               | Some z => Float64.of_Z z
                               | None => Float64.nan
                               end) l).

(** Arithmetic with an object column.  pandas works cell by cell on the
    rows where both operands are present and leaves every other row
    missing; the result is an object column.  On a row where both are
    present a string meets a number, or a string an operation strings
    do not have, and Python raises [TypeError].  [other] tells on which
    rows the other operand is present. *)
Definition present_obj (o : obj) : bool := negb (isna o).
Definition present_float (v : spec_float) : bool := negb (Float64.is_nan v).
Definition always {A} (l : list A) : list bool := map (fun _ => true) l.

(** On some row a string meets a present cell of the other operand. *)
Definition text_meets (x : list obj) (other : list bool) : bool :=
  existsb id (zip_with (fun o p => present_obj o && p) x other).

Definition masked_text (x : list obj) (other : list bool) : result column :=
  if text_meets x other then Raise TypeError
  else Ok (ColObj (zip_with (fun _ _ => None) x other)).

(** [a + b] on two columns of one frame: two strings are concatenated. *)
Definition col_add (a b : column) : result column :=
  match a, b with
  | ColObj x, ColObj y =>
      Ok (ColObj (zip_with (fun s t =>
                              match s, t with
                              | Some s, Some t => Some (s ++ t)%string
                              | _, _ => None
                              end) x y))
  | ColObj x, ColFloat y => masked_text x (map present_float y)
  | ColObj x, ColInt y => masked_text x (always y)
  | ColFloat x, ColObj y => masked_text y (map present_float x)
  | ColInt x, ColObj y => masked_text y (always x)
  | ColFloat x, ColFloat y => Ok (ColFloat (zip_with Float64.add x y))
  | ColInt x, ColInt y =>
      Ok (ColInt (zip_with (fun m n => wrap64 (m + n)) x y))
  | ColInt x, ColFloat y =>
      Ok (ColFloat (zip_with Float64.add (map Float64.of_Z x) y))
  | ColFloat x, ColInt y =>
      Ok (ColFloat (zip_with Float64.add x (map Float64.of_Z y)))
  | ColTime _, _ | _, ColTime _ => Raise TypeError
  end.

(** [a + s] for a string [s]. *)
Definition col_add_str (a : column) (s : string) : result column :=
  match a with
  | ColObj x => Ok (ColObj (map (option_map (fun t => (t ++ s)%string)) x))
  | _ => Raise TypeError
  end.

(** [a - b]: strings have no difference. *)
Definition col_sub (a b : column) : result column :=
  match a, b with
  | ColObj x, ColObj y => masked_text x (map present_obj y)
  | ColObj x, ColFloat y => masked_text x (map present_float y)
  | ColObj x, ColInt y => masked_text x (always y)
  | ColFloat x, ColObj y => masked_text y (map present_float x)
  | ColInt x, ColObj y => masked_text y (always x)
  | ColFloat x, ColFloat y => Ok (ColFloat (zip_with Float64.sub x y))
  | ColInt x, ColInt y =>
      Ok (ColInt (zip_with (fun m n => wrap64 (m - n)) x y))
  | ColInt x, ColFloat y =>
      Ok (ColFloat (zip_with Float64.sub (map Float64.of_Z x) y))
  | ColFloat x, ColInt y =>
      Ok (ColFloat (zip_with Float64.sub x (map Float64.of_Z y)))
  | ColTime _, _ | _, ColTime _ => Raise TypeError
  end.

(** [a / n] for an integer literal [n]: true division, in float64; a
    string is not divided. *)
Definition col_div_int (a : column) (n : Z) : result column :=
  match a with
  | ColObj x => masked_text x (always x)
  | ColFloat x =>
      Ok (ColFloat (map (fun v => Float64.div v (Float64.of_Z n)) x))
  | ColInt x =>
      Ok (ColFloat (map (fun z => Float64.div (Float64.of_Z z)
                                    (Float64.of_Z n)) x))
  | ColTime _ => Raise TypeError
  end.

(** [abs(a)]: a string has no absolute value. *)
Definition col_abs (a : column) : result column :=
  match a with
  | ColObj x => masked_text x (always x)
  | ColFloat x => Ok (ColFloat (map Float64.abs x))
  | ColInt x => Ok (ColInt (map (fun z => wrap64 (Z.abs z)) x))
  | ColTime _ => Raise TypeError
  end.

(** [(a == s).astype(int)]: a column of another dtype compares unequal
    to a string everywhere. *)
Definition col_eq_str (a : column) (s : string) : list bool :=
  match a with
  | ColObj x => map (fun o => match o with
                              | Some t => String.eqb t s
                              | None => false
                              end) x
  | ColFloat x => map (fun _ => false) x
  | ColInt x => map (fun _ => false) x
  | ColTime x => map (fun _ => false) x
  end.

Definition astype_int (l : list bool) : column :=
  ColInt (map (fun b : bool => if b then 1 else 0) l).

(** [a.str.split(sep)]: the [.str] accessor needs an object column. *)
Definition str_split (a : column) (sep : ascii)
  : result (list (option (list string))) :=
  match a with
  | ColObj x => Ok (map (option_map (Py.split sep)) x)
  | _ => Raise AttributeError
  end.

(** [pieces.str[i]]: missing where the row is missing or too short. *)
Definition str_get (pieces : list (option (list string))) (i : nat)
  : column :=
  ColObj (map (fun o => match o with
                        | Some ps => nth_error ps i
                        | None => None
                        end) pieces).

(** [float(x)] on a cell of an object column. *)
Definition cell_float (x : obj) : result spec_float :=
  match x with
  | Some s => Py.float s
  | None => Ok Float64.nan
  end.

(** Conversion of a whole list, failing at the first cell that fails. *)
Fixpoint cells_float (l : list obj) : result (list spec_float) :=
  match l with
  | [] => Ok []
  | x :: l' =>
      v ← cell_float x;
      vs ← cells_float l';
      mret (v :: vs)
  end.

(** [a.astype(float, errors='ignore')]: the converted column, or the
    column as it was when the conversion raises. *)
Definition astype_float_ignore (a : column) : column :=
  match a with
  | ColObj x =>
      match cells_float x with
      | Ok vs => ColFloat vs
      | Raise _ => a
      end
  | ColFloat _ => a
  | ColInt x => ColFloat (map Float64.of_Z x)
  | ColTime _ => a
  end.

(** [a.apply(f)] for [f] returning a string; only object columns reach
    this call in [preprocess_data]. *)
Definition col_apply (a : column) (f : obj -> string) : result column :=
  match a with
  | ColObj x => Ok (ColObj (map (fun o => Some (f o)) x))
  | _ => Raise TypeError
  end.

(** Number of matches of the regular expression [\d+] followed by the
    literal [lit]: the digits at which [lit] starts right after. *)
Fixpoint count_digits_then (lit : string) (s : string) : Z :=
  match s with
  | EmptyString => 0
  | String c s' =>
      (if Py.is_digit c && String.prefix lit s' then 1 else 0)
      + count_digits_then lit s'
  end.

(** [a.str.count(r'\d+' + lit)] *)
Definition str_count (a : column) (lit : string) : result column :=
  match a with
  | ColObj x => Ok (int_or_float (map (option_map (count_digits_then lit)) x))
  | _ => Raise AttributeError
  end.

(** [a.dt.hour] and [a.dt.day_name()] *)
Definition hour_of (t : instant) : Z := (t / 3600000000000) mod 24.

Definition day_names : list string :=
  ["Monday"; "Tuesday"; "Wednesday"; "Thursday"; "Friday"; "Saturday";
   "Sunday"]%string.

(** The epoch was a Thursday. *)
Definition day_name_of (t : instant) : string :=
  nth (Z.to_nat ((t / 86400000000000 + 3) mod 7)) day_names ""%string.

Definition dt_hour (a : column) : result column :=
  match a with
  | ColTime x => Ok (int_or_float (map (option_map hour_of) x))
  | _ => Raise AttributeError
  end.

Definition dt_day_name (a : column) : result column :=
  match a with
  | ColTime x => Ok (ColObj (map (option_map day_name_of) x))
  | _ => Raise AttributeError
  end.

(** ** pandas: data frames *)

Record DataFrame : Type := {
  nrows : nat;                       (* the length of the index *)
  cols : list (string * column)      (* the columns, in order *)
}.

Definition len (df : DataFrame) : nat := nrows df.

Definition column_names (df : DataFrame) : list string := map fst (cols df).

Definition has_column (name : string) (df : DataFrame) : bool :=
  existsb (String.eqb name) (column_names df).

Fixpoint assoc_get (name : string) (l : list (string * column))
  : option column :=
  match l with
  | [] => None
  | (k, c) :: l' => if String.eqb k name then Some c else assoc_get name l'
  end.

(** Assignment replaces the column in place, or appends a new one. *)
Fixpoint assoc_set (name : string) (c : column) (l : list (string * column))
  : list (string * column) :=
  match l with
  | [] => [(name, c)]
  | (k, c0) :: l' =>
      if String.eqb k name then (k, c) :: l'
      else (k, c0) :: assoc_set name c l'
  end.

Definition get_column (name : string) (df : DataFrame) : option column :=
  assoc_get name (cols df).

Definition set_column (name : string) (c : column) (df : DataFrame)
  : DataFrame :=
  {| nrows := nrows df; cols := assoc_set name c (cols df) |}.

(** Every column has one cell per row. *)
Definition well_formed (df : DataFrame) : bool :=
  forallb (fun kc => Nat.eqb (col_len (snd kc)) (nrows df)) (cols df).

(** Statements on one frame. *)
Module Frame.
(** [name in df.columns] *)
Definition contains (name : string) : M DataFrame bool :=
  fun df => (Ok (has_column name df), df).

(** [df[name]] *)
Definition getitem (name : string) : M DataFrame column :=
  fun df =>
    match get_column name df with
    | Some c => (Ok c, df)
    | None => (Raise KeyError, df)
    end.

(** [df[name] = c] *)
Definition setitem (name : string) (c : column) : M DataFrame unit :=
  fun df => (Ok tt, set_column name c df).
End Frame.

(** ** The object store

    Data frames are mutable objects: a variable holds a reference, and
    an assignment [df[name] = c] updates the frame the reference points
    to, for every holder of that reference. *)

Definition loc : Type := positive.

(** [m] run on the frame at [l]. *)
Definition at_loc {A} (l : loc) (m : M DataFrame A)
  : M (gmap loc DataFrame) A :=
  fun h =>
    match h !! l with
    | Some df => let '(r, df') := m df in (r, <[l := df']> h)
    | None => (Raise ReferenceError, h)
    end.

(** [df.copy()]: a new frame with the same contents. *)
Definition copy (l : loc) : M (gmap loc DataFrame) loc :=
  fun h =>
    match h !! l with
    | Some df => let l' := fresh (dom h) in (Ok l', <[l' := df]> h)
    | None => (Raise ReferenceError, h)
    end.

(** ** [preprocess_data] (utils.py) *)

Section Preprocessor.
(** [strptime format text] is the instant that pandas parses [text]
    to under [format], if it parses: the calendar arithmetic of
    [pd.to_datetime] is a parameter of the model. *)
Variable strptime : string -> string -> option instant.

(** [pd.to_datetime(a, format=format, errors='coerce')]; only object
    columns reach this call in [preprocess_data]. *)
Definition to_datetime (a : column) (format : string) : result column :=
  match a with
  | ColObj x => Ok (ColTime (map (fun o => o ≫= strptime format) x))
  | _ => Raise TypeError
  end.

(** Combine date and time columns (lines 58-64). *)
Definition derive_datetime : M DataFrame unit :=
  has_date ← Frame.contains "UTCDate";
  has_time ← Frame.contains "UTCTime";
  if has_date && has_time then
    utc_date ← Frame.getitem "UTCDate";
    padded ← lift (col_add_str utc_date " ");
    utc_time ← Frame.getitem "UTCTime";
    joined ← lift (col_add padded utc_time);
    date_time ← lift (to_datetime joined "%Y.%m.%d %H:%M:%S");
    Frame.setitem "DateTime" date_time;;
    utc_date ← Frame.getitem "UTCDate";
    date ← lift (to_datetime utc_date "%Y.%m.%d");
    Frame.setitem "Date" date;;
    date_time ← Frame.getitem "DateTime";
    hour ← lift (dt_hour date_time);
    Frame.setitem "Hour" hour;;
    date ← Frame.getitem "Date";
    day ← lift (dt_day_name date);
    Frame.setitem "DayOfWeek" day
  else mret tt.

(** Parse time control (lines 67-88). *)
Definition derive_time_control : M DataFrame unit :=
  has_tc ← Frame.contains "TimeControl";
  if has_tc : bool then
    tc ← Frame.getitem "TimeControl";
    pieces ← lift (str_split tc "+");
    Frame.setitem "TimeControl_Base"
      (astype_float_ignore (str_get pieces 0));;
    tc ← Frame.getitem "TimeControl";
    pieces ← lift (str_split tc "+");
    Frame.setitem "TimeControl_Increment"
      (astype_float_ignore (str_get pieces 1));;
    tc ← Frame.getitem "TimeControl";
    grouped ← lift (col_apply tc categorize_time_control);
    Frame.setitem "TimeControl_Grouped" grouped
  else mret tt.

(** Calculate average ELO (lines 91-93). *)
Definition derive_elo : M DataFrame unit :=
  has_white ← Frame.contains "WhiteElo";
  has_black ← Frame.contains "BlackElo";
  if has_white && has_black then
    white ← Frame.getitem "WhiteElo";
    black ← Frame.getitem "BlackElo";
    total ← lift (col_add white black);
    avg ← lift (col_div_int total 2);
    Frame.setitem "AvgElo" avg;;
    white ← Frame.getitem "WhiteElo";
    black ← Frame.getitem "BlackElo";
    diff ← lift (col_sub white black);
    elo_diff ← lift (col_abs diff);
    Frame.setitem "EloDiff" elo_diff
  else mret tt.

(** Parse result (lines 96-99). *)
Definition derive_result : M DataFrame unit :=
  has_result ← Frame.contains "Result";
  if has_result : bool then
    res ← Frame.getitem "Result";
    Frame.setitem "WhiteWins" (astype_int (col_eq_str res "1-0"));;
    res ← Frame.getitem "Result";
    Frame.setitem "BlackWins" (astype_int (col_eq_str res "0-1"));;
    res ← Frame.getitem "Result";
    Frame.setitem "Draw" (astype_int (col_eq_str res "1/2-1/2"))
  else mret tt.

(** Extract move count from the AN column (lines 102-103). *)
Definition derive_move_count : M DataFrame unit :=
  has_an ← Frame.contains "AN";
  if has_an : bool then
    an ← Frame.getitem "AN";
    numbered ← lift (str_count an ".");
    an ← Frame.getitem "AN";
    ellipses ← lift (str_count an "...");
    total ← lift (col_add numbered ellipses);
    Frame.setitem "MoveCount" total
  else mret tt.

(** The statements after [df = df.copy()], on the frame [df] names. *)
Definition derive_columns : M DataFrame unit :=
  derive_datetime;;
  derive_time_control;;
  derive_elo;;
  derive_result;;
  derive_move_count.

Definition preprocess_data (df : loc) : M (gmap loc DataFrame) loc :=
  df ← copy df;
  at_loc df derive_columns;;
  mret df.
End Preprocessor.

(** ** [load_chess_data] (utils.py)

    The loader never looks inside a row: a table is the list of its
    rows, in file order, for any type of rows. *)

Section Loader.
Context {Row : Type}.

(** What the loader can observe of its environment: the tables the CSV
    files hold, and the state of numpy's global random generator. *)
Record world : Type := {
  files : gmap string (list Row);
  np_random : Z
}.

(** [choice seed population size]: the positions that a generator
    seeded with [seed] draws without replacement; [advance] is the
    state of the global generator after a draw.  Both are parameters
    of the model. *)
Variable choice : Z -> nat -> nat -> list nat.
Variable advance : Z -> Z.

(** [pd.read_csv(filepath)] *)
Definition read_csv (filepath : string) : M world (list Row) :=
  fun w =>
    match files w !! filepath with
    | Some rows => (Ok rows, w)
    | None => (Raise FileNotFoundError, w)
    end.

(** The successive blocks of [n] rows; the last one may be shorter.
    [fuel] bounds the number of blocks. *)
Fixpoint blocks (fuel : nat) (n : nat) (rows : list Row)
  : list (list Row) :=
  match fuel, rows with
  | S fuel', _ :: _ => take n rows :: blocks fuel' n (drop n rows)
  | _, _ => []
  end.

(** The chunks of a table: a table without rows comes as one empty
    chunk. *)
Definition chunks_of (n : nat) (rows : list Row) : list (list Row) :=
  match rows with
  | [] => [[]]
  | _ => blocks (length rows) n rows
  end.

(** [pd.read_csv(filepath, chunksize=chunksize)]: the chunks the
    iterator yields. *)
Definition read_csv_chunks (filepath : string) (chunksize : Z)
  : M world (list (list Row)) :=
  fun w =>
    if chunksize <? 1 then (Raise ValueError, w)
    else
      match files w !! filepath with
      | Some rows => (Ok (chunks_of (Z.to_nat chunksize) rows), w)
      | None => (Raise FileNotFoundError, w)
      end.

(** [pd.concat(chunks, ignore_index=True)] *)
Definition pd_concat (chunks : list (list Row)) : result (list Row) :=
  match chunks with
  | [] => Raise ValueError
  | _ => Ok (concat chunks)
  end.

Definition take_rows (positions : list nat) (df : list Row) : list Row :=
  omap (fun i => df !! i) positions.

(** [df.sample(n=n, random_state=random_state)]: with a seed, a new
    generator is made from it; without one the global generator is
    used, and advanced. *)
Definition sample (df : list Row) (n : Z) (random_state : option Z)
  : M world (list Row) :=
  fun w =>
    if (n <? 0) || (Z.of_nat (length df) <? n) then (Raise ValueError, w)
    else
      match random_state with
      | Some seed =>
          (Ok (take_rows (choice seed (length df) (Z.to_nat n)) df), w)
      | None =>
          (Ok (take_rows (choice (np_random w) (length df) (Z.to_nat n))
                 df),
           {| files := files w; np_random := advance (np_random w) |})
      end.

(** The [for] loop of lines 29-32 over the chunks still to come. *)
Fixpoint accumulate (chunk_size sample_size : Z)
  (iterator chunks : list (list Row)) : list (list Row) :=
  match iterator with
  | [] => chunks
  | chunk :: iterator' =>
      let chunks := chunks ++ [chunk] in
      if Z.of_nat (length chunks) * chunk_size >=? sample_size
      then chunks
      else accumulate chunk_size sample_size iterator' chunks
  end.

(** Truth value of the optional integer [sample_size]. *)
Definition truthy (sample_size : option Z) : bool :=
  match sample_size with
  | Some n => negb (n =? 0)
  | None => false
  end.

Definition int_of (sample_size : option Z) : Z :=
  match sample_size with Some n => n | None => 0 end.

Definition load_chess_data (filepath : string) (sample_size : option Z)
  : M world (list Row) :=
  if truthy sample_size then
    let sample_size := int_of sample_size in
    let chunk_size := 100000 in
    iterator ← read_csv_chunks filepath chunk_size;
    let chunks := accumulate chunk_size sample_size iterator [] in
    df ← lift (pd_concat chunks);
    df ← sample df (Z.min sample_size (Z.of_nat (length df))) (Some 42);
    mret df
  else
    df ← read_csv filepath;
    mret df.

(** The loop as the specification words it: blocks are accumulated
    until the number of rows read so far reaches the sample size. *)
Fixpoint accumulate_by_rows (sample_size : Z)
  (iterator chunks : list (list Row)) : list (list Row) :=
  match iterator with
  | [] => chunks
  | chunk :: iterator' =>
      let chunks := chunks ++ [chunk] in
      if Z.of_nat (length (concat chunks)) >=? sample_size
      then chunks
      else accumulate_by_rows sample_size iterator' chunks
  end.

(** A generator draws [size] distinct positions below [population]. *)
Definition draws_without_replacement : Prop :=
  forall (seed : Z) (population size : nat),
    (size <= population)%nat ->
    length (choice seed population size) = size /\
    NoDup (choice seed population size) /\
    Forall (fun i => (i < population)%nat) (choice seed population size).

(** All chunks but the last hold [n] rows. *)
Fixpoint full_but_last (n : nat) (iterator : list (list Row)) : Prop :=
  match iterator with
  | [] => True
  | chunk :: iterator' =>
      match iterator' with
      | [] => True
      | _ => length chunk = n /\ full_but_last n iterator'
      end
  end.
End Loader.

Arguments world Row : clear implicits.

(** ** Vocabulary of the properties *)

Definition time_control_labels : list string :=
  ["Unknown"; "Bullet (<3min)"; "Blitz (3-10min)"; "Rapid (10-60min)";
   "Classical (>60min)"]%string.

(** The base part of a time control, parsed: what the [try] block of
    [categorize_time_control] computes before it compares. *)
Definition base_seconds (s : string) : result spec_float :=
  base ← Py.list_index (Py.split "+" s) 0;
  Py.float base.

(** The raw columns carry the types of the data model: where present,
    the date, time, time-control and move-text columns hold strings and
    the two rating columns hold numbers. *)
Definition is_object (c : column) : bool :=
  match c with ColObj _ => true | _ => false end.

Definition is_numeric (c : column) : bool :=
  match c with ColFloat _ | ColInt _ => true | _ => false end.

Definition column_is (p : column -> bool) (df : DataFrame) (name : string)
  : bool :=
  match get_column name df with
  | Some c => p c
  | None => true
  end.

Definition schema_ok (df : DataFrame) : bool :=
  forallb (column_is is_object df)
    ["UTCDate"; "UTCTime"; "TimeControl"; "AN"]%string
  && forallb (column_is is_numeric df) ["WhiteElo"; "BlackElo"]%string.

(** The raw columns on which [preprocess_data] returns, as [read_csv]
    types them (object, int64 or float64).  The text columns
    [TimeControl] and [AN] are of object dtype.  Dates are of object
    dtype, and no row has a date string beside a time that is a number.
    No row has a rating that is a string beside a rating that is
    present.  A column that is absent asks for nothing, and a date or a
    rating column asks for nothing without its companion. *)
Definition joins (date time : column) : bool :=
  match date, time with
  | ColObj _, ColObj _ => true
  | ColObj x, ColFloat y => negb (text_meets x (map present_float y))
  | ColObj x, ColInt y => negb (text_meets x (always y))
  | _, _ => false
  end.

Definition rates (white black : column) : bool :=
  match white, black with
  | ColObj x, ColObj y => negb (text_meets x (map present_obj y))
  | ColObj x, ColFloat y => negb (text_meets x (map present_float y))
  | ColObj x, ColInt y => negb (text_meets x (always y))
  | ColFloat x, ColObj y => negb (text_meets y (map present_float x))
  | ColInt x, ColObj y => negb (text_meets y (always x))
  | ColTime _, _ | _, ColTime _ => false
  | _, _ => true
  end.

Definition dates_ok (df : DataFrame) : bool :=
  match get_column "UTCDate" df, get_column "UTCTime" df with
  | Some date, Some time => joins date time
  | _, _ => true
  end.

Definition ratings_ok (df : DataFrame) : bool :=
  match get_column "WhiteElo" df, get_column "BlackElo" df with
  | Some white, Some black => rates white black
  | _, _ => true
  end.

Definition preprocessable (df : DataFrame) : bool :=
  dates_ok df && column_is is_object df "TimeControl"
  && ratings_ok df && column_is is_object df "AN".

(** The columns [preprocess_data] assigns. *)
Definition derived_names : list string :=
  ["DateTime"; "Date"; "Hour"; "DayOfWeek";
   "TimeControl_Base"; "TimeControl_Increment"; "TimeControl_Grouped";
   "AvgElo"; "EloDiff"; "WhiteWins"; "BlackWins"; "Draw";
   "MoveCount"]%string.

(** [df'] is [df] with columns of [names] assigned: the same rows, and
    every other column as it was. *)
Definition assigns (names : list string) (df df' : DataFrame) : Prop :=
  nrows df' = nrows df /\
  (well_formed df = true -> well_formed df' = true) /\
  (forall name, name ∉ names -> get_column name df' = get_column name df).

(** A generator that draws the first positions. *)
Definition first_positions (seed : Z) (population size : nat) : list nat :=
  seq 0 size.

Definition three_games : world nat :=
  {| files := {[ "chess_games.csv"%string := [10; 20; 30]%nat ]};
     np_random := 0 |}.

(** The string in row [i] of a column, if that cell holds one. *)
Definition cell_str (c : column) (i : nat) : option string :=
  match c with
  | ColObj l => mjoin (l !! i)
  | _ => None
  end.

(** A calendar that parses nothing, for frames without date columns. *)
Definition no_calendar (format text : string) : option instant := None.

(** A table with the columns of the data model and no rows. *)
Definition no_games : DataFrame :=
  {| nrows := 0;
     cols := [("WhiteElo", ColInt []); ("BlackElo", ColInt []);
              ("Result", ColObj []); ("TimeControl", ColObj []);
              ("UTCDate", ColObj []); ("UTCTime", ColObj []);
              ("AN", ColObj [])]%string |}.

(** The table [read_csv] gives for a file that holds the header line
    only: no rows, and every column of object dtype. *)
Definition header_only : DataFrame :=
  {| nrows := 0;
     cols := [("Event", ColObj []); ("White", ColObj []);
              ("Black", ColObj []); ("Result", ColObj []);
              ("UTCDate", ColObj []); ("UTCTime", ColObj []);
              ("WhiteElo", ColObj []); ("BlackElo", ColObj []);
              ("WhiteRatingDiff", ColObj []); ("BlackRatingDiff", ColObj []);
              ("ECO", ColObj []); ("Opening", ColObj []);
              ("TimeControl", ColObj []); ("Termination", ColObj []);
              ("AN", ColObj [])]%string |}.

(** Two games without a time and without the rating of Black (columns
    without a value are of float64 dtype); the rating of White is a
    text in the first and missing in the second. *)
Definition unrated_games : DataFrame :=
  {| nrows := 2;
     cols := [("UTCDate", ColObj [Some "2016.06.30"; Some "2016.07.01"]);
              ("UTCTime", ColFloat [Float64.nan; Float64.nan]);
              ("WhiteElo", ColObj [Some "?"; None]);
              ("BlackElo", ColFloat [Float64.nan; Float64.nan]);
              ("Result", ColObj [Some "1-0"; Some "0-1"])]%string |}.

(** The scenario row of the specification, and a game without a clock. *)
Definition two_games : DataFrame :=
  {| nrows := 2;
     cols := [("WhiteElo", ColInt [1500; 1720]);
              ("BlackElo", ColInt [1520; 1690]);
              ("Result", ColObj [Some "1/2-1/2"; Some "1-0"]);
              ("TimeControl", ColObj [Some "300+3"; Some "-"]);
              ("ECO", ColObj [Some "C50"; Some "B12"])]%string |}.

(** The pieces of the time controls at position [side] of the split on
    ["+"]: missing where the time control is missing or has fewer
    pieces. *)
Definition time_control_side (x : list obj) (side : nat) : list obj :=
  map (fun o => match o with
                | Some s => nth_error (Py.split "+" s) side
                | None => None
                end) x.

(** The time-control columns as the specification words them: every
    cell parsed on its own, a cell that does not parse being missing. *)
Definition coerce_cell (p : obj) : spec_float :=
  match cell_float p with
  | Ok v => v
  | Raise _ => Float64.nan
  end.

Definition per_cell_parse (x : list obj) (side : nat) : column :=
  ColFloat (map coerce_cell (time_control_side x side)).

(** What a cell of a numeric column holds. *)
Definition holds_int (c : column) (i : nat) (z : Z) : Prop :=
  match c with
  | ColInt l => l !! i = Some z
  | ColFloat l => l !! i = Some (Float64.of_Z z)
  | _ => False
  end.

Definition cell_value (c : column) (i : nat) : option Q :=
  match c with
  | ColInt l => inject_Z <$> l !! i
  | ColFloat l => l !! i ≫= Float64.to_Q
  | _ => None
  end.

Definition cell_missing (c : column) (i : nat) : Prop :=
  match c with
  | ColObj l => l !! i = Some None
  | ColFloat l => l !! i = Some Float64.nan
  | ColInt _ => False
  | ColTime l => l !! i = Some None
  end.

Definition one_table : gmap loc DataFrame := {[1%positive := two_games]}.

Definition header_table : gmap loc DataFrame := {[1%positive := header_only]}.

(** [wp m df Q]: the outcome of [m] on the frame [df] satisfies [Q]. *)
Definition wp {A} (m : M DataFrame A) (df : DataFrame)
    (Q : result A -> DataFrame -> Prop) : Prop :=
  Q (m df).1 (m df).2.


(** ** The dashboard (dashboard.py)

    The statements of the page that compute on the table: the filters,
    the key metrics, the rating-difference bins and the opening
    categories.  Widgets and charts display these values. *)

(** [l[mask]]: the entries at which the mask is true. *)
Fixpoint select {A} (mask : list bool) (l : list A) : list A :=
  match mask, l with
  | b :: mask', a :: l' =>
      if b then a :: select mask' l' else select mask' l'
  | _, _ => []
  end.

Definition col_select (mask : list bool) (c : column) : column :=
  match c with
  | ColObj l => ColObj (select mask l)
  | ColFloat l => ColFloat (select mask l)
  | ColInt l => ColInt (select mask l)
  | ColTime l => ColTime (select mask l)
  end.

(** [mask.sum()] *)
Definition mask_sum (mask : list bool) : Z :=
  Z.of_nat (length (select mask mask)).

(** [df[mask]] for a boolean mask over the rows of [df]: a new frame of
    the rows at which the mask is true, in order. *)
Definition filter_rows (mask : list bool) (df : DataFrame) : DataFrame :=
  {| nrows := length (select mask mask);
     cols := map (fun kc => (fst kc, col_select mask (snd kc))) (cols df) |}.

(** [df_filtered = df_filtered[mask]]: the masks of the page are
    computed from the frame itself and have one entry per row. *)
Definition rebind_filtered (mask : list bool) : M DataFrame unit :=
  fun df => (Ok tt, filter_rows mask df).

(** [a >= n] and [a <= n] for an integer [n].  A missing number
    compares false.  In an object column a missing cell compares false
    and a string does not compare with a number; a timestamp column
    does not compare with a number. *)
Definition cells_compare_int (x : list obj) : result (list bool) :=
  if forallb isna x then Ok (map (fun _ => false) x) else Raise TypeError.

Definition col_ge_int (a : column) (n : Z) : result (list bool) :=
  match a with
  | ColFloat x => Ok (map (fun v => SFleb (Float64.of_Z n) v) x)
  | ColInt x => Ok (map (fun z => n <=? z) x)
  | ColObj x => cells_compare_int x
  | ColTime _ => Raise TypeError
  end.

Definition col_le_int (a : column) (n : Z) : result (list bool) :=
  match a with
  | ColFloat x => Ok (map (fun v => SFleb v (Float64.of_Z n)) x)
  | ColInt x => Ok (map (fun z => z <=? n) x)
  | ColObj x => cells_compare_int x
  | ColTime _ => Raise TypeError
  end.

(** [m1 & m2] *)
Definition mask_and (m1 m2 : list bool) : list bool := zip_with andb m1 m2.

(** Apply filters (lines 96-102), on the frame [df_filtered] names. *)
Definition apply_filters (selected_time_control : string)
    (elo_range : Z * Z) : M DataFrame unit :=
  (if negb (String.eqb selected_time_control "All") then
     grouped ← Frame.getitem "TimeControl_Grouped";
     rebind_filtered (col_eq_str grouped selected_time_control)
   else mret tt);;
  avg ← Frame.getitem "AvgElo";
  lower ← lift (col_ge_int avg (fst elo_range));
  avg ← Frame.getitem "AvgElo";
  upper ← lift (col_le_int avg (snd elo_range));
  rebind_filtered (mask_and lower upper).

(** Key metrics (lines 108-118): the four counts shown. *)
Definition key_metrics : M DataFrame (Z * Z * Z * Z) :=
  fun df =>
    let total := Z.of_nat (len df) in
    (res ← Frame.getitem "Result";
     let white_wins := mask_sum (col_eq_str res "1-0") in
     res ← Frame.getitem "Result";
     let black_wins := mask_sum (col_eq_str res "0-1") in
     res ← Frame.getitem "Result";
     let draws := mask_sum (col_eq_str res "1/2-1/2") in
     mret (total, white_wins, black_wins, draws)) df.

(** [bins.searchsorted(x, side='left')] on increasing [bins]: the number
    of bins below [x]. *)
Fixpoint searchsorted_left {A} (below : A -> bool) (bins : list A) : nat :=
  match bins with
  | [] => 0
  | b :: bins' => if below b then S (searchsorted_left below bins') else 0
  end.

(** The label [pd.cut] gives a value that lies after [ids] of the
    [nbins] bin edges: none before the first edge or after the last. *)
Definition cut_label (labels : list string) (nbins ids : nat) : obj :=
  if Nat.eqb ids 0 || Nat.eqb ids nbins then None
  else nth_error labels (ids - 1).

(** The edges [pd.cut] accepts: increasing, and distinct unless there
    are just two. *)
Fixpoint nondecreasing (bins : list Z) : bool :=
  match bins with
  | b :: (b' :: _) as bins' => (b <=? b') && nondecreasing bins'
  | _ => true
  end.

Fixpoint increasing (bins : list Z) : bool :=
  match bins with
  | b :: (b' :: _) as bins' => (b <? b') && increasing bins'
  | _ => true
  end.

Definition valid_bins (bins : list Z) : bool :=
  nondecreasing bins && (increasing bins || Nat.eqb (length bins) 2).

(** [pd.cut(a, bins=bins, labels=labels)] with integer edges: intervals
    open on the left and closed on the right.  Only numeric columns
    reach this call in the dashboard. *)
Definition cut (a : column) (bins : list Z) (labels : list string)
  : result (list obj) :=
  if negb (valid_bins bins && Nat.eqb (length labels) (length bins - 1))
  then Raise ValueError
  else
    match a with
    | ColInt x =>
        Ok (map (fun z =>
                   cut_label labels (length bins)
                     (searchsorted_left (fun b => b <? z) bins)) x)
    | ColFloat x =>
        Ok (map (fun v =>
                   if Float64.is_nan v then None
                   else cut_label labels (length bins)
                          (searchsorted_left
                             (fun b => Float64.ltb (Float64.of_Z b) v) bins))
              x)
    | _ => Raise TypeError
    end.

(** The rating-difference bins (lines 198 and 204-208). *)
Definition elo_diff_bins : M DataFrame (list obj) :=
  white ← Frame.getitem "WhiteElo";
  black ← Frame.getitem "BlackElo";
  diff ← lift (col_sub white black);
  elo_diff ← lift (col_abs diff);
  Frame.setitem "EloDiff" elo_diff;;
  elo_diff ← Frame.getitem "EloDiff";
  lift (cut elo_diff [0; 50; 100; 200; 500; 1000]
          ["0-50"; "50-100"; "100-200"; "200-500"; "500+"]%string).

(** [a.apply(f)] for an [f] that may raise: the first cell on which [f]
    raises ends the call. *)
Fixpoint cells_apply (f : obj -> result string) (x : list obj)
  : result (list obj) :=
  match x with
  | [] => Ok []
  | o :: x' =>
      label ← f o;
      labels ← cells_apply f x';
      mret (Some label :: labels)
  end.

(** On a cell that is not a string [get_opening_category] sees a
    missing value, or the text of a number or of a timestamp, which
    starts with none of the five letters. *)
Definition opening_of_number (missing : bool) : obj :=
  Some (if missing then "Unknown" else "Other")%string.

(** [a.apply(get_opening_category)] *)
Definition col_apply_opening (a : column) : result column :=
  match a with
  | ColObj x =>
      labels ← cells_apply get_opening_category x; mret (ColObj labels)
  | ColFloat x =>
      Ok (ColObj (map (fun v => opening_of_number (Float64.is_nan v)) x))
  | ColInt x => Ok (ColObj (map (fun _ => opening_of_number false) x))
  | ColTime x =>
      Ok (ColObj (map (fun o => opening_of_number
                                   (match o with None => true | _ => false end))
                    x))
  end.

(** Opening categories (line 267). *)
Definition opening_categories : M DataFrame unit :=
  eco ← Frame.getitem "ECO";
  category ← lift (col_apply_opening eco);
  Frame.setitem "OpeningCategory" category.
(** ** Vocabulary of further properties *)

Definition opening_labels : list string :=
  ["Flank Openings"; "Semi-Open Games"; "Open Games"; "Closed Games";
   "Indian Defenses"; "Other"]%string.

(** The value [preprocess_data] gives [MoveCount] on a move text. *)
Definition move_count (s : string) : Z :=
  count_digits_then "." s + count_digits_then "..." s.

(** The bucket of a base time, as [categorize_time_control] tests it. *)
Definition bucket (v : spec_float) : string :=
  (if Py.lt_int v 180 then "Bullet (<3min)"
   else if Py.lt_int v 600 then "Blitz (3-10min)"
   else if Py.lt_int v 3600 then "Rapid (10-60min)"
   else "Classical (>60min)")%string.

(** Two games whose time controls all parse. *)
Definition timed_games : DataFrame :=
  {| nrows := 2;
     cols := [("TimeControl", ColObj [Some "300+3"; None]);
              ("AN", ColObj [Some "1. e4 e5 2. Nf3 Nc6"; Some "1. d4 1... d5"])
             ]%string |}.


Definition timed_table : gmap loc DataFrame := {[1%positive := timed_games]}.

(** The columns [preprocess_data] assigns on a frame: those of the
    blocks whose guard holds. *)
Definition assigned_names (df : DataFrame) : list string :=
  (if has_column "UTCDate" df && has_column "UTCTime" df
   then ["DateTime"; "Date"; "Hour"; "DayOfWeek"]%string else [])
  ++ (if has_column "TimeControl" df
      then ["TimeControl_Base"; "TimeControl_Increment";
            "TimeControl_Grouped"]%string else [])
  ++ (if has_column "WhiteElo" df && has_column "BlackElo" df
      then ["AvgElo"; "EloDiff"]%string else [])
  ++ (if has_column "Result" df
      then ["WhiteWins"; "BlackWins"; "Draw"]%string else [])
  ++ (if has_column "AN" df then ["MoveCount"]%string else []).

(** Two games with their dates, the second without a time. *)
Definition dated_games : DataFrame :=
  {| nrows := 2;
     cols := [("UTCDate", ColObj [Some "2016.06.30"; Some "2016.07.01"]);
              ("UTCTime", ColObj [Some "22:00:01"; None])]%string |}.

Definition dated_table : gmap loc DataFrame := {[1%positive := dated_games]}.

(** Date and time of a game as [preprocess_data] joins them. *)
Definition date_and_time (d t : obj) : obj :=
  match d, t with
  | Some d, Some t => Some ((d ++ " ") ++ t)%string
  | _, _ => None
  end.

(** A result that is a win or a draw. *)
Definition decided (o : obj) : bool :=
  match o with
  | Some s => String.eqb s "1-0" || String.eqb s "0-1"
              || String.eqb s "1/2-1/2"
  | None => false
  end.

(** The bin of a rating difference, as the labels read. *)
Definition elo_diff_bin (d : Z) : obj :=
  if d <=? 0 then None
  else if d <=? 50 then Some "0-50"%string
  else if d <=? 100 then Some "50-100"%string
  else if d <=? 200 then Some "100-200"%string
  else if d <=? 500 then Some "200-500"%string
  else if d <=? 1000 then Some "500+"%string
  else None.

(** Four games of the dashboard's table. *)
Definition shown_games : DataFrame :=
  {| nrows := 4;
     cols := [("WhiteElo", ColInt [1500; 1720; 1400; 2600]);
              ("BlackElo", ColInt [1520; 1690; 1400; 1500]);
              ("Result", ColObj [Some "1/2-1/2"; Some "1-0"; Some "*"; Some "0-1"]);
              ("ECO", ColObj [Some "C50"; Some "b12"; None; Some "X99"]);
              ("AvgElo", ColFloat [Float64.of_Z 1510; Float64.of_Z 1705;
                                   Float64.of_Z 1400; Float64.of_Z 2050]);
              ("TimeControl_Grouped",
               ColObj [Some "Blitz (3-10min)"; Some "Blitz (3-10min)";
                       Some "Unknown"; Some "Bullet (<3min)"])]%string |}.

(** A table whose time controls were read as numbers. *)
Definition numeric_clock : DataFrame :=
  {| nrows := 2;
     cols := [("TimeControl", ColInt [300; 600]);
              ("Result", ColObj [Some "1-0"; Some "0-1"])]%string |}.

Definition numeric_clock_table : gmap loc DataFrame :=
  {[1%positive := numeric_clock]}.

(** The label of a base time of [n] seconds, as the thresholds read. *)
Definition seconds_label (n : Z) : string :=
  if n <? 180 then "Bullet (<3min)"%string
  else if n <? 600 then "Blitz (3-10min)"%string
  else if n <? 3600 then "Rapid (10-60min)"%string
  else "Classical (>60min)"%string.
(** * Properties *)

(** ** binary64 arithmetic on integers

    Sums, differences and halves of integers below [2 ^ 53] are exact:
    no rounding takes place. *)

Lemma iter_pos_nat {A} (f : A -> A) p x :
  SpecFloat.iter_pos f p x = Nat.iter (Pos.to_nat p) f x.
Proof.
  revert x. induction p as [p IH|p IH|]; intros x.
  - rewrite Pos2Nat.inj_xI. cbn [SpecFloat.iter_pos]. rewrite !IH.
    replace (S (2 * Pos.to_nat p)) with (Pos.to_nat p + S (Pos.to_nat p))%nat
      by lia.
    by rewrite Nat.iter_add, Nat.iter_succ_r.
  - rewrite Pos2Nat.inj_xO. cbn [SpecFloat.iter_pos]. rewrite !IH.
    replace (2 * Pos.to_nat p)%nat with (Pos.to_nat p + Pos.to_nat p)%nat
      by lia.
    by rewrite Nat.iter_add.
  - done.
Qed.

Lemma shr_1_even m :
  0 <= m ->
  shr_1 {| shr_m := 2 * m; shr_r := false; shr_s := false |}
  = {| shr_m := m; shr_r := false; shr_s := false |}.
Proof. by destruct m. Qed.

Lemma shr_exact (n : nat) m :
  0 <= m ->
  Nat.iter n shr_1
    {| shr_m := m * 2 ^ Z.of_nat n; shr_r := false; shr_s := false |}
  = {| shr_m := m; shr_r := false; shr_s := false |}.
Proof.
  revert m. induction n as [|n IH]; intros m Hm.
  - simpl. by rewrite Z.mul_1_r.
  - rewrite Nat.iter_succ_r.
    replace (m * 2 ^ Z.of_nat (S n)) with (2 * (m * 2 ^ Z.of_nat n)).
    + rewrite shr_1_even by (apply Z.mul_nonneg_nonneg; lia). by apply IH.
    + rewrite Nat2Z.inj_succ, Z.pow_succ_r by lia. ring.
Qed.

Lemma digits2_pos_log2 p : Zpos (digits2_pos p) = Z.log2 (Zpos p) + 1.
Proof.
  induction p as [p IH|p IH|]; simpl digits2_pos; [| |done].
  - rewrite Pos2Z.inj_succ, IH. destruct p; simpl; lia.
  - rewrite Pos2Z.inj_succ, IH. destruct p; simpl; lia.
Qed.

Lemma Zdigits2_mul_pow2 m k :
  0 < m -> 0 <= k -> Zdigits2 (m * 2 ^ k) = Zdigits2 m + k.
Proof.
  intros Hm Hk.
  assert (0 < m * 2 ^ k) as Hpos by (apply Z.mul_pos_pos; lia).
  destruct m as [|p|p]; try lia.
  destruct (Zpos p * 2 ^ k) as [|q|q] eqn:Hq; try lia.
  simpl. rewrite !digits2_pos_log2, <- Hq.
  rewrite Z.log2_mul_pow2 by lia. lia.
Qed.

Lemma iter_xO m d : Zpos (Pos.iter xO m d) = Zpos m * 2 ^ Zpos d.
Proof.
  revert m. induction d as [|d IH] using Pos.peano_ind; intros m.
  - simpl. lia.
  - rewrite Pos.iter_succ, Pos2Z.inj_xO, IH, Pos2Z.inj_succ,
      Z.pow_succ_r by lia.
    ring.
Qed.

Lemma fexp_normal e : -1074 <= e - 53 -> fexp 53 1024 e = e - 53.
Proof. intros H. unfold fexp, emin. lia. Qed.

(** A mantissa of exactly 53 bits is kept as it is. *)
Lemma binary_round_aux_53 s m e :
  Zdigits2 (Zpos m) = 53 -> -1074 <= e <= 971 ->
  binary_round_aux 53 1024 s (Zpos m) e loc_Exact = S754_finite s m e.
Proof.
  intros Hd He. unfold binary_round_aux, shr_fexp.
  rewrite Hd, fexp_normal by lia.
  replace (53 + e - 53 - e) with 0 by lia.
  cbn [shr shr_record_of_loc shr_m loc_of_shr_record round_nearest_even].
  rewrite Hd, fexp_normal by lia.
  replace (53 + e - 53 - e) with 0 by lia.
  cbn [shr shr_record_of_loc shr_m].
  destruct (Z.leb_spec e (1024 - 53)); [done|lia].
Qed.

(** Zero bits beyond the 53rd are shifted out. *)
Lemma binary_round_aux_shift s m q n e :
  Zdigits2 (Zpos q) = 53 -> 0 < n -> Zpos m = Zpos q * 2 ^ n ->
  -1074 <= e + n <= 971 ->
  binary_round_aux 53 1024 s (Zpos m) e loc_Exact = S754_finite s q (e + n).
Proof.
  intros Hd Hn Hm He.
  assert (Zdigits2 (Zpos m) = 53 + n) as Hdm.
  { rewrite Hm, Zdigits2_mul_pow2 by lia. lia. }
  unfold binary_round_aux, shr_fexp at 1.
  rewrite Hdm, fexp_normal by lia.
  replace (53 + n + e - 53 - e) with n by lia.
  destruct n as [|pn|pn]; try lia.
  assert (SpecFloat.iter_pos shr_1 pn
            {| shr_m := Zpos m; shr_r := false; shr_s := false |}
          = {| shr_m := Zpos q; shr_r := false; shr_s := false |}) as Hshr.
  { rewrite iter_pos_nat, Hm, <- (positive_nat_Z pn).
    apply shr_exact. lia. }
  cbn [shr shr_record_of_loc]. rewrite Hshr.
  cbn [shr_m loc_of_shr_record round_nearest_even].
  unfold shr_fexp. rewrite Hd, fexp_normal by lia.
  replace (53 + (e + Z.pos pn) - 53 - (e + Z.pos pn)) with 0 by lia.
  cbn [shr shr_record_of_loc shr_m].
  destruct (Z.leb_spec (e + Z.pos pn) (1024 - 53)); [done|lia].
Qed.

Lemma binary_round_canon s p k e m :
  Zdigits2 (Zpos p) <= 53 -> 0 <= k -> Zpos m = Zpos p * 2 ^ k ->
  -1074 <= e + k + Zdigits2 (Zpos p) - 53 <= 971 ->
  binary_round 53 1024 s m e
  = S754_finite s (Z.to_pos (Zpos p * 2 ^ (53 - Zdigits2 (Zpos p))))
      (e + k + Zdigits2 (Zpos p) - 53).
Proof.
  intros Hd Hk Hm He.
  set (d := Zdigits2 (Zpos p)) in *.
  assert (1 <= d) as Hd1 by (unfold d; simpl; lia).
  assert (Zpos (digits2_pos m) = d + k) as HD.
  { change (Zpos (digits2_pos m)) with (Zdigits2 (Zpos m)).
    rewrite Hm, Zdigits2_mul_pow2 by lia. done. }
  set (q := Z.to_pos (Zpos p * 2 ^ (53 - d))).
  assert (Zpos q = Zpos p * 2 ^ (53 - d)) as Hq.
  { unfold q. rewrite Z2Pos.id; [done|]. apply Z.mul_pos_pos; lia. }
  assert (Zdigits2 (Zpos q) = 53) as Hdq.
  { rewrite Hq, Zdigits2_mul_pow2 by lia. fold d. lia. }
  unfold binary_round. rewrite HD, fexp_normal by lia.
  unfold shl_align.
  destruct (d + k + e - 53 - e) as [|n|n] eqn:Hn.
  - assert (m = q) as ->.
    { apply Pos2Z.inj. rewrite Hm, Hq. f_equal. f_equal. lia. }
    rewrite binary_round_aux_53 by (done || lia). f_equal. lia.
  - assert (Zpos m = Zpos q * 2 ^ Zpos n) as Hmq.
    { rewrite Hm, Hq, <- Z.mul_assoc, <- Z.pow_add_r by lia.
      f_equal. f_equal. lia. }
    rewrite (binary_round_aux_shift s m q (Zpos n) e) by (done || lia).
    f_equal. lia.
  - assert (Pos.iter xO m n = q) as ->.
    { apply Pos2Z.inj. rewrite iter_xO, Hm, Hq, <- Z.mul_assoc,
        <- Z.pow_add_r by lia.
      f_equal. f_equal. lia. }
    rewrite binary_round_aux_53 by (done || lia). f_equal. lia.
Qed.

Lemma Zdigits2_bound n : Z.abs n < 2 ^ 53 -> Zdigits2 n <= 53.
Proof.
  intros Hn.
  assert (forall p, Zpos p < 2 ^ 53 -> Zpos (digits2_pos p) <= 53) as Hp.
  { intros p Hlt. rewrite digits2_pos_log2.
    assert (Z.log2 (Zpos p) < 53); [|lia].
    apply Z.log2_lt_pow2; lia. }
  destruct n as [|p|p]; simpl; [lia|apply Hp; lia|apply Hp; lia].
Qed.

Lemma Zdigits2_pos n : n <> 0 -> 1 <= Zdigits2 n.
Proof. destruct n; simpl; lia. Qed.

Lemma binary_normalize_canon n k e :
  Z.abs n < 2 ^ 53 -> 0 <= k ->
  -1074 <= e + k + Zdigits2 n - 53 <= 971 ->
  binary_normalize 53 1024 (n * 2 ^ k) e false = Float64.canon n (e + k).
Proof.
  intros Hn Hk He. pose proof (Zdigits2_bound n Hn) as Hd.
  assert (0 < 2 ^ k) as Hpow by lia.
  destruct n as [|p|p]; [done| |].
  - destruct (Zpos p * 2 ^ k) as [|m|m] eqn:Hm; try lia.
    unfold binary_normalize, Float64.canon.
    by apply binary_round_canon.
  - destruct (Zneg p * 2 ^ k) as [|m|m] eqn:Hm; try lia.
    unfold binary_normalize, Float64.canon.
    apply binary_round_canon; [done|done|lia|done].
Qed.

Lemma of_Z_canon n : Z.abs n < 2 ^ 53 -> Float64.of_Z n = Float64.canon n 0.
Proof.
  intros Hn. unfold Float64.of_Z.
  pose proof (Zdigits2_bound n Hn).
  destruct (Z.eq_dec n 0) as [->|Hn0]; [done|].
  pose proof (Zdigits2_pos n Hn0).
  rewrite <- (Z.mul_1_r n) at 1. change 1 with (2 ^ 0).
  apply (binary_normalize_canon n 0 0); lia.
Qed.

Lemma shl_align_value m e e' :
  e' <= e -> Zpos (fst (shl_align m e e')) = Zpos m * 2 ^ (e - e').
Proof.
  intros He. unfold shl_align.
  destruct (e' - e) as [|d|d] eqn:Hd; simpl fst.
  - replace (e - e') with 0 by lia. lia.
  - lia.
  - rewrite iter_xO. f_equal. f_equal. lia.
Qed.

Lemma cond_Zopp_mul s a b : cond_Zopp s (a * b) = cond_Zopp s a * b.
Proof. destruct s; simpl; ring. Qed.

Lemma canon_finite n :
  n <> 0 -> Zdigits2 n <= 53 ->
  exists m,
    (forall e,
        Float64.canon n e
        = S754_finite (n <? 0) m (e + Zdigits2 n - 53)) /\
    Zpos m = Z.abs n * 2 ^ (53 - Zdigits2 n) /\
    cond_Zopp (n <? 0) (Zpos m) = n * 2 ^ (53 - Zdigits2 n).
Proof.
  intros Hn Hd.
  destruct n as [|p|p]; [done| |]; eexists;
    (split; [intros e; reflexivity|]);
    cbn [cond_Zopp Z.ltb Z.compare Z.abs];
    (rewrite Z2Pos.id
      by (apply Z.mul_pos_pos; [lia|apply Z.pow_pos_nonneg; lia]));
    [done|].
  split; [done|]. by rewrite <- Z.mul_opp_l.
Qed.

(** The aligned mantissa of a normal-form integer. *)
Lemma canon_aligned n m e e' :
  n <> 0 -> Zdigits2 n <= 53 ->
  Float64.canon n 0 = S754_finite (n <? 0) m e -> e' <= e ->
  cond_Zopp (n <? 0) (Zpos (fst (shl_align m e e'))) = n * 2 ^ (- e').
Proof.
  intros Hn Hd Hc He.
  destruct (canon_finite n Hn Hd) as (m' & Hc' & _ & Hm).
  rewrite Hc' in Hc. injection Hc as <- <-.
  pose proof (Zdigits2_pos n Hn).
  rewrite shl_align_value, cond_Zopp_mul, Hm, <- Z.mul_assoc,
    <- Z.pow_add_r by lia.
  do 2 f_equal. lia.
Qed.

Lemma add_of_Z a b :
  Z.abs a < 2 ^ 53 -> Z.abs b < 2 ^ 53 -> Z.abs (a + b) < 2 ^ 53 ->
  Float64.add (Float64.of_Z a) (Float64.of_Z b) = Float64.of_Z (a + b).
Proof.
  intros Ha Hb Hab. rewrite !of_Z_canon by done.
  pose proof (Zdigits2_bound a Ha) as Hda.
  pose proof (Zdigits2_bound b Hb) as Hdb.
  pose proof (Zdigits2_bound _ Hab) as Hdab.
  destruct (Z.eq_dec a 0) as [->|Ha0].
  { destruct (Z.eq_dec b 0) as [->|Hb0]; [done|].
    destruct (canon_finite b Hb0 Hdb) as (m & Hc & _).
    simpl (0 + b). by rewrite Hc. }
  destruct (Z.eq_dec b 0) as [->|Hb0].
  { destruct (canon_finite a Ha0 Hda) as (m & Hc & _).
    rewrite Z.add_0_r. by rewrite Hc. }
  destruct (canon_finite a Ha0 Hda) as (ma & Hca & _).
  destruct (canon_finite b Hb0 Hdb) as (mb & Hcb & _).
  pose proof (Zdigits2_pos a Ha0). pose proof (Zdigits2_pos b Hb0).
  rewrite (Hca 0), (Hcb 0). unfold Float64.add. cbn [SFadd].
  rewrite (canon_aligned a), (canon_aligned b) by (done || lia).
  rewrite <- Z.mul_add_distr_r.
  rewrite binary_normalize_canon.
  - f_equal. lia.
  - done.
  - lia.
  - pose proof (Zdigits2_pos (a + b)).
    destruct (Z.eq_dec (a + b) 0) as [->|]; simpl Zdigits2; lia.
Qed.

Lemma sub_of_Z a b :
  Z.abs a < 2 ^ 53 -> Z.abs b < 2 ^ 53 -> Z.abs (a - b) < 2 ^ 53 ->
  Float64.sub (Float64.of_Z a) (Float64.of_Z b) = Float64.of_Z (a - b).
Proof.
  intros Ha Hb Hab. rewrite !of_Z_canon by done.
  pose proof (Zdigits2_bound a Ha) as Hda.
  pose proof (Zdigits2_bound b Hb) as Hdb.
  pose proof (Zdigits2_bound _ Hab) as Hdab.
  destruct (Z.eq_dec b 0) as [->|Hb0].
  { rewrite Z.sub_0_r. destruct (Z.eq_dec a 0) as [->|Ha0]; [done|].
    destruct (canon_finite a Ha0 Hda) as (m & Hc & _). by rewrite Hc. }
  destruct (Z.eq_dec a 0) as [->|Ha0].
  { destruct b; done. }
  destruct (canon_finite a Ha0 Hda) as (ma & Hca & _).
  destruct (canon_finite b Hb0 Hdb) as (mb & Hcb & _).
  pose proof (Zdigits2_pos a Ha0). pose proof (Zdigits2_pos b Hb0).
  rewrite (Hca 0), (Hcb 0). unfold Float64.sub. cbn [SFsub].
  rewrite (canon_aligned a), (canon_aligned b) by (done || lia).
  rewrite <- Z.mul_sub_distr_r.
  rewrite binary_normalize_canon.
  - f_equal. lia.
  - done.
  - lia.
  - pose proof (Zdigits2_pos (a - b)).
    destruct (Z.eq_dec (a - b) 0) as [->|]; simpl Zdigits2; lia.
Qed.

Lemma abs_of_Z a :
  Z.abs a < 2 ^ 53 ->
  Float64.abs (Float64.of_Z a) = Float64.of_Z (Z.abs a).
Proof.
  intros Ha. rewrite !of_Z_canon by lia. by destruct a.
Qed.

(** Halving is exact. *)
Lemma div_of_Z_2 n :
  Z.abs n < 2 ^ 53 ->
  Float64.div (Float64.of_Z n) (Float64.of_Z 2) = Float64.canon n (-1).
Proof.
  intros Hn. rewrite (of_Z_canon n) by done.
  pose proof (Zdigits2_bound n Hn) as Hd.
  change (Float64.of_Z 2) with (S754_finite false 4503599627370496 (-51)).
  destruct (Z.eq_dec n 0) as [->|Hn0]; [done|].
  destruct (canon_finite n Hn0 Hd) as (m & Hc & Hm & _).
  pose proof (Zdigits2_pos n Hn0).
  assert (Zdigits2 (Zpos m) = 53) as Hdm.
  { rewrite Hm, Zdigits2_mul_pow2 by lia. destruct n; simpl in *; lia. }
  rewrite !Hc. unfold Float64.div, SFdiv, SFdiv_core_binary.
  rewrite Hdm. change (Zdigits2 4503599627370496) with 53.
  rewrite fexp_normal by lia.
  replace (Z.min (53 + (0 + Zdigits2 n - 53) - (53 + -51) - 53)
             (0 + Zdigits2 n - 53 - -51))
    with (Zdigits2 n - 55) by lia.
  replace (0 + Zdigits2 n - 53 - -51 - (Zdigits2 n - 55)) with 53 by lia.
  assert (Z.div_eucl (Z.shiftl (Zpos m) 53) 4503599627370496
          = (Zpos m~0, 0)) as ->.
  { rewrite Z.shiftl_mul_pow2 by lia.
    pose proof (Z.div_eucl_eq (Zpos m * 2 ^ 53) 4503599627370496
                  ltac:(lia)) as Heq.
    pose proof (Z.mod_pos_bound (Zpos m * 2 ^ 53) 4503599627370496
                  ltac:(lia)) as Hmod.
    unfold Z.modulo in Hmod.
    destruct (Z.div_eucl (Zpos m * 2 ^ 53) 4503599627370496) as [q r].
    change (2 ^ 53) with (2 * 4503599627370496) in Heq.
    f_equal; lia. }
  rewrite xorb_false_r.
  change (new_location 4503599627370496 0) with loc_Exact.
  rewrite (binary_round_aux_shift _ _ m 1) by (done || lia).
  f_equal. lia.
Qed.

Lemma to_Q_canon n e :
  Z.abs n < 2 ^ 53 ->
  exists q,
    Float64.to_Q (Float64.canon n e) = Some q /\
    (q == inject_Z n * Qpower 2 e)%Q.
Proof.
  intros Hn. pose proof (Zdigits2_bound n Hn) as Hd.
  destruct (Z.eq_dec n 0) as [->|Hn0].
  { exists 0%Q. split; [done|]. by rewrite Qmult_0_l. }
  destruct (canon_finite n Hn0 Hd) as (m & Hc & _ & Hm).
  pose proof (Zdigits2_pos n Hn0).
  rewrite Hc. eexists. split; [reflexivity|].
  rewrite Hm, inject_Z_mult, Zpower_Qpower by lia.
  rewrite <- Qmult_assoc, <- Qpower_plus by done.
  by replace (53 - Zdigits2 n + (e + Zdigits2 n - 53)) with e by lia.
Qed.

(** ** Time-control categorization *)

Lemma split_head_app sep (p r : string) :
  (forall c, c ∈ list_ascii_of_string p -> c <> sep) ->
  Py.split sep (p ++ String sep r)%string = p :: Py.split sep r.
Proof.
  induction p as [|c p IH]; simpl; intros Hp.
  - by rewrite Ascii.eqb_refl.
  - destruct (Ascii.eqb_spec c sep) as [->|Hne].
    + exfalso. apply (Hp sep); [left|done].
    + rewrite IH; [done|]. intros c' Hc'. apply Hp. by right.
Qed.

Lemma categorize_time_control_cases (s : string) :
  categorize_time_control (Some s) =
    match base_seconds s with
    | Ok v =>
        (if Py.lt_int v 180 then "Bullet (<3min)"
         else if Py.lt_int v 600 then "Blitz (3-10min)"
         else if Py.lt_int v 3600 then "Rapid (10-60min)"
         else "Classical (>60min)")%string
    | Raise _ => "Unknown"%string
    end.
Proof.
  unfold categorize_time_control, base_seconds; simpl.
  destruct (Py.list_index _ 0) as [b|e]; simpl; [|done].
  by destruct (Py.float b).
Qed.

Lemma categorize_time_control_base (b inc : string) :
  (forall c, c ∈ list_ascii_of_string b -> c <> "+"%char) ->
  categorize_time_control (Some (b ++ String "+" inc)%string) =
  categorize_time_control (Some b).
Proof.
  intros Hb. rewrite !categorize_time_control_cases. unfold base_seconds.
  rewrite split_head_app by done.
  assert (Py.split "+" b = [b]) as ->; [|done].
  clear inc. induction b as [|c b IH]; simpl; [done|].
  destruct (Ascii.eqb_spec c "+") as [->|Hne].
  - exfalso. apply (Hb "+"%char); [left|done].
  - rewrite IH; [done|]. intros c' Hc'. apply Hb. by right.
Qed.

(** C1.  [categorize_time_control] is total: on a missing value and on
    every string it returns one of the five labels; a missing value and a
    base part that does not parse give ["Unknown"]; a base that parses is
    classified by the half-open intervals with edges 180, 600 and 3600,
    first match first; and the bases 179.999, 180, 599.999, 600, 3599.999
    and 3600 fall on the documented side of the edges, whatever the
    increment. *)
Theorem categorize_time_control_total :
  (forall x : obj, categorize_time_control x ∈ time_control_labels) /\
  NoDup time_control_labels /\
  categorize_time_control None = "Unknown"%string /\
  (forall (s : string) (e : exn),
      base_seconds s = Raise e ->
      categorize_time_control (Some s) = "Unknown"%string) /\
  (forall (s : string) (v : spec_float),
      base_seconds s = Ok v ->
      categorize_time_control (Some s)
      = (if Py.lt_int v 180 then "Bullet (<3min)"
         else if Py.lt_int v 600 then "Blitz (3-10min)"
         else if Py.lt_int v 3600 then "Rapid (10-60min)"
         else "Classical (>60min)")%string) /\
  (forall inc : string,
      categorize_time_control (Some ("179.999+" ++ inc)%string)
        = "Bullet (<3min)"%string /\
      categorize_time_control (Some ("180+" ++ inc)%string)
        = "Blitz (3-10min)"%string /\
      categorize_time_control (Some ("599.999+" ++ inc)%string)
        = "Blitz (3-10min)"%string /\
      categorize_time_control (Some ("600+" ++ inc)%string)
        = "Rapid (10-60min)"%string /\
      categorize_time_control (Some ("3599.999+" ++ inc)%string)
        = "Rapid (10-60min)"%string /\
      categorize_time_control (Some ("3600+" ++ inc)%string)
        = "Classical (>60min)"%string).
Proof.
  split; [|split; [|split; [|split; [|split]]]].
  - intros [s|]; [|by left].
    rewrite categorize_time_control_cases. unfold time_control_labels.
    destruct (base_seconds s) as [v|e]; [|by left].
    repeat case_match; compute_done.
  - compute_done.
  - reflexivity.
  - intros s e He. by rewrite categorize_time_control_cases, He.
  - intros s v Hv. by rewrite categorize_time_control_cases, Hv.
  - intros inc. repeat apply conj; by vm_compute.
Qed.

(** The time control ["-"] of a game without a clock has no base. *)
Lemma categorize_time_control_total_witness :
  base_seconds "-" = Raise ValueError /\
  categorize_time_control (Some "-"%string) = "Unknown"%string.
Proof.
  split; [reflexivity|].
  apply (proj1 (proj2 (proj2 (proj2 categorize_time_control_total)))
           "-"%string ValueError).
  reflexivity.
Defined.

(** ** Opening categorization *)

Lemma get_opening_category_missing :
  get_opening_category None = Ok "Unknown"%string.
Proof. reflexivity. Qed.

(** On a code with at least one character the classifier returns, and
    the category depends on the first character in upper case only. *)
Lemma get_opening_category_nonempty (c : ascii) (s : string) :
  get_opening_category (Some (String c s)) =
  Ok (dict_get categories (Py.upper_char c) "Other"%string).
Proof. reflexivity. Qed.

(** C2.  On the empty code the classifier raises [IndexError]: it does
    not return ["Other"]. *)
Theorem get_opening_category_empty_raises :
  get_opening_category (Some ""%string) = Raise IndexError.
Proof. reflexivity. Qed.

(** ** The loader *)

Section LoaderFacts.
Context {Row : Type}.
Variable choice : Z -> nat -> nat -> list nat.
Variable advance : Z -> Z.

Implicit Types (rows chunk : list Row) (iterator chunks : list (list Row)).

(** The fuel of [blocks] is enough: every row is in a chunk. *)
Lemma blocks_concat fuel n rows :
  (0 < n)%nat -> (length rows <= fuel)%nat ->
  concat (blocks fuel n rows) = rows.
Proof.
  intros Hn. revert rows.
  induction fuel as [|fuel IH]; intros rows Hfuel.
  - destruct rows; [done|simpl in Hfuel; lia].
  - destruct rows as [|r rows]; [done|].
    change (blocks (S fuel) n (r :: rows))
      with (take n (r :: rows) :: blocks fuel n (drop n (r :: rows))).
    rewrite concat_cons, IH.
    + apply take_drop.
    + rewrite length_drop. simpl in *. lia.
Qed.

Lemma blocks_full_but_last fuel n rows :
  (0 < n)%nat -> (length rows <= fuel)%nat ->
  full_but_last n (blocks fuel n rows).
Proof.
  intros Hn. revert rows.
  induction fuel as [|fuel IH]; intros rows Hfuel.
  - by destruct rows.
  - destruct rows as [|r rows]; [done|].
    change (blocks (S fuel) n (r :: rows))
      with (take n (r :: rows) :: blocks fuel n (drop n (r :: rows))).
    assert (length (drop n (r :: rows)) <= fuel)%nat as Hdrop.
    { rewrite length_drop. simpl in *. lia. }
    specialize (IH _ Hdrop).
    destruct (blocks fuel n (drop n (r :: rows))) as [|c cs] eqn:Hb;
      [done|].
    split; [|done].
    rewrite length_take. apply Nat.min_l.
    destruct (drop n (r :: rows)) as [|r' rows'] eqn:Hd.
    { by destruct fuel. }
    apply (f_equal length) in Hd. rewrite length_drop in Hd.
    simpl in *. lia.
Qed.

Lemma chunks_of_concat n rows :
  (0 < n)%nat -> concat (chunks_of n rows) = rows.
Proof.
  intros Hn. destruct rows as [|r rows]; [done|].
  by apply blocks_concat.
Qed.

Lemma chunks_of_full_but_last n rows :
  (0 < n)%nat -> full_but_last n (chunks_of n rows).
Proof.
  intros Hn. destruct rows as [|r rows]; [done|].
  by apply blocks_full_but_last.
Qed.

(** The first [k] chunks hold the first [k * n] rows of the file. *)
Lemma blocks_take fuel n rows k :
  (0 < n)%nat -> (length rows <= fuel)%nat ->
  concat (take k (blocks fuel n rows)) = take (k * n) rows.
Proof.
  intros Hn. revert fuel rows.
  induction k as [|k IH]; intros fuel rows Hfuel; [done|].
  destruct rows as [|r rows].
  { rewrite take_nil. by destruct fuel. }
  destruct fuel as [|fuel]; [simpl in Hfuel; lia|].
  change (blocks (S fuel) n (r :: rows))
    with (take n (r :: rows) :: blocks fuel n (drop n (r :: rows))).
  rewrite firstn_cons, concat_cons, IH.
  - by rewrite take_take_drop.
  - rewrite length_drop. simpl in *. lia.
Qed.

Lemma chunks_of_take n rows k :
  (0 < n)%nat -> concat (take k (chunks_of n rows)) = take (k * n) rows.
Proof.
  intros Hn. destruct rows as [|r rows].
  - rewrite take_nil. by destruct k as [|[|k]].
  - by apply blocks_take.
Qed.

Lemma chunks_of_nonempty n rows : chunks_of n rows <> [].
Proof.
  destruct rows as [|r rows]; [done|].
  unfold chunks_of. by simpl.
Qed.

Lemma length_concat_full n chunks :
  Forall (fun c => length c = n) chunks ->
  length (concat chunks) = (length chunks * n)%nat.
Proof.
  induction 1 as [|c cs Hc _ IH]; [done|].
  rewrite concat_cons, length_app, IH, Hc. simpl. lia.
Qed.

(** On chunks that are full but for the last one, counting chunks and
    counting rows stop the loop at the same chunk. *)
Lemma accumulate_by_rows_eq chunk_size sample_size iterator chunks :
  0 <= chunk_size ->
  full_but_last (Z.to_nat chunk_size) iterator ->
  Forall (fun c => length c = Z.to_nat chunk_size) chunks ->
  accumulate chunk_size sample_size iterator chunks =
  accumulate_by_rows sample_size iterator chunks.
Proof.
  intros Hcs. revert chunks.
  induction iterator as [|chunk iterator IH]; intros chunks Hfull Hacc;
    [done|].
  destruct iterator as [|chunk' iterator].
  { simpl. by repeat case_match. }
  destruct Hfull as [Hchunk Hfull].
  assert (Forall (fun c => length c = Z.to_nat chunk_size)
            (chunks ++ [chunk])) as Hacc'.
  { apply Forall_app. split; [done|]. by apply Forall_singleton. }
  change (accumulate chunk_size sample_size (chunk :: chunk' :: iterator)
            chunks)
    with (if Z.of_nat (length (chunks ++ [chunk])) * chunk_size
              >=? sample_size
          then chunks ++ [chunk]
          else accumulate chunk_size sample_size (chunk' :: iterator)
                 (chunks ++ [chunk])).
  change (accumulate_by_rows sample_size (chunk :: chunk' :: iterator)
            chunks)
    with (if Z.of_nat (length (concat (chunks ++ [chunk])))
              >=? sample_size
          then chunks ++ [chunk]
          else accumulate_by_rows sample_size (chunk' :: iterator)
                 (chunks ++ [chunk])).
  rewrite (length_concat_full _ _ Hacc'), Nat2Z.inj_mul, Z2Nat.id by done.
  rewrite IH by done. done.
Qed.

(** Where the loop worded by rows stops: at the first chunk with which
    the rows read so far reach the sample size, or at the last chunk. *)
Lemma accumulate_by_rows_stop sample_size iterator chunks :
  exists k : nat,
    (k <= length iterator)%nat /\
    (iterator <> [] -> (1 <= k)%nat) /\
    accumulate_by_rows sample_size iterator chunks
      = chunks ++ take k iterator /\
    (k = length iterator \/
     sample_size <= Z.of_nat (length (concat (chunks ++ take k iterator))))
    /\
    (forall j : nat,
        (1 <= j < k)%nat ->
        Z.of_nat (length (concat (chunks ++ take j iterator)))
        < sample_size).
Proof.
  revert chunks.
  induction iterator as [|chunk iterator IH]; intros chunks.
  { exists 0%nat. simpl. rewrite app_nil_r.
    split_and!; [done|done|done|by left|lia]. }
  simpl.
  destruct (Z.geb_spec (Z.of_nat (length (concat (chunks ++ [chunk]))))
              sample_size) as [Hge|Hlt].
  - exists 1%nat. simpl. rewrite take_0.
    split_and!; [lia|done|done|by right; lia|lia].
  - destruct (IH (chunks ++ [chunk])) as (k & Hk & _ & Heq & Hstop & Hmin).
    rewrite <- app_assoc in Heq, Hstop. simpl in Heq, Hstop.
    exists (S k). simpl.
    split_and!; [lia|lia|done| |].
    + destruct Hstop as [->|Hstop]; [by left|by right].
    + intros j Hj. destruct j as [|j]; [lia|]. simpl.
      destruct j as [|j].
      * rewrite take_0. lia.
      * specialize (Hmin (S j)). rewrite <- app_assoc in Hmin.
        apply Hmin. lia.
Qed.

Lemma length_take_rows positions (df : list Row) :
  Forall (fun i => (i < length df)%nat) positions ->
  length (take_rows positions df) = length positions.
Proof.
  unfold take_rows.
  induction 1 as [|i positions Hi _ IH]; [done|].
  destruct (lookup_lt_is_Some_2 df i Hi) as [r Hr].
  cbn [omap list_omap]. rewrite Hr. simpl. by f_equal.
Qed.

(** The loader leaves its environment as it found it. *)
Lemma load_chess_data_world filepath sample_size (w : world Row) :
  (load_chess_data choice advance filepath sample_size w).2 = w.
Proof.
  unfold load_chess_data, read_csv_chunks, read_csv, sample, lift.
  unfold mbind, mret, M_bind, M_ret.
  destruct (truthy sample_size);
    repeat (case_match; simplify_eq/=); done.
Qed.

(** C4.  With a positive sample size the loader reads blocks of
    100000 rows and stops at the first block with which the rows read
    so far reach the sample size (or at the last block of the file);
    the blocks read hold the first rows of the file, in order; it
    returns [min sample_size accumulated] rows, drawn at distinct
    positions of the accumulated rows. *)
Theorem load_chess_data_sample filepath sample_size (w : world Row) rows :
  draws_without_replacement choice ->
  files w !! filepath = Some rows ->
  0 < sample_size ->
  let iterator := chunks_of (Z.to_nat 100000) rows in
  let chunks := accumulate 100000 sample_size iterator [] in
  exists (k : nat) (positions : list nat),
    chunks = accumulate_by_rows sample_size iterator [] /\
    chunks = take k iterator /\
    concat chunks = take (k * Z.to_nat 100000) rows /\
    (1 <= k <= length iterator)%nat /\
    (k = length iterator \/
     sample_size <= Z.of_nat (length (concat (take k iterator)))) /\
    (forall j : nat,
        (1 <= j < k)%nat ->
        Z.of_nat (length (concat (take j iterator))) < sample_size) /\
    load_chess_data choice advance filepath (Some sample_size) w
      = (Ok (take_rows positions (concat chunks)), w) /\
    NoDup positions /\
    Forall (fun i => (i < length (concat chunks))%nat) positions /\
    Z.of_nat (length (take_rows positions (concat chunks)))
      = Z.min sample_size (Z.of_nat (length (concat chunks))).
Proof.
  intros Hchoice Hfile Hpos iterator chunks.
  assert (chunks = accumulate_by_rows sample_size iterator []) as Hrows.
  { apply accumulate_by_rows_eq; [lia| |done].
    apply chunks_of_full_but_last. lia. }
  destruct (accumulate_by_rows_stop sample_size iterator [])
    as (k & Hk & Hk1 & Heq & Hstop & Hmin).
  specialize (Hk1 (chunks_of_nonempty _ _)).
  simpl in Heq, Hstop, Hmin. rewrite <- Hrows in Heq.
  set (df := concat chunks).
  set (n := Z.min sample_size (Z.of_nat (length df))).
  assert (0 <= n <= Z.of_nat (length df)) as Hn by lia.
  destruct (Hchoice 42 (length df) (Z.to_nat n)) as (Hlen & Hnodup & Hlt);
    [lia|].
  exists k, (choice 42 (length df) (Z.to_nat n)).
  split_and!; [done|done| |lia|lia|done|done| |done|done|].
  - unfold df. rewrite Heq. apply chunks_of_take. lia.
  - unfold load_chess_data, read_csv_chunks, sample, lift.
    unfold mbind, mret, M_bind, M_ret.
    assert (truthy (Some sample_size) = true) as ->.
    { unfold truthy. destruct (Z.eqb_spec sample_size 0); [lia|done]. }
    cbn [int_of]. change (100000 <? 1) with false. cbv iota.
    rewrite Hfile. fold iterator. fold chunks.
    assert (pd_concat chunks = Ok df) as ->.
    { unfold pd_concat, df. rewrite Heq.
      destruct (take k iterator) eqn:Htake; [|done].
      apply (f_equal length) in Htake. rewrite length_take in Htake.
      simpl in Htake. lia. }
    fold n.
    destruct (Z.ltb_spec n 0); [lia|].
    destruct (Z.ltb_spec (Z.of_nat (length df)) n); [lia|]. done.
  - rewrite length_take_rows, Hlen by done. lia.
Qed.

(** C5.  The rows the loader returns depend on the file and on the
    sample size only, not on the rest of the environment (other files,
    the state of the global random generator), and the loader leaves
    the environment unchanged: loading twice gives the same rows. *)
Theorem load_chess_data_reproducible filepath sample_size
    (w1 w2 : world Row) :
  files w1 !! filepath = files w2 !! filepath ->
  (load_chess_data choice advance filepath sample_size w1).1
    = (load_chess_data choice advance filepath sample_size w2).1 /\
  (load_chess_data choice advance filepath sample_size w1).2 = w1 /\
  (load_chess_data choice advance filepath sample_size w2).2 = w2.
Proof.
  intros Hfile. split; [|split; apply load_chess_data_world].
  unfold load_chess_data, read_csv_chunks, read_csv, sample, lift.
  unfold mbind, mret, M_bind, M_ret.
  destruct (truthy sample_size); rewrite Hfile;
    repeat (case_match; simplify_eq/=); done.
Qed.

(** C10.  A sample size of zero is falsy: the loader reads the whole
    file, as it does without a sample size. *)
Theorem load_chess_data_zero filepath (w : world Row) :
  load_chess_data choice advance filepath (Some 0) w
    = load_chess_data choice advance filepath None w /\
  load_chess_data choice advance filepath (Some 0) w
    = (match files w !! filepath with
       | Some rows => Ok rows
       | None => Raise FileNotFoundError
       end, w).
Proof.
  split; [done|].
  unfold load_chess_data, read_csv. unfold mbind, mret, M_bind, M_ret.
  simpl. by destruct (files w !! filepath).
Qed.
End LoaderFacts.

Lemma first_positions_draws : draws_without_replacement first_positions.
Proof.
  intros seed population size Hsize. unfold first_positions.
  split_and!; [apply length_seq|apply NoDup_seq|].
  apply Forall_forall. intros i Hi%elem_of_seq. lia.
Qed.

Lemma load_chess_data_sample_witness :
  exists (k : nat) (positions : list nat),
    accumulate 100000 2 (chunks_of (Z.to_nat 100000) [10; 20; 30]%nat) []
      = take k (chunks_of (Z.to_nat 100000) [10; 20; 30]%nat) /\
    load_chess_data first_positions Z.succ "chess_games.csv" (Some 2)
      three_games
      = (Ok (take_rows positions
               (concat (accumulate 100000 2
                          (chunks_of (Z.to_nat 100000) [10; 20; 30]%nat)
                          []))), three_games).
Proof.
  destruct (load_chess_data_sample first_positions Z.succ
              "chess_games.csv" 2 three_games [10; 20; 30]%nat
              first_positions_draws eq_refl eq_refl)
    as (k & positions & _ & Hk & _ & _ & _ & _ & Hload & _).
  exists k, positions. split; [exact Hk|exact Hload].
Defined.

Lemma load_chess_data_reproducible_witness :
  (load_chess_data first_positions Z.succ "chess_games.csv" (Some 2)
     three_games).1
  = (load_chess_data first_positions Z.succ "chess_games.csv" (Some 2)
       {| files := files three_games; np_random := 7 |}).1.
Proof.
  apply (load_chess_data_reproducible first_positions Z.succ
           "chess_games.csv" (Some 2) three_games
           {| files := files three_games; np_random := 7 |}).
  reflexivity.
Defined.

(** ** Data frames *)

Lemma assoc_get_set name name' c l :
  assoc_get name (assoc_set name' c l) =
  if String.eqb name' name then Some c else assoc_get name l.
Proof.
  induction l as [|[k c0] l IH]; simpl.
  - by destruct (String.eqb name' name).
  - destruct (String.eqb_spec k name') as [->|Hk]; simpl.
    + by destruct (String.eqb name' name).
    + destruct (String.eqb_spec k name) as [->|Hk']; [|done].
      by rewrite (proj2 (String.eqb_neq name' name)).
Qed.

Lemma get_set name name' c df :
  get_column name (set_column name' c df) =
  if String.eqb name' name then Some c else get_column name df.
Proof. apply assoc_get_set. Qed.

Lemma get_set_ne name name' c df :
  name' <> name ->
  get_column name (set_column name' c df) = get_column name df.
Proof. intros H. rewrite get_set. by apply String.eqb_neq in H as ->. Qed.

Lemma has_column_get name df :
  has_column name df =
  match get_column name df with Some _ => true | None => false end.
Proof.
  unfold has_column, column_names, get_column.
  induction (cols df) as [|[k c] l IH]; simpl; [done|].
  rewrite String.eqb_sym. by destruct (String.eqb k name).
Qed.

Lemma well_formed_get name c df :
  well_formed df = true -> get_column name df = Some c ->
  col_len c = nrows df.
Proof.
  unfold well_formed, get_column.
  induction (cols df) as [|[k c0] l IH]; simpl; [done|].
  intros [H1 H2]%andb_prop.
  destruct (String.eqb k name); [|by apply IH].
  intros [= <-]. by apply Nat.eqb_eq.
Qed.

Lemma well_formed_set name c df :
  well_formed df = true -> col_len c = nrows df ->
  well_formed (set_column name c df) = true.
Proof.
  unfold well_formed, set_column. simpl. intros Hwf Hc.
  induction (cols df) as [|[k c0] l IH]; simpl in *.
  - by rewrite Hc, Nat.eqb_refl.
  - apply andb_prop in Hwf as [H1 H2].
    destruct (String.eqb k name); simpl.
    + by rewrite Hc, Nat.eqb_refl.
    + by rewrite H1, IH.
Qed.

Lemma assigns_refl names df : assigns names df df.
Proof. by split_and!. Qed.

Lemma assigns_trans names df1 df2 df3 :
  assigns names df1 df2 -> assigns names df2 df3 -> assigns names df1 df3.
Proof.
  intros (Hn & Hwf & Hget) (Hn' & Hwf' & Hget'). split_and!.
  - congruence.
  - auto.
  - intros name Hname. rewrite Hget', Hget; done.
Qed.

Lemma assigns_mono names names' df df' :
  names ⊆ names' -> assigns names df df' -> assigns names' df df'.
Proof.
  intros Hsub (Hn & Hwf & Hget). split_and!; [done|done|].
  intros name Hname. apply Hget. intros H. by apply Hname, Hsub.
Qed.

Lemma assigns_set names name c df0 df :
  name ∈ names ->
  (well_formed df0 = true -> col_len c = nrows df0) ->
  assigns names df0 df -> assigns names df0 (set_column name c df).
Proof.
  intros Hname Hc (Hn & Hwf & Hget). split_and!.
  - done.
  - intros H0. apply well_formed_set; [auto|]. rewrite Hn. auto.
  - intros name' Hname'. rewrite get_set_ne; [auto|].
    intros ->. done.
Qed.

(** Columns computed from columns of one length have that length. *)
Lemma masked_text_length x other c :
  masked_text x other = Ok c ->
  col_len c = Nat.min (length x) (length other).
Proof.
  unfold masked_text. destruct (text_meets x other); [done|].
  intros [= <-]. simpl. by rewrite length_zip_with.
Qed.

Ltac masked_length :=
  lazymatch goal with
  | H : masked_text _ _ = Ok _ |- _ =>
      apply masked_text_length in H; rewrite H;
      unfold always; rewrite ?length_map; lia
  end.

Lemma col_len_add a b c n :
  col_add a b = Ok c -> col_len a = n -> col_len b = n -> col_len c = n.
Proof.
  destruct a, b; simpl; intros H Ha Hb; try done;
    first [ masked_length
          | injection H as <-; simpl;
            rewrite length_zip_with, ?length_map; lia ].
Qed.

Lemma col_len_sub a b c n :
  col_sub a b = Ok c -> col_len a = n -> col_len b = n -> col_len c = n.
Proof.
  destruct a, b; simpl; intros H Ha Hb; try done;
    first [ masked_length
          | injection H as <-; simpl;
            rewrite length_zip_with, ?length_map; lia ].
Qed.

Lemma col_len_add_str a s c :
  col_add_str a s = Ok c -> col_len c = col_len a.
Proof. destruct a; simpl; intros [= <-]; simpl. by rewrite length_map. Qed.

Lemma col_len_div_int a k c :
  col_div_int a k = Ok c -> col_len c = col_len a.
Proof.
  destruct a; simpl; intros H; try done;
    first [ masked_length | injection H as <-; simpl; by rewrite length_map ].
Qed.

Lemma col_len_abs a c : col_abs a = Ok c -> col_len c = col_len a.
Proof.
  destruct a; simpl; intros H; try done;
    first [ masked_length | injection H as <-; simpl; by rewrite length_map ].
Qed.

Lemma col_len_eq_str a s : col_len (astype_int (col_eq_str a s)) = col_len a.
Proof. destruct a; simpl; by rewrite !length_map. Qed.

Lemma length_str_split a sep pieces :
  str_split a sep = Ok pieces -> length pieces = col_len a.
Proof. destruct a; simpl; intros [= <-]. by rewrite length_map. Qed.

Lemma cells_float_length l vs : cells_float l = Ok vs -> length vs = length l.
Proof.
  revert vs. induction l as [|x l IH]; simpl; intros vs.
  - by intros [= <-].
  - unfold mbind, result_bind, mret, result_ret. simpl.
    destruct (cell_float x); simpl; [|done].
    destruct (cells_float l) as [vs'|]; simpl; [|done].
    intros [= <-]. simpl. by rewrite (IH vs').
Qed.

Lemma col_len_astype_float a : col_len (astype_float_ignore a) = col_len a.
Proof.
  destruct a; simpl; [|done|by rewrite length_map|done].
  destruct (cells_float l) eqn:H; [|done]. simpl.
  by apply cells_float_length.
Qed.

Lemma col_len_str_get pieces i : col_len (str_get pieces i) = length pieces.
Proof. simpl. by rewrite length_map. Qed.

Lemma col_len_apply a f c : col_apply a f = Ok c -> col_len c = col_len a.
Proof. destruct a; simpl; intros [= <-]; simpl. by rewrite length_map. Qed.

Lemma length_omap_present {A} (l : list (option A)) :
  all_present l = true -> length (omap id l) = length l.
Proof.
  induction l as [|[a|] l IH]; intros H; [done| |done].
  cbn [omap list_omap]. simpl. f_equal. by apply IH.
Qed.

Lemma col_len_int_or_float l : col_len (int_or_float l) = length l.
Proof.
  unfold int_or_float. destruct (all_present l) eqn:H; simpl.
  - by apply length_omap_present.
  - by rewrite length_map.
Qed.

Lemma col_len_str_count a lit c :
  str_count a lit = Ok c -> col_len c = col_len a.
Proof.
  destruct a; simpl; intros [= <-].
  by rewrite col_len_int_or_float, length_map.
Qed.

Lemma col_len_dt_hour a c : dt_hour a = Ok c -> col_len c = col_len a.
Proof.
  destruct a; simpl; intros [= <-].
  by rewrite col_len_int_or_float, length_map.
Qed.

Lemma col_len_dt_day_name a c :
  dt_day_name a = Ok c -> col_len c = col_len a.
Proof. destruct a; simpl; intros [= <-]; simpl. by rewrite length_map. Qed.

Lemma col_len_to_datetime strptime a fmt c :
  to_datetime strptime a fmt = Ok c -> col_len c = col_len a.
Proof. destruct a; simpl; intros [= <-]; simpl. by rewrite length_map. Qed.

(** ** Running the statements of [preprocess_data] on a frame *)

Lemma wp_bind {A B} (m : M DataFrame A) (k : A -> M DataFrame B) df Q :
  wp m df (fun r df' =>
             match r with
             | Ok a => wp (k a) df' Q
             | Raise e => Q (Raise e) df'
             end) ->
  wp (m ≫= k) df Q.
Proof.
  unfold wp, mbind, M_bind. by destruct (m df) as [[a|e] df'].
Qed.

Lemma wp_ret {A} (a : A) df (Q : result A -> DataFrame -> Prop) :
  Q (Ok a) df -> wp (mret a) df Q.
Proof. done. Qed.

Lemma wp_contains name df (Q : result bool -> DataFrame -> Prop) :
  Q (Ok (has_column name df)) df -> wp (Frame.contains name) df Q.
Proof. done. Qed.

Lemma wp_getitem name df (Q : result column -> DataFrame -> Prop) :
  (forall c, get_column name df = Some c -> Q (Ok c) df) ->
  (get_column name df = None -> Q (Raise KeyError) df) ->
  wp (Frame.getitem name) df Q.
Proof.
  unfold wp, Frame.getitem. destruct (get_column name df); simpl; auto.
Qed.

Lemma wp_setitem name c df (Q : result unit -> DataFrame -> Prop) :
  Q (Ok tt) (set_column name c df) -> wp (Frame.setitem name c) df Q.
Proof. done. Qed.

Lemma wp_lift {A} (r : result A) df (Q : result A -> DataFrame -> Prop) :
  (forall a, r = Ok a -> Q (Ok a) df) ->
  (forall e, r = Raise e -> Q (Raise e) df) ->
  wp (lift r) df Q.
Proof. unfold wp, lift. destruct r; simpl; auto. Qed.

Lemma wp_if {A} (b : bool) (m1 m2 : M DataFrame A) df Q :
  (b = true -> wp m1 df Q) -> (b = false -> wp m2 df Q) ->
  wp (if b then m1 else m2) df Q.
Proof. destruct b; auto. Qed.

Lemma wp_mono {A} (m : M DataFrame A) df
    (Q Q' : result A -> DataFrame -> Prop) :
  wp m df Q -> (forall r df', Q r df' -> Q' r df') -> wp m df Q'.
Proof. unfold wp. auto. Qed.

Lemma col_len_via {a c : column} {n : nat} :
  col_len c = col_len a -> col_len a = n -> col_len c = n.
Proof. congruence. Qed.

(** One statement of a block. *)
Ltac wp_step :=
  lazymatch goal with
  | |- wp (_ ≫= _) _ _ => apply wp_bind
  | |- wp (Frame.contains _) _ _ => apply wp_contains
  | |- wp (Frame.getitem _) _ _ =>
      apply wp_getitem;
      [ let c := fresh "c" in let H := fresh "Hget" in
        intros c H; rewrite ?get_set in H; simpl in H; simplify_eq
      | let H := fresh "Hget" in
        intros H; rewrite ?get_set in H; simpl in H; simplify_eq ]
  | |- wp (Frame.setitem _ _) _ _ => apply wp_setitem
  | |- wp (lift _) _ _ =>
      apply wp_lift;
      [ let a := fresh "a" in let H := fresh "Hop" in intros a H
      | let e := fresh "e" in let H := fresh "Hop" in intros e H ]
  | |- wp (mret _) _ _ => apply wp_ret
  | |- wp (if _ then _ else _) _ _ =>
      apply wp_if; let H := fresh "Hif" in intros H
  end.

Ltac wp_run := repeat wp_step.

Ltac len_solve :=
  repeat first
    [ eassumption
    | eapply well_formed_get; [eassumption|eassumption]
    | eapply col_len_add; [eassumption| |]
    | eapply col_len_sub; [eassumption| |]
    | eapply col_len_via;
      [ first [ eapply col_len_add_str; eassumption
              | eapply col_len_div_int; eassumption
              | eapply col_len_abs; eassumption
              | eapply col_len_apply; eassumption
              | eapply col_len_str_count; eassumption
              | eapply col_len_dt_hour; eassumption
              | eapply col_len_dt_day_name; eassumption
              | eapply col_len_to_datetime; eassumption ] | ]
    | rewrite col_len_eq_str
    | rewrite col_len_astype_float, col_len_str_get;
      erewrite length_str_split by eassumption ].

(** The outcome of a block assigns some of the block's columns. *)
Ltac assigns_solve :=
  repeat first
    [ apply assigns_refl
    | apply assigns_set; [compute_done | intros ?; len_solve | ] ].

(** *** Arithmetic with object columns *)

Lemma text_meets_cons o p x other :
  text_meets (o :: x) (p :: other)
  = (present_obj o && p) || text_meets x other.
Proof. done. Qed.

Lemma text_meets_padded x s other :
  text_meets (map (option_map (fun t => (t ++ s)%string)) x) other
  = text_meets x other.
Proof.
  revert other. induction x as [|o x IH]; intros [|p other]; try done.
  cbn [map]. rewrite !text_meets_cons, IH. by destruct o.
Qed.

Lemma text_meets_missing {A B} (x : list A) (y : list B) other :
  text_meets (zip_with (fun _ _ => None) x y) other = false.
Proof.
  revert y other. induction x as [|a x IH]; intros [|b y] [|p other];
    try done.
  cbn [zip_with]. by rewrite text_meets_cons, IH.
Qed.

Lemma text_meets_concat x y :
  let joined :=
    zip_with (fun s t : obj =>
                match s, t with
                | Some s, Some t => Some (s ++ t)%string
                | _, _ => None
                end) x y in
  text_meets joined (always joined) = text_meets x (map present_obj y).
Proof.
  revert y. induction x as [|o x IH]; intros [|p y]; try done.
  cbn [zip_with map always]. cbn zeta in IH. unfold always in IH.
  rewrite !text_meets_cons, IH. by destruct o, p.
Qed.

Lemma masked_text_ok x other :
  text_meets x other = false ->
  masked_text x other = Ok (ColObj (zip_with (fun _ _ => None) x other)).
Proof. unfold masked_text. by intros ->. Qed.

Lemma masked_text_missing {A B} (x : list A) (y : list B) :
  let missing := zip_with (fun _ _ => @None string) x y in
  masked_text missing (always missing)
  = Ok (ColObj (zip_with (fun _ _ => None) missing (always missing))).
Proof. apply masked_text_ok, text_meets_missing. Qed.

(** A date and a time that join give a text column. *)
Lemma joins_chain date time :
  joins date time = true ->
  exists x joined,
    date = ColObj x /\
    col_add_str date " " = Ok (ColObj (map (option_map
                                              (fun t => (t ++ " ")%string)) x)) /\
    col_add (ColObj (map (option_map (fun t => (t ++ " ")%string)) x)) time
    = Ok (ColObj joined).
Proof.
  destruct date as [x|x|x|x], time as [y|y|y|y]; try done; simpl;
    intros H; exists x; eexists; (split; [done|]); (split; [done|]).
  - reflexivity.
  - apply masked_text_ok. rewrite text_meets_padded.
    by apply negb_true_iff.
  - apply masked_text_ok. rewrite text_meets_padded.
    by apply negb_true_iff.
Qed.

(** Two ratings that rate have a mean and a distance. *)
Lemma rates_mean white black :
  rates white black = true ->
  exists total avg,
    col_add white black = Ok total /\ col_div_int total 2 = Ok avg.
Proof.
  destruct white as [x|x|x|x], black as [y|y|y|y]; try done; simpl;
    intros H; try apply negb_true_iff in H;
    try (rewrite (masked_text_ok _ _ H); eexists _, _;
         split; [reflexivity|]; apply masked_text_missing);
    try (eexists _, _; split; reflexivity).
  eexists _, _. split; [reflexivity|]. cbn [col_div_int].
  apply masked_text_ok. by rewrite text_meets_concat.
Qed.

Lemma rates_distance white black :
  rates white black = true ->
  exists diff elo_diff,
    col_sub white black = Ok diff /\ col_abs diff = Ok elo_diff.
Proof.
  destruct white as [x|x|x|x], black as [y|y|y|y]; try done; simpl;
    intros H; try apply negb_true_iff in H;
    try (rewrite (masked_text_ok _ _ H); eexists _, _;
         split; [reflexivity|]; apply masked_text_missing);
    try (eexists _, _; split; reflexivity).
Qed.

Section PreprocessorFacts.
Variable strptime : string -> string -> option instant.

Lemma derive_elo_assigns df :
  wp derive_elo df (fun _ df' => assigns ["AvgElo"; "EloDiff"]%string df df').
Proof. unfold derive_elo. wp_run; assigns_solve. Qed.

Lemma derive_result_assigns df :
  wp derive_result df
    (fun _ df' => assigns ["WhiteWins"; "BlackWins"; "Draw"]%string df df').
Proof. unfold derive_result. wp_run; assigns_solve. Qed.

Lemma derive_move_count_assigns df :
  wp derive_move_count df (fun _ df' => assigns ["MoveCount"]%string df df').
Proof. unfold derive_move_count. wp_run; assigns_solve. Qed.

Lemma derive_time_control_assigns df :
  wp derive_time_control df
    (fun _ df' =>
       assigns ["TimeControl_Base"; "TimeControl_Increment";
                "TimeControl_Grouped"]%string df df').
Proof. unfold derive_time_control. wp_run; assigns_solve. Qed.

Lemma derive_datetime_assigns df :
  wp (derive_datetime strptime) df
    (fun _ df' =>
       assigns ["DateTime"; "Date"; "Hour"; "DayOfWeek"]%string df df').
Proof. unfold derive_datetime. wp_run; assigns_solve. Qed.

(** *** The blocks return on typed columns *)

Lemma wp_run_eq {A} (m : M DataFrame A) df r df' Q :
  wp m df Q -> m df = (r, df') -> Q r df'.
Proof. unfold wp. intros H Heq. by rewrite Heq in H. Qed.

Lemma has_column_true name df :
  has_column name df = true -> get_column name df <> None.
Proof. rewrite has_column_get. by destruct (get_column name df). Qed.

Ltac use_schema :=
  repeat match goal with
    | H : column_is _ _ _ = true |- _ =>
        unfold column_is in H; rewrite ?get_set in H; simpl in H
    | H : get_column ?n ?df = _, H' : context [get_column ?n ?df] |- _ =>
        rewrite H in H'; simpl in H'
    | H : _ && _ = true |- _ => apply andb_prop in H as [? ?]
    | H : has_column _ _ = true |- _ => apply has_column_true in H
    end.

Ltac typed_columns :=
  repeat match goal with
    | H : is_object ?c = true |- _ =>
        destruct c; try discriminate H; clear H
    | H : is_numeric ?c = true |- _ =>
        destruct c; try discriminate H; clear H
    end.

Ltac eval_ops :=
  repeat match goal with
    | H : _ = Ok _ |- _ =>
        progress cbn [col_add col_add_str col_sub col_div_int col_abs
                        str_split str_count col_apply dt_hour dt_day_name
                        to_datetime] in H;
        try (injection H as <-)
    | H : _ = Raise _ |- _ =>
        progress cbn [col_add col_add_str col_sub col_div_int col_abs
                        str_split str_count col_apply dt_hour dt_day_name
                        to_datetime] in H
    | H : context [int_or_float _] |- _ => unfold int_or_float in H
    | H : context [if all_present ?l then _ else _] |- _ =>
        destruct (all_present l)
    end.

Ltac no_raise :=
  use_schema; try done; typed_columns; eval_ops; simplify_eq; done.

Lemma derive_datetime_ok df :
  column_is is_object df "UTCDate" = true ->
  column_is is_object df "UTCTime" = true ->
  wp (derive_datetime strptime) df (fun r _ => r = Ok tt).
Proof. intros H1 H2. unfold derive_datetime. wp_run; no_raise. Qed.

Lemma derive_time_control_ok df :
  column_is is_object df "TimeControl" = true ->
  wp derive_time_control df (fun r _ => r = Ok tt).
Proof. intros H1. unfold derive_time_control. wp_run; no_raise. Qed.

Lemma derive_elo_ok df :
  column_is is_numeric df "WhiteElo" = true ->
  column_is is_numeric df "BlackElo" = true ->
  wp derive_elo df (fun r _ => r = Ok tt).
Proof. intros H1 H2. unfold derive_elo. wp_run; no_raise. Qed.

Lemma derive_result_ok df : wp derive_result df (fun r _ => r = Ok tt).
Proof. unfold derive_result. wp_run; no_raise. Qed.

Lemma derive_move_count_ok df :
  column_is is_object df "AN" = true ->
  wp derive_move_count df (fun r _ => r = Ok tt).
Proof. intros H1. unfold derive_move_count. wp_run; no_raise. Qed.

(** The date block and the rating block return on more than that. *)
Ltac known_results :=
  repeat match goal with
    | H1 : ?t = Ok _, H2 : ?t = _ |- _ => rewrite H1 in H2; simplify_eq
    end.

Ltac absent_guard Hd :=
  wp_run; try done;
  match goal with
  | H : _ && _ = true |- _ =>
      rewrite !has_column_get, Hd, ?andb_false_r in H;
      repeat case_match; done
  end.

Lemma derive_datetime_returns df :
  dates_ok df = true ->
  wp (derive_datetime strptime) df (fun r _ => r = Ok tt).
Proof.
  unfold dates_ok. intros H. unfold derive_datetime.
  destruct (get_column "UTCDate" df) as [date|] eqn:Hdate;
    [|absent_guard Hdate].
  destruct (get_column "UTCTime" df) as [time|] eqn:Htime;
    [|absent_guard Htime].
  destruct (joins_chain _ _ H) as (x & joined & -> & Hpad & Hjoin).
  wp_run; try done; simplify_eq; known_results; eval_ops; simplify_eq; done.
Qed.

Lemma derive_elo_returns df :
  ratings_ok df = true ->
  wp derive_elo df (fun r _ => r = Ok tt).
Proof.
  unfold ratings_ok. intros H. unfold derive_elo.
  destruct (get_column "WhiteElo" df) as [white|] eqn:Hwhite;
    [|absent_guard Hwhite].
  destruct (get_column "BlackElo" df) as [black|] eqn:Hblack;
    [|absent_guard Hblack].
  destruct (rates_mean _ _ H) as (total & mean & Htotal & Hmean).
  destruct (rates_distance _ _ H) as (diff & dist & Hdiff & Hdist).
  wp_run; try done; simplify_eq; known_results; done.
Qed.

(** *** What the blocks assign *)

Lemma has_column_false name df c :
  has_column name df = false -> get_column name df = Some c -> False.
Proof. rewrite has_column_get. intros H Hc. by rewrite Hc in H. Qed.

Ltac absurd_guard :=
  repeat match goal with
    | H : _ && _ = false |- _ => apply andb_false_iff in H as [H|H]
    end;
  match goal with
  | H : has_column ?n ?df = false |- _ =>
      exfalso; eapply has_column_false; [exact H|eassumption]
  end.

Lemma derive_time_control_value df x :
  get_column "TimeControl" df = Some (ColObj x) ->
  wp derive_time_control df
    (fun _ df' =>
       get_column "TimeControl_Base" df'
         = Some (astype_float_ignore
                   (str_get (map (option_map (Py.split "+")) x) 0)) /\
       get_column "TimeControl_Increment" df'
         = Some (astype_float_ignore
                   (str_get (map (option_map (Py.split "+")) x) 1)) /\
       get_column "TimeControl_Grouped" df'
         = Some (ColObj (map (fun o => Some (categorize_time_control o))
                           x))).
Proof.
  intros Hx. unfold derive_time_control.
  wp_run; use_schema; simplify_eq; eval_ops; simplify_eq;
    try absurd_guard.
  by rewrite !get_set.
Qed.

Lemma derive_elo_value df white black :
  get_column "WhiteElo" df = Some white ->
  get_column "BlackElo" df = Some black ->
  wp derive_elo df
    (fun r df' =>
       r = Ok tt ->
       exists total avg diff elo_diff,
         col_add white black = Ok total /\
         col_div_int total 2 = Ok avg /\
         col_sub white black = Ok diff /\
         col_abs diff = Ok elo_diff /\
         get_column "AvgElo" df' = Some avg /\
         get_column "EloDiff" df' = Some elo_diff).
Proof.
  intros Hw Hb. unfold derive_elo.
  wp_run; use_schema; simplify_eq; try done; try absurd_guard.
  intros _. eexists _, _, _, _. split_and!; try eassumption.
  all: by rewrite !get_set.
Qed.

Lemma derive_result_value df res :
  get_column "Result" df = Some res ->
  wp derive_result df
    (fun _ df' =>
       get_column "WhiteWins" df'
         = Some (astype_int (col_eq_str res "1-0")) /\
       get_column "BlackWins" df'
         = Some (astype_int (col_eq_str res "0-1")) /\
       get_column "Draw" df'
         = Some (astype_int (col_eq_str res "1/2-1/2"))).
Proof.
  intros Hres. unfold derive_result.
  wp_run; use_schema; simplify_eq; try absurd_guard.
  by rewrite !get_set.
Qed.

(** *** The five blocks in sequence *)

Lemma column_is_assigns p names df df' name :
  assigns names df df' -> name ∉ names ->
  column_is p df' name = column_is p df name.
Proof. intros (_ & _ & Hget) Hname. unfold column_is. by rewrite Hget. Qed.

Lemma schema_ok_columns df :
  schema_ok df = true ->
  column_is is_object df "UTCDate" = true /\
  column_is is_object df "UTCTime" = true /\
  column_is is_object df "TimeControl" = true /\
  column_is is_object df "AN" = true /\
  column_is is_numeric df "WhiteElo" = true /\
  column_is is_numeric df "BlackElo" = true.
Proof.
  unfold schema_ok. cbn [forallb]. rewrite !andb_true_iff. tauto.
Qed.

Lemma bind_run {A B} (m : M DataFrame A) (k : A -> M DataFrame B)
    df a df' :
  m df = (Ok a, df') -> (m ≫= k) df = k a df'.
Proof. unfold mbind, M_bind. by intros ->. Qed.

Lemma dates_ok_assigns names df df' :
  assigns names df df' ->
  "UTCDate"%string ∉ names -> "UTCTime"%string ∉ names ->
  dates_ok df' = dates_ok df.
Proof.
  intros (_ & _ & Hget) H1 H2. unfold dates_ok. by rewrite !Hget.
Qed.

Lemma ratings_ok_assigns names df df' :
  assigns names df df' ->
  "WhiteElo"%string ∉ names -> "BlackElo"%string ∉ names ->
  ratings_ok df' = ratings_ok df.
Proof.
  intros (_ & _ & Hget) H1 H2. unfold ratings_ok. by rewrite !Hget.
Qed.

Lemma preprocessable_columns df :
  preprocessable df = true ->
  dates_ok df = true /\
  column_is is_object df "TimeControl" = true /\
  ratings_ok df = true /\
  column_is is_object df "AN" = true.
Proof. unfold preprocessable. rewrite !andb_true_iff. tauto. Qed.

(** The types of the data model are among those on which the blocks
    return. *)
Lemma schema_ok_preprocessable df :
  schema_ok df = true -> preprocessable df = true.
Proof.
  intros (Hdate & Htime & Htc & Han & Hwhite & Hblack)%schema_ok_columns.
  unfold preprocessable, dates_ok, ratings_ok.
  rewrite Htc, Han, !andb_true_r. unfold column_is in *.
  apply andb_true_iff. split.
  - destruct (get_column "UTCDate" df) as [[]|],
      (get_column "UTCTime" df) as [[]|]; done.
  - destruct (get_column "WhiteElo" df) as [[]|],
      (get_column "BlackElo" df) as [[]|]; done.
Qed.

(** So is a table without rows whose columns are all of object
    dtype. *)
Lemma zero_rows_preprocessable df :
  well_formed df = true ->
  len df = 0%nat ->
  (forall name c, get_column name df = Some c -> is_object c = true) ->
  preprocessable df = true.
Proof.
  intros Hwf Hempty Hobject.
  assert (forall name c, get_column name df = Some c -> c = ColObj []) as Hnil.
  { intros name c Hc. pose proof (well_formed_get _ _ _ Hwf Hc) as Hlen.
    specialize (Hobject name c Hc). unfold len in Hempty.
    rewrite Hempty in Hlen. destruct c as [x|x|x|x]; try done.
    by destruct x. }
  unfold preprocessable, dates_ok, ratings_ok, column_is.
  repeat match goal with
         | |- context [get_column ?n df] =>
             let H := fresh "Hc" in
             destruct (get_column n df) as [?|] eqn:H;
             [apply Hnil in H as ->|]
         end; done.
Qed.

Lemma derive_columns_run_on df :
  preprocessable df = true ->
  exists df1 df2 df3 df4 df5,
    derive_datetime strptime df = (Ok tt, df1) /\
    derive_time_control df1 = (Ok tt, df2) /\
    derive_elo df2 = (Ok tt, df3) /\
    derive_result df3 = (Ok tt, df4) /\
    derive_move_count df4 = (Ok tt, df5) /\
    derive_columns strptime df = (Ok tt, df5) /\
    assigns ["DateTime"; "Date"; "Hour"; "DayOfWeek"]%string df df1 /\
    assigns ["TimeControl_Base"; "TimeControl_Increment";
             "TimeControl_Grouped"]%string df1 df2 /\
    assigns ["AvgElo"; "EloDiff"]%string df2 df3 /\
    assigns ["WhiteWins"; "BlackWins"; "Draw"]%string df3 df4 /\
    assigns ["MoveCount"]%string df4 df5.
Proof.
  intros (Hdates & Htc & Hratings & Han)%preprocessable_columns.
  destruct (derive_datetime strptime df) as [r1 df1] eqn:E1.
  pose proof (wp_run_eq _ _ _ _ _ (derive_datetime_returns df Hdates) E1)
    as ->.
  pose proof (wp_run_eq _ _ _ _ _ (derive_datetime_assigns df) E1) as A1.
  simpl in A1.
  destruct (derive_time_control df1) as [r2 df2] eqn:E2.
  assert (r2 = Ok tt) as ->.
  { refine (wp_run_eq _ _ _ _ _ (derive_time_control_ok df1 _) E2).
    rewrite (column_is_assigns _ _ _ _ _ A1); [done|compute_done]. }
  pose proof (wp_run_eq _ _ _ _ _ (derive_time_control_assigns df1) E2)
    as A2.
  simpl in A2.
  destruct (derive_elo df2) as [r3 df3] eqn:E3.
  assert (r3 = Ok tt) as ->.
  { refine (wp_run_eq _ _ _ _ _ (derive_elo_returns df2 _) E3).
    rewrite (ratings_ok_assigns _ _ _ A2), (ratings_ok_assigns _ _ _ A1);
      [done|compute_done..]. }
  pose proof (wp_run_eq _ _ _ _ _ (derive_elo_assigns df2) E3) as A3.
  simpl in A3.
  destruct (derive_result df3) as [r4 df4] eqn:E4.
  pose proof (wp_run_eq _ _ _ _ _ (derive_result_ok df3) E4) as ->.
  pose proof (wp_run_eq _ _ _ _ _ (derive_result_assigns df3) E4) as A4.
  simpl in A4.
  destruct (derive_move_count df4) as [r5 df5] eqn:E5.
  assert (r5 = Ok tt) as ->.
  { refine (wp_run_eq _ _ _ _ _ (derive_move_count_ok df4 _) E5).
    rewrite (column_is_assigns _ _ _ _ _ A4),
      (column_is_assigns _ _ _ _ _ A3),
      (column_is_assigns _ _ _ _ _ A2),
      (column_is_assigns _ _ _ _ _ A1); [done|compute_done..]. }
  pose proof (wp_run_eq _ _ _ _ _ (derive_move_count_assigns df4) E5)
    as A5.
  simpl in A5.
  exists df1, df2, df3, df4, df5. split_and!; try done.
  unfold derive_columns.
  rewrite (bind_run _ _ _ _ _ E1), (bind_run _ _ _ _ _ E2),
    (bind_run _ _ _ _ _ E3), (bind_run _ _ _ _ _ E4). done.
Qed.

Lemma derive_columns_run df :
  schema_ok df = true ->
  exists df1 df2 df3 df4 df5,
    derive_datetime strptime df = (Ok tt, df1) /\
    derive_time_control df1 = (Ok tt, df2) /\
    derive_elo df2 = (Ok tt, df3) /\
    derive_result df3 = (Ok tt, df4) /\
    derive_move_count df4 = (Ok tt, df5) /\
    derive_columns strptime df = (Ok tt, df5) /\
    assigns ["DateTime"; "Date"; "Hour"; "DayOfWeek"]%string df df1 /\
    assigns ["TimeControl_Base"; "TimeControl_Increment";
             "TimeControl_Grouped"]%string df1 df2 /\
    assigns ["AvgElo"; "EloDiff"]%string df2 df3 /\
    assigns ["WhiteWins"; "BlackWins"; "Draw"]%string df3 df4 /\
    assigns ["MoveCount"]%string df4 df5.
Proof. intros H. by apply derive_columns_run_on, schema_ok_preprocessable. Qed.

(** Whatever the types of the columns, the outcome of the five blocks
    assigns derived columns only. *)
Lemma derive_columns_assigns df :
  wp (derive_columns strptime) df
    (fun _ df' => assigns derived_names df df').
Proof.
  unfold derive_columns.
  apply wp_bind.
  eapply wp_mono; [apply derive_datetime_assigns|].
  intros r1 df1 A1. apply (assigns_mono _ derived_names) in A1; [|compute_done].
  destruct r1; [|done].
  apply wp_bind.
  eapply wp_mono; [apply derive_time_control_assigns|].
  intros r2 df2 A2. apply (assigns_mono _ derived_names) in A2; [|compute_done].
  pose proof (assigns_trans _ _ _ _ A1 A2) as A12.
  destruct r2; [|done].
  apply wp_bind.
  eapply wp_mono; [apply derive_elo_assigns|].
  intros r3 df3 A3. apply (assigns_mono _ derived_names) in A3; [|compute_done].
  pose proof (assigns_trans _ _ _ _ A12 A3) as A13.
  destruct r3; [|done].
  apply wp_bind.
  eapply wp_mono; [apply derive_result_assigns|].
  intros r4 df4 A4. apply (assigns_mono _ derived_names) in A4; [|compute_done].
  pose proof (assigns_trans _ _ _ _ A13 A4) as A14.
  destruct r4; [|done].
  eapply wp_mono; [apply derive_move_count_assigns|].
  intros r5 df5 A5. apply (assigns_mono _ derived_names) in A5; [|compute_done].
  apply (assigns_trans _ _ _ _ A14 A5).
Qed.

(** *** The store *)

(** [preprocess_data] allocates the copy at a new reference and runs
    the five blocks on it. *)
Lemma preprocess_data_run (h : gmap loc DataFrame) l df :
  h !! l = Some df ->
  preprocess_data strptime l h =
  (match (derive_columns strptime df).1 with
   | Ok _ => Ok (fresh (dom h))
   | Raise e => Raise e
   end,
   <[fresh (dom h) := (derive_columns strptime df).2]> h).
Proof.
  intros Hl. unfold preprocess_data, copy, at_loc.
  unfold mbind, mret, M_bind, M_ret. rewrite Hl. simpl.
  rewrite lookup_insert_eq.
  destruct (derive_columns strptime df) as [[[]|e] df']; simpl;
    by rewrite insert_insert_eq.
Qed.

Lemma assigns_get names df df' name :
  assigns names df df' -> name ∉ names ->
  get_column name df' = get_column name df.
Proof. intros (_ & _ & Hget). apply Hget. Qed.

(** C6.  [preprocess_data] neither discards nor adds rows: the table
    it builds has as many rows as its input, and as many cells in every
    column, on every well-formed input, whatever the call comes to.  It
    returns that table on every input whose raw columns do not make a
    statement raise: text columns of object dtype, no date string
    beside a time that is a number and no rating string beside a rating
    that is present.  The table without rows that a header-only file
    gives, with its object columns, is one of them, and so is every
    table that has the types of the data model. *)
Theorem preprocess_data_row_count (h : gmap loc DataFrame) l df :
  h !! l = Some df ->
  well_formed df = true ->
  exists r l' df',
    preprocess_data strptime l h = (r, <[l' := df']> h) /\
    len df' = len df /\
    well_formed df' = true /\
    (r = Ok l' \/ (exists e, r = Raise e)) /\
    (preprocessable df = true -> r = Ok l') /\
    (schema_ok df = true -> r = Ok l') /\
    (len df = 0%nat ->
     (forall name c, get_column name df = Some c -> is_object c = true) ->
     r = Ok l' /\ len df' = 0%nat).
Proof.
  intros Hl Hwf.
  pose proof (derive_columns_assigns df) as (Hn & Hwf' & _).
  assert (preprocessable df = true ->
          (derive_columns strptime df).1 = Ok tt) as Hreturns.
  { intros Hok.
    destruct (derive_columns_run_on df Hok)
      as (df1 & df2 & df3 & df4 & df5 & _ & _ & _ & _ & _ & Hrun & _).
    by rewrite Hrun. }
  eexists _, (fresh (dom h)), (derive_columns strptime df).2.
  split_and!.
  - apply (preprocess_data_run h l df Hl).
  - exact Hn.
  - by apply Hwf'.
  - destruct (derive_columns strptime df).1; eauto.
  - intros Hok. by rewrite (Hreturns Hok).
  - intros Hschema. by rewrite (Hreturns (schema_ok_preprocessable df Hschema)).
  - intros Hempty Hobject. split; [|unfold len in *; congruence].
    rewrite Hreturns; [done|]. by apply zero_rows_preprocessable.
Qed.

(** C7.  [preprocess_data] works on a copy: the table it returns is at
    a reference that did not exist before, the caller's table and every
    other table of the store are as they were, whether the call returns
    or raises, and the copy differs from the original in derived
    columns only. *)
Theorem preprocess_data_input_unchanged (h : gmap loc DataFrame) l df :
  h !! l = Some df ->
  exists r l' df',
    preprocess_data strptime l h = (r, <[l' := df']> h) /\
    (r = Ok l' \/ (exists e, r = Raise e)) /\
    (l' ∉ dom h) /\
    l' <> l /\
    (<[l' := df']> h) !! l = Some df /\
    (forall l0 df0, h !! l0 = Some df0 ->
                    (<[l' := df']> h) !! l0 = Some df0) /\
    (<[l' := df']> h) !! l' = Some df' /\
    assigns derived_names df df'.
Proof.
  intros Hl.
  pose proof (is_fresh (dom h)) as Hfresh.
  assert (forall l0 df0, h !! l0 = Some df0 -> fresh (dom h) <> l0)
    as Hne.
  { intros l0 df0 H0 Heq. apply Hfresh. rewrite Heq.
    apply elem_of_dom. eauto. }
  eexists _, (fresh (dom h)), (derive_columns strptime df).2.
  split_and!.
  - apply (preprocess_data_run h l df Hl).
  - destruct (derive_columns strptime df).1; eauto.
  - done.
  - by apply (Hne l df).
  - rewrite lookup_insert_ne; [done|by apply (Hne l df)].
  - intros l0 df0 H0. rewrite lookup_insert_ne; [done|by apply (Hne l0 df0)].
  - apply lookup_insert_eq.
  - apply (derive_columns_assigns df).
Qed.

(** *** Result flags *)

Lemma col_eq_str_lookup res s i :
  (i < col_len res)%nat ->
  col_eq_str res s !! i
  = Some (match cell_str res i with
          | Some t => String.eqb t s
          | None => false
          end).
Proof.
  intros Hi.
  destruct res as [x|x|x|x]; simpl in *; rewrite list_lookup_fmap;
    destruct (lookup_lt_is_Some_2 x i Hi) as [o ->]; simpl; [|done..].
  by destruct o.
Qed.

Lemma flag_lookup res s i :
  (i < col_len res)%nat ->
  map (fun b : bool => if b then 1 else 0) (col_eq_str res s) !! i
  = Some (if bool_decide (cell_str res i = Some s) then 1 else 0).
Proof.
  intros Hi. rewrite list_lookup_fmap, col_eq_str_lookup by done. simpl.
  destruct (cell_str res i) as [t|]; [|done].
  destruct (String.eqb_spec t s) as [->|Hne].
  - by rewrite bool_decide_eq_true_2.
  - rewrite bool_decide_eq_false_2; [done|congruence].
Qed.

(** C9.  The three flags of a row are the 0/1 indicators of that row's
    [Result] being ["1-0"], ["0-1"] and ["1/2-1/2"]: exactly one flag
    is set on a recognized result, and none on any other value,
    a missing one included. *)
Theorem result_flags_per_row (h : gmap loc DataFrame) l df res :
  h !! l = Some df ->
  well_formed df = true ->
  schema_ok df = true ->
  get_column "Result" df = Some res ->
  exists l' df' white_wins black_wins draw,
    preprocess_data strptime l h = (Ok l', <[l' := df']> h) /\
    get_column "WhiteWins" df' = Some (ColInt white_wins) /\
    get_column "BlackWins" df' = Some (ColInt black_wins) /\
    get_column "Draw" df' = Some (ColInt draw) /\
    forall i : nat,
      (i < len df)%nat ->
      exists w b d : Z,
        white_wins !! i = Some w /\
        black_wins !! i = Some b /\
        draw !! i = Some d /\
        (cell_str res i = Some "1-0"%string -> (w, b, d) = (1, 0, 0)) /\
        (cell_str res i = Some "0-1"%string -> (w, b, d) = (0, 1, 0)) /\
        (cell_str res i = Some "1/2-1/2"%string ->
         (w, b, d) = (0, 0, 1)) /\
        (cell_str res i <> Some "1-0"%string ->
         cell_str res i <> Some "0-1"%string ->
         cell_str res i <> Some "1/2-1/2"%string ->
         (w, b, d) = (0, 0, 0)).
Proof.
  intros Hl Hwf Hschema Hres.
  destruct (derive_columns_run df Hschema)
    as (df1 & df2 & df3 & df4 & df5 & _ & _ & _ & E4 & _ & Hrun
        & A1 & A2 & A3 & A4 & A5).
  assert (get_column "Result" df3 = Some res) as Hres3.
  { rewrite (assigns_get _ _ _ _ A3), (assigns_get _ _ _ _ A2),
      (assigns_get _ _ _ _ A1); [done|compute_done..]. }
  pose proof (wp_run_eq _ _ _ _ _ (derive_result_value df3 res Hres3) E4)
    as (Hw & Hb & Hd).
  cbv beta in Hw, Hb, Hd.
  rewrite <- (assigns_get _ _ _ _ A5) in Hw by compute_done.
  rewrite <- (assigns_get _ _ _ _ A5) in Hb by compute_done.
  rewrite <- (assigns_get _ _ _ _ A5) in Hd by compute_done.
  exists (fresh (dom h)), df5. eexists _, _, _.
  split_and!; [|exact Hw|exact Hb|exact Hd|].
  { rewrite (preprocess_data_run h l df Hl), Hrun. done. }
  intros i Hi.
  assert (i < col_len res)%nat as Hi'.
  { rewrite (well_formed_get _ _ _ Hwf Hres). exact Hi. }
  eexists _, _, _.
  split_and!; [by apply flag_lookup..| | | |].
  - by intros ->.
  - by intros ->.
  - by intros ->.
  - intros H1 H2 H3. by rewrite !bool_decide_eq_false_2.
Qed.

(** *** Time-control columns *)

Lemma str_get_split (x : list obj) side :
  str_get (map (option_map (Py.split "+")) x) side
  = ColObj (time_control_side x side).
Proof.
  unfold str_get, time_control_side. f_equal. rewrite map_map.
  apply map_ext. by intros [s|].
Qed.

Lemma cells_float_spec (l : list obj) :
  (exists vs, cells_float l = Ok vs /\
              Forall2 (fun p v => cell_float p = Ok v) l vs) \/
  (exists e, cells_float l = Raise e /\
             Exists (fun p => exists e', cell_float p = Raise e') l).
Proof.
  induction l as [|p l IH]; [left; by exists []|].
  cbn [cells_float]. unfold mbind, result_bind, mret, result_ret.
  destruct (cell_float p) as [v|e] eqn:Hp; simpl.
  - destruct IH as [(vs & -> & Hvs)|(e & -> & Hex)]; simpl.
    + left. exists (v :: vs). split; [done|by constructor].
    + right. exists e. split; [done|by apply Exists_cons_tl].
  - right. exists e. split; [done|]. apply Exists_cons_hd. eauto.
Qed.

(** The conversion behind C3, for every table.  A side of the time
    controls is converted as a whole: when every piece of the side parses (a missing piece
    counting as NaN) the column holds the parsed numbers, row by row;
    when one piece does not parse the column keeps the pieces of every
    row as strings.  The two sides are converted independently. *)
Theorem time_control_columns (h : gmap loc DataFrame) l df x :
  h !! l = Some df ->
  schema_ok df = true ->
  get_column "TimeControl" df = Some (ColObj x) ->
  exists l' df',
    preprocess_data strptime l h = (Ok l', <[l' := df']> h) /\
    forall (name : string) (side : nat),
      (name, side) ∈ [("TimeControl_Base"%string, 0%nat);
                      ("TimeControl_Increment"%string, 1%nat)] ->
      (exists vs,
          Forall2 (fun p v => cell_float p = Ok v)
            (time_control_side x side) vs /\
          get_column name df' = Some (ColFloat vs)) \/
      (Exists (fun p => exists e, cell_float p = Raise e)
         (time_control_side x side) /\
       get_column name df' = Some (ColObj (time_control_side x side))).
Proof.
  intros Hl Hschema Htc.
  destruct (derive_columns_run df Hschema)
    as (df1 & df2 & df3 & df4 & df5 & _ & E2 & _ & _ & _ & Hrun
        & A1 & A2 & A3 & A4 & A5).
  assert (get_column "TimeControl" df1 = Some (ColObj x)) as Htc1.
  { rewrite (assigns_get _ _ _ _ A1); [done|compute_done]. }
  pose proof (wp_run_eq _ _ _ _ _
                (derive_time_control_value df1 x Htc1) E2)
    as (Hbase & Hinc & _).
  cbv beta in Hbase, Hinc.
  rewrite <- (assigns_get _ _ _ _ A3), <- (assigns_get _ _ _ _ A4),
    <- (assigns_get _ _ _ _ A5) in Hbase by compute_done.
  rewrite <- (assigns_get _ _ _ _ A3), <- (assigns_get _ _ _ _ A4),
    <- (assigns_get _ _ _ _ A5) in Hinc by compute_done.
  rewrite str_get_split in Hbase, Hinc.
  exists (fresh (dom h)), df5. split.
  { rewrite (preprocess_data_run h l df Hl), Hrun. done. }
  assert (forall name side,
             get_column name df5
             = Some (astype_float_ignore
                       (ColObj (time_control_side x side))) ->
             (exists vs,
                 Forall2 (fun p v => cell_float p = Ok v)
                   (time_control_side x side) vs /\
                 get_column name df5 = Some (ColFloat vs)) \/
             (Exists (fun p => exists e, cell_float p = Raise e)
                (time_control_side x side) /\
              get_column name df5
              = Some (ColObj (time_control_side x side)))) as Hside.
  { intros name side ->. cbn [astype_float_ignore].
    destruct (cells_float_spec (time_control_side x side))
      as [(vs & -> & Hvs)|(e & -> & Hex)]; [left|right]; eauto. }
  intros name side Hin.
  apply elem_of_cons in Hin as [[= -> ->]|Hin]; [by apply Hside|].
  apply list_elem_of_singleton in Hin as [= -> ->]. by apply Hside.
Qed.
End PreprocessorFacts.

(** C3.  The code does not do what the specification says on a game
    without a clock beside a timed game: the base ["-"] does not parse,
    and instead of a missing base in that row alone the base column
    keeps the strings of both rows; neither is the second row missing
    nor the first a number.  The increments, which all parse, are
    converted. *)
Lemma time_control_columns_counterexample :
  exists l' df',
    preprocess_data no_calendar 1%positive {[1%positive := two_games]}
      = (Ok l', <[l' := df']> {[1%positive := two_games]}) /\
    get_column "TimeControl_Base" df'
      = Some (ColObj [Some "300"; Some "-"]%string) /\
    get_column "TimeControl_Base" df'
      <> Some (per_cell_parse [Some "300+3"; Some "-"]%string 0) /\
    get_column "TimeControl_Increment" df'
      = Some (ColFloat [Float64.of_Z 3; Float64.nan]).
Proof.
  exists (fresh (dom ({[1%positive := two_games]} : gmap loc DataFrame))),
    (derive_columns no_calendar two_games).2.
  split.
  { rewrite (preprocess_data_run no_calendar _ 1%positive two_games)
      by apply lookup_singleton_eq.
    assert ((derive_columns no_calendar two_games).1 = Ok tt) as ->
        by (by vm_compute).
    done. }
  by vm_compute.
Qed.

(** ** Rating columns *)

Lemma wrap64_small z : - 2 ^ 63 <= z < 2 ^ 63 -> wrap64 z = z.
Proof. intros Hz. unfold wrap64. rewrite Z.mod_small; lia. Qed.

Lemma add_nan_r x : Float64.add x Float64.nan = Float64.nan.
Proof. by destruct x. Qed.

Lemma sub_nan_r x : Float64.sub x Float64.nan = Float64.nan.
Proof. by destruct x. Qed.

(** The mean and the distance of two integer ratings, in binary64. *)
Lemma mean_of_Z w b :
  Z.abs w < 2 ^ 52 -> Z.abs b < 2 ^ 52 ->
  exists q,
    Float64.to_Q (Float64.div (Float64.add (Float64.of_Z w) (Float64.of_Z b))
                    (Float64.of_Z 2)) = Some q /\
    (q == inject_Z (w + b) / 2)%Q.
Proof.
  intros Hw Hb.
  assert (2 ^ 53 = 2 * 2 ^ 52) as Hpow by done.
  rewrite add_of_Z, div_of_Z_2 by lia.
  destruct (to_Q_canon (w + b) (-1)) as (q & Hq & Heq); [lia|].
  exists q. split; [done|]. by rewrite Heq.
Qed.

Lemma distance_of_Z w b :
  Z.abs w < 2 ^ 52 -> Z.abs b < 2 ^ 52 ->
  exists q,
    Float64.to_Q (Float64.abs (Float64.sub (Float64.of_Z w) (Float64.of_Z b)))
    = Some q /\
    (q == inject_Z (Z.abs (w - b)))%Q.
Proof.
  intros Hw Hb.
  assert (2 ^ 53 = 2 * 2 ^ 52) as Hpow by done.
  rewrite sub_of_Z, abs_of_Z, of_Z_canon by lia.
  destruct (to_Q_canon (Z.abs (w - b)) 0) as (q & Hq & Heq); [lia|].
  exists q. split; [done|]. rewrite Heq. simpl. by rewrite Qmult_1_r.
Qed.

Section RatingFacts.
Variable strptime : string -> string -> option instant.

(** C8.  Row by row: where both ratings are integers (below [2 ^ 52]
    in size, held as int64 or as float64), [AvgElo] is their mean and
    [EloDiff] their absolute difference, exactly; where a rating is
    missing, [AvgElo] and [EloDiff] are missing too. *)
Theorem elo_columns (h : gmap loc DataFrame) l df white black :
  h !! l = Some df ->
  well_formed df = true ->
  schema_ok df = true ->
  get_column "WhiteElo" df = Some white ->
  get_column "BlackElo" df = Some black ->
  exists l' df' avg_elo elo_diff,
    preprocess_data strptime l h = (Ok l', <[l' := df']> h) /\
    get_column "AvgElo" df' = Some avg_elo /\
    get_column "EloDiff" df' = Some elo_diff /\
    forall i : nat,
      (forall w b : Z,
          holds_int white i w -> holds_int black i b ->
          Z.abs w < 2 ^ 52 -> Z.abs b < 2 ^ 52 ->
          exists mean distance : Q,
            cell_value avg_elo i = Some mean /\
            (mean == inject_Z (w + b) / 2)%Q /\
            cell_value elo_diff i = Some distance /\
            (distance == inject_Z (Z.abs (w - b)))%Q) /\
      ((i < len df)%nat ->
       cell_missing white i \/ cell_missing black i ->
       cell_missing avg_elo i /\ cell_missing elo_diff i).
Proof.
  intros Hl Hwf Hschema Hwhite Hblack.
  destruct (derive_columns_run strptime df Hschema)
    as (df1 & df2 & df3 & df4 & df5 & _ & _ & E3 & _ & _ & Hrun
        & A1 & A2 & A3 & A4 & A5).
  assert (get_column "WhiteElo" df2 = Some white) as Hwhite2.
  { rewrite (assigns_get _ _ _ _ A2), (assigns_get _ _ _ _ A1);
      [done|compute_done..]. }
  assert (get_column "BlackElo" df2 = Some black) as Hblack2.
  { rewrite (assigns_get _ _ _ _ A2), (assigns_get _ _ _ _ A1);
      [done|compute_done..]. }
  destruct (wp_run_eq _ _ _ _ _
              (derive_elo_value df2 white black Hwhite2 Hblack2) E3
              eq_refl)
    as (total & avg & diff & elo_diff & Hadd & Hdiv & Hsub & Habs
        & Havg & Hdiff).
  rewrite <- (assigns_get _ _ _ _ A4), <- (assigns_get _ _ _ _ A5)
    in Havg by compute_done.
  rewrite <- (assigns_get _ _ _ _ A4), <- (assigns_get _ _ _ _ A5)
    in Hdiff by compute_done.
  exists (fresh (dom h)), df5, avg, elo_diff.
  split_and!; [|exact Havg|exact Hdiff|].
  { rewrite (preprocess_data_run strptime h l df Hl), Hrun. done. }
  pose proof (well_formed_get _ _ _ Hwf Hwhite) as Hlw.
  pose proof (well_formed_get _ _ _ Hwf Hblack) as Hlb.
  assert (is_numeric white = true /\ is_numeric black = true) as [Hnw Hnb].
  { apply schema_ok_columns in Hschema as (_ & _ & _ & _ & Hw & Hb).
    unfold column_is in Hw, Hb. by rewrite Hwhite in Hw; rewrite Hblack in Hb. }
  clear - Hadd Hdiv Hsub Habs Hlw Hlb Hnw Hnb.
  intros i. split.
  - intros w b Hw Hb Hwr Hbr.
    destruct (mean_of_Z w b Hwr Hbr) as (mean & Hmean & Hmeq).
    destruct (distance_of_Z w b Hwr Hbr) as (dist & Hdist & Hdeq).
    assert (2 ^ 63 = 2048 * 2 ^ 52) as Hpow by done.
    destruct white as [x|x|x|x], black as [y|y|y|y]; try done;
      cbn [holds_int] in Hw, Hb;
      cbn [col_add col_sub] in Hadd, Hsub; simplify_eq;
      cbn [col_div_int col_abs] in Hdiv, Habs; simplify_eq;
      cbn [cell_value];
      rewrite ?list_lookup_fmap, ?lookup_zip_with, ?list_lookup_fmap,
        ?Hw, ?Hb; cbn [fmap option_fmap option_map mbind option_bind];
      change (binary_round Float64.prec Float64.emax false 2 0)
        with (Float64.of_Z 2);
      rewrite ?(wrap64_small (w + b)), ?(wrap64_small (w - b)) by lia.
    + exists mean, dist. by rewrite Hmean, Hdist.
    + exists mean, dist. by rewrite Hmean, Hdist.
    + exists mean, dist. by rewrite Hmean, Hdist.
    + destruct (to_Q_canon (w + b) (-1)) as (q & Hq & Heq); [lia|].
      exists q, (inject_Z (Z.abs (w - b))).
      rewrite (wrap64_small (Z.abs _)) by lia.
      rewrite div_of_Z_2, Hq by lia.
      split_and!; [done|by rewrite Heq|done|done].
  - intros Hi Hmiss. unfold len in Hi.
    destruct white as [x|x|x|x], black as [y|y|y|y]; try done;
      cbn [col_add col_sub] in Hadd, Hsub; simplify_eq;
      cbn [col_div_int col_abs] in Hdiv, Habs; simplify_eq;
      cbn [cell_missing col_len] in *;
      destruct (lookup_lt_is_Some_2 x i ltac:(lia)) as [vx Hx];
      destruct (lookup_lt_is_Some_2 y i ltac:(lia)) as [vy Hy];
      rewrite ?list_lookup_fmap, ?lookup_zip_with, ?list_lookup_fmap,
        Hx, Hy; cbn [fmap option_fmap option_map mbind option_bind];
      (destruct Hmiss as [Hm|Hm]; [|try done]); try done;
      rewrite Hm in *; simplify_eq;
      by rewrite ?add_nan_r, ?sub_nan_r.
Qed.
End RatingFacts.

(** ** The properties on two games *)

(** The scenario of the specification: ratings 1500 and 1520, a draw at
    ["300+3"], opening C50. *)
Example preprocess_two_games :
  exists df',
    derive_columns no_calendar two_games = (Ok tt, df') /\
    get_column "AvgElo" df'
      = Some (ColFloat [Float64.of_Z 1510; Float64.of_Z 1705]) /\
    get_column "EloDiff" df' = Some (ColInt [20; 30]) /\
    get_column "WhiteWins" df' = Some (ColInt [0; 1]) /\
    get_column "BlackWins" df' = Some (ColInt [0; 0]) /\
    get_column "Draw" df' = Some (ColInt [1; 0]) /\
    get_column "TimeControl_Grouped" df'
      = Some (ColObj [Some "Blitz (3-10min)"; Some "Unknown"]%string) /\
    get_opening_category (Some "C50"%string) = Ok "Open Games"%string /\
    get_opening_category (Some "b12"%string) = Ok "Semi-Open Games"%string /\
    get_opening_category (Some "Z99"%string) = Ok "Other"%string.
Proof. eexists. split; [by vm_compute|]. by vm_compute. Qed.

Lemma preprocess_data_row_count_witness :
  header_table !! 1%positive = Some header_only /\
  well_formed header_only = true /\
  preprocessable header_only = true /\
  exists l' df',
    preprocess_data no_calendar 1%positive header_table
      = (Ok l', <[l' := df']> header_table) /\
    len df' = 0%nat /\
    well_formed df' = true.
Proof.
  split_and!; [reflexivity..|].
  destruct (preprocess_data_row_count no_calendar header_table 1%positive
              header_only eq_refl eq_refl)
    as (r & l' & df' & Hrun & Hlen & Hwf & _ & Hok & _).
  exists l', df'. split_and!; [|exact Hlen|exact Hwf].
  rewrite Hrun. f_equal. exact (Hok eq_refl).
Defined.

(** Games without a time and without the rating of Black, the rating of
    White a text: the date and the rating blocks work on the rows where
    both cells are present, of which there is none, and the call
    returns the two rows with these derived cells missing. *)
Example preprocess_unrated_games :
  preprocessable unrated_games = true /\
  schema_ok unrated_games = false /\
  exists df',
    derive_columns no_calendar unrated_games = (Ok tt, df') /\
    len df' = 2%nat /\
    get_column "DateTime" df' = Some (ColTime [None; None]) /\
    get_column "Hour" df' = Some (ColFloat [Float64.nan; Float64.nan]) /\
    get_column "AvgElo" df' = Some (ColObj [None; None]) /\
    get_column "EloDiff" df' = Some (ColObj [None; None]) /\
    get_column "WhiteWins" df' = Some (ColInt [1; 0]).
Proof.
  split; [reflexivity|]. split; [reflexivity|].
  eexists. split; [by vm_compute|]. by vm_compute.
Qed.

(** A rating that is a text beside a rating that is a number stops the
    call. *)
Example preprocess_text_rating :
  let df := {| nrows := 1;
               cols := [("WhiteElo", ColObj [Some "?"]);
                        ("BlackElo", ColInt [1500])]%string |} in
  preprocessable df = false /\
  (derive_columns no_calendar df).1 = Raise TypeError /\
  len (derive_columns no_calendar df).2 = 1%nat.
Proof. by vm_compute. Qed.

(** A table without rows is preprocessed to a table without rows. *)
Lemma preprocess_data_row_count_empty :
  exists l' df',
    preprocess_data no_calendar 1%positive {[1%positive := no_games]}
      = (Ok l', <[l' := df']> {[1%positive := no_games]}) /\
    len df' = 0%nat /\
    well_formed df' = true.
Proof.
  exists (fresh (dom ({[1%positive := no_games]} : gmap loc DataFrame))),
    (derive_columns no_calendar no_games).2.
  split.
  { rewrite (preprocess_data_run no_calendar _ 1%positive no_games)
      by apply lookup_singleton_eq.
    assert ((derive_columns no_calendar no_games).1 = Ok tt) as ->
        by (by vm_compute).
    done. }
  by vm_compute.
Qed.

Lemma preprocess_data_input_unchanged_witness :
  one_table !! 1%positive = Some two_games /\
  exists r l' df',
    preprocess_data no_calendar 1%positive one_table
      = (r, <[l' := df']> one_table) /\
    l' <> 1%positive /\
    (<[l' := df']> one_table) !! 1%positive = Some two_games.
Proof.
  split; [reflexivity|].
  destruct (preprocess_data_input_unchanged no_calendar one_table 1%positive
              two_games eq_refl)
    as (r & l' & df' & Hrun & _ & _ & Hne & Hsame & _).
  exists r, l', df'. auto.
Defined.

Lemma result_flags_per_row_witness :
  one_table !! 1%positive = Some two_games /\
  well_formed two_games = true /\
  schema_ok two_games = true /\
  get_column "Result" two_games
    = Some (ColObj [Some "1/2-1/2"; Some "1-0"]%string) /\
  exists l' df' white_wins black_wins draw,
    preprocess_data no_calendar 1%positive one_table
      = (Ok l', <[l' := df']> one_table) /\
    get_column "WhiteWins" df' = Some (ColInt white_wins) /\
    get_column "BlackWins" df' = Some (ColInt black_wins) /\
    get_column "Draw" df' = Some (ColInt draw).
Proof.
  split_and!; [reflexivity..|].
  destruct (result_flags_per_row no_calendar one_table 1%positive two_games
              (ColObj [Some "1/2-1/2"; Some "1-0"]%string)
              eq_refl eq_refl eq_refl eq_refl)
    as (l' & df' & ww & bw & dr & Hrun & Hw & Hb & Hd & _).
  exists l', df', ww, bw, dr. auto.
Defined.

Lemma time_control_columns_witness :
  one_table !! 1%positive = Some two_games /\
  schema_ok two_games = true /\
  get_column "TimeControl" two_games
    = Some (ColObj [Some "300+3"; Some "-"]%string) /\
  exists l' df',
    preprocess_data no_calendar 1%positive one_table
      = (Ok l', <[l' := df']> one_table).
Proof.
  split_and!; [reflexivity..|].
  destruct (time_control_columns no_calendar one_table 1%positive two_games
              [Some "300+3"; Some "-"]%string eq_refl eq_refl eq_refl)
    as (l' & df' & Hrun & _).
  exists l', df'. exact Hrun.
Defined.

Lemma elo_columns_witness :
  one_table !! 1%positive = Some two_games /\
  well_formed two_games = true /\
  schema_ok two_games = true /\
  get_column "WhiteElo" two_games = Some (ColInt [1500; 1720]) /\
  get_column "BlackElo" two_games = Some (ColInt [1520; 1690]) /\
  exists l' df' avg_elo elo_diff,
    preprocess_data no_calendar 1%positive one_table
      = (Ok l', <[l' := df']> one_table) /\
    get_column "AvgElo" df' = Some avg_elo /\
    get_column "EloDiff" df' = Some elo_diff.
Proof.
  split_and!; [reflexivity..|].
  destruct (elo_columns no_calendar one_table 1%positive two_games
              (ColInt [1500; 1720]) (ColInt [1520; 1690])
              eq_refl eq_refl eq_refl eq_refl eq_refl)
    as (l' & df' & avg & diff & Hrun & Havg & Hdiff & _).
  exists l', df', avg, diff. auto.
Defined.

(** * Further properties *)

(** ** The opening classifier *)

Lemma upper_char_idempotent c :
  Py.upper_char (Py.upper_char c) = Py.upper_char c.
Proof. by destruct c as [[] [] [] [] [] [] [] []]. Qed.

Lemma upper_cons c s :
  Py.upper (String c s) = String (Py.upper_char c) (Py.upper s).
Proof. done. Qed.

(** X1.  On a code of at least one character the classifier returns one
    of the five families or ["Other"], never ["Unknown"]; the answer
    depends on the first character only, and not on its case. *)
Theorem get_opening_category_first_letter (c : ascii) (s : string) :
  (exists label,
      get_opening_category (Some (String c s)) = Ok label /\
      label ∈ opening_labels) /\
  (forall s' : string,
      get_opening_category (Some (String c s'))
      = get_opening_category (Some (String c s))) /\
  get_opening_category (Some (Py.upper (String c s)))
  = get_opening_category (Some (String c s)) /\
  get_opening_category (Some (String (Py.upper_char c) s))
  = get_opening_category (Some (String c s)).
Proof.
  split_and!.
  - rewrite get_opening_category_nonempty. eexists. split; [done|].
    unfold dict_get, categories, opening_labels.
    repeat case_match; compute_done.
  - intros s'. by rewrite !get_opening_category_nonempty.
  - by rewrite upper_cons, !get_opening_category_nonempty,
      upper_char_idempotent.
  - by rewrite !get_opening_category_nonempty, upper_char_idempotent.
Qed.

(** ** The duration estimate and the move count *)

Lemma count_char_app c (a b : string) :
  count_char c (a ++ b)%string = count_char c a + count_char c b.
Proof. induction a as [|c' a IH]; simpl; [done|]. rewrite IH. lia. Qed.

Lemma count_char_bounds c s :
  0 <= count_char c s <= Z.of_nat (String.length s).
Proof.
  induction s as [|c' s IH]; simpl String.length; simpl count_char; [lia|].
  destruct (Ascii.eqb c' c); lia.
Qed.

(** X2.  The duration estimate of a missing text is [None]; of a text it
    is two minutes per ["."], so it is even, at least 0, at most twice
    the length of the text, and the estimate of two texts put together
    is the sum of their estimates. *)
Theorem calculate_game_duration_additive (a b : string) :
  calculate_game_duration None = None /\
  exists da db : Z,
    calculate_game_duration (Some a) = Some da /\
    calculate_game_duration (Some b) = Some db /\
    calculate_game_duration (Some (a ++ b)%string) = Some (da + db) /\
    0 <= da <= 2 * Z.of_nat (String.length a) /\
    Z.even da = true /\
    da = 2 * count_char "." a.
Proof.
  split; [done|].
  exists (count_char "." a * 2), (count_char "." b * 2).
  pose proof (count_char_bounds "." a).
  split_and!; [done|done| |lia|lia| |lia].
  - unfold calculate_game_duration. simpl. rewrite count_char_app.
    f_equal. lia.
  - rewrite Z.even_mul. apply orb_true_r.
Qed.

Lemma prefix_cons c c' (a s : string) :
  String.prefix (String c a) (String c' s)
  = Ascii.eqb c c' && String.prefix a s.
Proof.
  cbn [String.prefix].
  destruct (ascii_dec c c') as [->|Hne].
  - by rewrite Ascii.eqb_refl.
  - by apply Ascii.eqb_neq in Hne as ->.
Qed.

Lemma prefix_nil (s : string) : String.prefix "" s = true.
Proof. by destruct s. Qed.

Lemma prefix_longer (a b s : string) :
  String.prefix (a ++ b)%string s = true -> String.prefix a s = true.
Proof.
  revert s. induction a as [|c a IH]; intros s; [by destruct s|].
  destruct s as [|c' s]; simpl; [done|].
  destruct (ascii_dec c c'); [apply IH|done].
Qed.

Lemma count_digits_then_mono (a b s : string) :
  0 <= count_digits_then (a ++ b)%string s <= count_digits_then a s.
Proof.
  induction s as [|c s IH]; simpl; [lia|].
  destruct (Py.is_digit c); simpl; [|lia].
  destruct (String.prefix (a ++ b) s) eqn:Hp.
  - rewrite (prefix_longer _ _ _ Hp). lia.
  - destruct (String.prefix a s); lia.
Qed.

Lemma count_digits_dots s :
  count_digits_then "." s
  + (if String.prefix "." s then 1 else 0) <= count_char "." s.
Proof.
  induction s as [|c s IH]; [done|].
  cbn [count_digits_then count_char].
  destruct (Ascii.eqb_spec c ".") as [->|Hc].
  - change (Py.is_digit "."%char) with false.
    rewrite prefix_cons, prefix_nil. cbn [Ascii.eqb Bool.eqb andb].
    pose proof (count_digits_then_mono "." "" s) as Hm.
    destruct (String.prefix "." s); simpl; lia.
  - rewrite prefix_cons, Ascii.eqb_sym.
    apply Ascii.eqb_neq in Hc as ->. cbn [andb].
    destruct (Py.is_digit c && String.prefix "." s) eqn:Hd.
    + apply andb_prop in Hd as [_ Hp]. rewrite Hp in IH. lia.
    + destruct (String.prefix "." s); lia.
Qed.

(** X3.  In any move text the markers of the form digits and ["..."]
    are among the markers of the form digits and ["."], which are among
    the ["."] characters: [MoveCount] counts every ["..."] marker twice,
    and never exceeds the duration estimate of the same text. *)
Theorem move_count_bounds (s : string) :
  0 <= count_digits_then "..." s <= count_digits_then "." s /\
  count_digits_then "." s <= count_char "." s /\
  2 * count_digits_then "..." s <= move_count s /\
  move_count s <= 2 * count_digits_then "." s /\
  (forall d, calculate_game_duration (Some s) = Some d -> move_count s <= d).
Proof.
  pose proof (count_digits_then_mono "." ".." s) as Hm.
  change ("." ++ "..")%string with "..."%string in Hm.
  pose proof (count_digits_dots s) as Hd.
  assert (count_digits_then "." s <= count_char "." s) as Hc.
  { destruct (String.prefix "." s); lia. }
  unfold move_count. split_and!; try lia.
  intros d [= <-]. simpl. lia.
Qed.

(** ** Time controls *)

Lemma split_piece_alone sep s p ps :
  Py.split sep s = p :: ps -> Py.split sep p = [p].
Proof.
  revert p ps. induction s as [|c s IH]; intros p ps; simpl.
  - by intros [= <- <-].
  - destruct (Ascii.eqb_spec c sep) as [->|Hne].
    + by intros [= <- <-].
    + destruct (Py.split sep s) as [|p' ps'] eqn:Hs.
      * intros [= <- <-]. simpl.
        by apply Ascii.eqb_neq in Hne as ->.
      * intros [= <- <-]. simpl.
        apply Ascii.eqb_neq in Hne as ->.
        by rewrite (IH p' ps').
Qed.

Lemma split_head_of_app sep (b x : string) :
  hd ""%string (Py.split sep (b ++ String sep x)%string)
  = hd ""%string (Py.split sep b).
Proof.
  induction b as [|c b IH]; simpl.
  - by rewrite Ascii.eqb_refl.
  - destruct (Ascii.eqb c sep); [done|].
    destruct (Py.split sep (b ++ String sep x)) as [|p ps],
      (Py.split sep b) as [|q qs]; simpl in *; congruence.
Qed.

Lemma split_nonempty sep s : Py.split sep s <> [].
Proof.
  destruct s as [|c s]; simpl; [done|].
  destruct (Ascii.eqb c sep); [done|]. by destruct (Py.split sep s).
Qed.

Lemma base_seconds_head s :
  base_seconds s = Py.float (hd ""%string (Py.split "+" s)).
Proof.
  unfold base_seconds. pose proof (split_nonempty "+" s).
  by destruct (Py.split "+" s) as [|p ps].
Qed.

Lemma base_seconds_base s :
  base_seconds (hd ""%string (Py.split "+" s)) = base_seconds s.
Proof.
  rewrite !base_seconds_head.
  destruct (Py.split "+" s) as [|p ps] eqn:Hs; simpl; [done|].
  by rewrite (split_piece_alone _ _ _ _ Hs).
Qed.

(** X4.  The category of a time control is the category of its part
    before the first ["+"]: the increment, and anything else after the
    first ["+"], never matters. *)
Theorem categorize_time_control_base_only :
  (forall s : string,
      categorize_time_control (Some s)
      = categorize_time_control (Some (hd ""%string (Py.split "+" s)))) /\
  (forall b inc inc' : string,
      categorize_time_control (Some (b ++ String "+" inc)%string)
      = categorize_time_control (Some (b ++ String "+" inc')%string)).
Proof.
  assert (forall s : string,
             categorize_time_control (Some s)
             = categorize_time_control
                 (Some (hd ""%string (Py.split "+" s)))) as Hbase.
  { intros s. by rewrite !categorize_time_control_cases, base_seconds_base. }
  split; [done|].
  intros b inc inc'.
  by rewrite (Hbase (b ++ _)%string), (Hbase (b ++ String "+" inc')%string),
    !split_head_of_app.
Qed.

Lemma categorize_time_control_label (x : obj) :
  categorize_time_control x ∈ time_control_labels.
Proof.
  destruct x as [s|]; [|compute_done].
  rewrite categorize_time_control_cases.
  destruct (base_seconds s); [|compute_done].
  repeat case_match; compute_done.
Qed.

Lemma categorize_time_control_bucket s v :
  base_seconds s = Ok v -> categorize_time_control (Some s) = bucket v.
Proof. intros H. by rewrite categorize_time_control_cases, H. Qed.

Lemma cells_float_lookup l vs i p :
  cells_float l = Ok vs -> l !! i = Some p ->
  exists v, vs !! i = Some v /\ cell_float p = Ok v.
Proof.
  intros Hvs.
  destruct (cells_float_spec l) as [(vs' & Hvs' & Hall)|(e & He & _)];
    [|congruence].
  rewrite Hvs in Hvs'. injection Hvs' as <-.
  intros Hp. destruct (Forall2_lookup_l _ _ _ _ _ Hall Hp) as (v & Hv & Hpv).
  eauto.
Qed.

Section TimeControlFacts.
Variable strptime : string -> string -> option instant.

(** The time-control columns of the table [preprocess_data] returns. *)
Lemma time_control_run (h : gmap loc DataFrame) l df x :
  h !! l = Some df ->
  schema_ok df = true ->
  get_column "TimeControl" df = Some (ColObj x) ->
  exists df',
    preprocess_data strptime l h
      = (Ok (fresh (dom h)), <[fresh (dom h) := df']> h) /\
    get_column "TimeControl_Base" df'
      = Some (astype_float_ignore (ColObj (time_control_side x 0))) /\
    get_column "TimeControl_Grouped" df'
      = Some (ColObj (map (fun o => Some (categorize_time_control o)) x)).
Proof.
  intros Hl Hschema Htc.
  destruct (derive_columns_run strptime df Hschema)
    as (df1 & df2 & df3 & df4 & df5 & _ & E2 & _ & _ & _ & Hrun
        & A1 & A2 & A3 & A4 & A5).
  assert (get_column "TimeControl" df1 = Some (ColObj x)) as Htc1.
  { rewrite (assigns_get _ _ _ _ A1); [done|compute_done]. }
  pose proof (wp_run_eq _ _ _ _ _
                (derive_time_control_value df1 x Htc1) E2)
    as (Hbase & _ & Hgrouped).
  cbv beta in Hbase, Hgrouped.
  rewrite <- (assigns_get _ _ _ _ A3), <- (assigns_get _ _ _ _ A4),
    <- (assigns_get _ _ _ _ A5) in Hbase by compute_done.
  rewrite <- (assigns_get _ _ _ _ A3), <- (assigns_get _ _ _ _ A4),
    <- (assigns_get _ _ _ _ A5) in Hgrouped by compute_done.
  rewrite str_get_split in Hbase.
  exists df5. split_and!; [|done|done].
  rewrite (preprocess_data_run strptime h l df Hl), Hrun. done.
Qed.

(** X5.  [TimeControl_Grouped] has a label in every row, one of the
    five, also where the time control is missing or malformed: the
    column has no missing value. *)
Theorem time_control_grouped_column (h : gmap loc DataFrame) l df x :
  h !! l = Some df ->
  schema_ok df = true ->
  get_column "TimeControl" df = Some (ColObj x) ->
  exists l' df' grouped,
    preprocess_data strptime l h = (Ok l', <[l' := df']> h) /\
    get_column "TimeControl_Grouped" df' = Some (ColObj grouped) /\
    length grouped = length x /\
    forall (i : nat) (tc : obj),
      x !! i = Some tc ->
      grouped !! i = Some (Some (categorize_time_control tc)) /\
      categorize_time_control tc ∈ time_control_labels /\
      (tc = None -> categorize_time_control tc = "Unknown"%string).
Proof.
  intros Hl Hschema Htc.
  destruct (time_control_run h l df x Hl Hschema Htc)
    as (df' & Hrun & _ & Hgrouped).
  eexists _, df', _. split_and!; [exact Hrun|exact Hgrouped| |].
  - by rewrite length_map.
  - intros i tc Hi. split_and!.
    + by rewrite list_lookup_fmap, Hi.
    + apply categorize_time_control_label.
    + by intros ->.
Qed.

(** X6.  Where the conversion of the base column succeeds, the two
    columns agree row by row: the label of a row is the bucket of the
    number in [TimeControl_Base], and a missing time control has NaN as
    its base and ["Unknown"] as its label. *)
Theorem time_control_base_agrees (h : gmap loc DataFrame) l df x vs :
  h !! l = Some df ->
  schema_ok df = true ->
  get_column "TimeControl" df = Some (ColObj x) ->
  cells_float (time_control_side x 0) = Ok vs ->
  exists l' df' grouped,
    preprocess_data strptime l h = (Ok l', <[l' := df']> h) /\
    get_column "TimeControl_Base" df' = Some (ColFloat vs) /\
    get_column "TimeControl_Grouped" df' = Some (ColObj grouped) /\
    forall i : nat,
      (forall s, x !! i = Some (Some s) ->
                 exists v, vs !! i = Some v /\
                           grouped !! i = Some (Some (bucket v))) /\
      (x !! i = Some None ->
       vs !! i = Some Float64.nan /\
       grouped !! i = Some (Some "Unknown"%string)).
Proof.
  intros Hl Hschema Htc Hvs.
  destruct (time_control_run h l df x Hl Hschema Htc)
    as (df' & Hrun & Hbase & Hgrouped).
  cbn [astype_float_ignore] in Hbase. rewrite Hvs in Hbase.
  eexists _, df', _. split_and!; [exact Hrun|exact Hbase|exact Hgrouped|].
  intros i. split.
  - intros s Hs.
    assert (time_control_side x 0 !! i
            = Some (Some (hd ""%string (Py.split "+" s)))) as Hside.
    { unfold time_control_side. rewrite list_lookup_fmap, Hs. simpl.
      pose proof (split_nonempty "+" s).
      by destruct (Py.split "+" s). }
    destruct (cells_float_lookup _ _ _ _ Hvs Hside) as (v & Hv & Hfloat).
    exists v. split; [done|].
    rewrite list_lookup_fmap, Hs. simpl. do 2 f_equal.
    apply categorize_time_control_bucket.
    by rewrite base_seconds_head.
  - intros Hnone.
    assert (time_control_side x 0 !! i = Some None) as Hside.
    { unfold time_control_side. by rewrite list_lookup_fmap, Hnone. }
    destruct (cells_float_lookup _ _ _ _ Hvs Hside) as (v & Hv & [= <-]).
    split; [done|]. by rewrite list_lookup_fmap, Hnone.
Qed.
End TimeControlFacts.

Lemma time_control_grouped_column_witness :
  timed_table !! 1%positive = Some timed_games /\
  schema_ok timed_games = true /\
  get_column "TimeControl" timed_games
    = Some (ColObj [Some "300+3"; None]%string) /\
  exists l' df' grouped,
    preprocess_data no_calendar 1%positive timed_table
      = (Ok l', <[l' := df']> timed_table) /\
    get_column "TimeControl_Grouped" df' = Some (ColObj grouped).
Proof.
  split_and!; [reflexivity..|].
  destruct (time_control_grouped_column no_calendar timed_table 1%positive
              timed_games [Some "300+3"; None]%string
              eq_refl eq_refl eq_refl)
    as (l' & df' & grouped & Hrun & Hgrouped & _).
  exists l', df', grouped. auto.
Defined.

Lemma time_control_base_agrees_witness :
  timed_table !! 1%positive = Some timed_games /\
  schema_ok timed_games = true /\
  get_column "TimeControl" timed_games
    = Some (ColObj [Some "300+3"; None]%string) /\
  cells_float (time_control_side [Some "300+3"; None]%string 0)
    = Ok [Float64.of_Z 300; Float64.nan] /\
  exists l' df' grouped,
    preprocess_data no_calendar 1%positive timed_table
      = (Ok l', <[l' := df']> timed_table) /\
    get_column "TimeControl_Base" df'
      = Some (ColFloat [Float64.of_Z 300; Float64.nan]) /\
    get_column "TimeControl_Grouped" df' = Some (ColObj grouped).
Proof.
  split_and!; [reflexivity..|].
  destruct (time_control_base_agrees no_calendar timed_table 1%positive
              timed_games [Some "300+3"; None]%string
              [Float64.of_Z 300; Float64.nan]
              eq_refl eq_refl eq_refl eq_refl)
    as (l' & df' & grouped & Hrun & Hbase & Hgrouped & _).
  exists l', df', grouped. auto.
Defined.

(** ** The columns [preprocess_data] touches *)

Lemma assigns_has_column names df df' name :
  assigns names df df' -> name ∉ names ->
  has_column name df' = has_column name df.
Proof.
  intros A Hname. by rewrite !has_column_get, (assigns_get _ _ _ _ A).
Qed.

Lemma assigns_app names1 names2 df1 df2 df3 :
  assigns names1 df1 df2 -> assigns names2 df2 df3 ->
  assigns (names1 ++ names2) df1 df3.
Proof.
  intros A1 A2. eapply assigns_trans.
  - eapply assigns_mono; [|exact A1]. set_solver.
  - eapply assigns_mono; [|exact A2]. set_solver.
Qed.

Lemma wp_seq_assigns (m1 m2 : M DataFrame unit) names1 names2 df :
  wp m1 df (fun _ d => assigns names1 df d) ->
  (forall d, assigns names1 df d ->
             wp m2 d (fun _ d' => assigns names2 d d')) ->
  wp (m1;; m2) df (fun _ d' => assigns (names1 ++ names2) df d').
Proof.
  intros H1 H2. apply wp_bind.
  eapply wp_mono; [exact H1|]. intros r d A1. cbv beta in A1.
  destruct r as [[]|e].
  - eapply wp_mono; [exact (H2 d A1)|].
    intros r' d' A2. exact (assigns_app _ _ _ _ _ A1 A2).
  - eapply assigns_mono; [|exact A1]. set_solver.
Qed.

Lemma column_names_set name c df :
  column_names (set_column name c df)
  = if has_column name df then column_names df
    else column_names df ++ [name].
Proof.
  unfold column_names, set_column, has_column, column_names. simpl.
  induction (cols df) as [|[k c0] l IH]; simpl; [done|].
  rewrite (String.eqb_sym name k).
  destruct (String.eqb k name); simpl; [done|].
  rewrite IH. by destruct (existsb _ _).
Qed.

Lemma column_names_set_prefix name c df :
  column_names df `prefix_of` column_names (set_column name c df).
Proof.
  rewrite column_names_set. destruct (has_column name df); [done|].
  by apply prefix_app_r.
Qed.

Ltac order_solve :=
  repeat first
    [ reflexivity
    | etrans; [|apply column_names_set_prefix] ].

Lemma wp_seq_order (m1 m2 : M DataFrame unit) df :
  wp m1 df (fun _ d => column_names df `prefix_of` column_names d) ->
  (forall d, wp m2 d (fun _ d' => column_names d `prefix_of` column_names d')) ->
  wp (m1;; m2) df (fun _ d' => column_names df `prefix_of` column_names d').
Proof.
  intros H1 H2. apply wp_bind.
  eapply wp_mono; [exact H1|]. intros r d A1. cbv beta in A1.
  destruct r as [[]|e]; [|done].
  eapply wp_mono; [exact (H2 d)|].
  intros r' d' A2. by etrans.
Qed.

Ltac all_guards df :=
  destruct (has_column "UTCDate" df), (has_column "UTCTime" df),
    (has_column "TimeControl" df), (has_column "WhiteElo" df),
    (has_column "BlackElo" df), (has_column "Result" df),
    (has_column "AN" df); compute_done.

Lemma assigned_names_derived df name :
  name ∈ assigned_names df -> name ∈ derived_names.
Proof.
  revert name. change (assigned_names df ⊆ derived_names).
  unfold assigned_names. all_guards df.
Qed.

Section TouchedColumns.
Variable strptime : string -> string -> option instant.

Ltac guarded_assigns :=
  wp_run;
  match goal with
  | H : _ = true |- _ => rewrite H; assigns_solve
  | H : _ = false |- _ => rewrite H; apply assigns_refl
  end.

Lemma derive_datetime_guarded df :
  wp (derive_datetime strptime) df
    (fun _ df' =>
       assigns (if has_column "UTCDate" df && has_column "UTCTime" df
                then ["DateTime"; "Date"; "Hour"; "DayOfWeek"]%string
                else []) df df').
Proof. unfold derive_datetime. guarded_assigns. Qed.

Lemma derive_time_control_guarded df :
  wp derive_time_control df
    (fun _ df' =>
       assigns (if has_column "TimeControl" df
                then ["TimeControl_Base"; "TimeControl_Increment";
                      "TimeControl_Grouped"]%string
                else []) df df').
Proof. unfold derive_time_control. guarded_assigns. Qed.

Lemma derive_elo_guarded df :
  wp derive_elo df
    (fun _ df' =>
       assigns (if has_column "WhiteElo" df && has_column "BlackElo" df
                then ["AvgElo"; "EloDiff"]%string else []) df df').
Proof. unfold derive_elo. guarded_assigns. Qed.

Lemma derive_result_guarded df :
  wp derive_result df
    (fun _ df' =>
       assigns (if has_column "Result" df
                then ["WhiteWins"; "BlackWins"; "Draw"]%string else [])
         df df').
Proof. unfold derive_result. guarded_assigns. Qed.

Lemma derive_move_count_guarded df :
  wp derive_move_count df
    (fun _ df' =>
       assigns (if has_column "AN" df then ["MoveCount"]%string else [])
         df df').
Proof. unfold derive_move_count. guarded_assigns. Qed.

Ltac same_guard A :=
  rewrite <- ?(assigns_has_column _ _ _ _ A) by compute_done.

Lemma derive_columns_guarded df :
  wp (derive_columns strptime) df
    (fun _ df' => assigns (assigned_names df) df df').
Proof.
  unfold derive_columns, assigned_names.
  apply wp_seq_assigns; [apply derive_datetime_guarded|].
  intros d1 A1. apply (assigns_mono _ derived_names) in A1;
    [|case_match; compute_done].
  same_guard A1.
  apply wp_seq_assigns; [apply derive_time_control_guarded|].
  intros d2 A2. apply (assigns_mono _ derived_names) in A2;
    [|case_match; compute_done].
  same_guard A2.
  apply wp_seq_assigns; [apply derive_elo_guarded|].
  intros d3 A3. apply (assigns_mono _ derived_names) in A3;
    [|case_match; compute_done].
  same_guard A3.
  apply wp_seq_assigns; [apply derive_result_guarded|].
  intros d4 A4. apply (assigns_mono _ derived_names) in A4;
    [|case_match; compute_done].
  same_guard A4.
  apply derive_move_count_guarded.
Qed.

Lemma derive_columns_order df :
  wp (derive_columns strptime) df
    (fun _ df' => column_names df `prefix_of` column_names df').
Proof.
  unfold derive_columns.
  apply wp_seq_order;
    [unfold derive_datetime; wp_run; order_solve|intros d1].
  apply wp_seq_order;
    [unfold derive_time_control; wp_run; order_solve|intros d2].
  apply wp_seq_order;
    [unfold derive_elo; wp_run; order_solve|intros d3].
  apply wp_seq_order;
    [unfold derive_result; wp_run; order_solve|intros d4].
  unfold derive_move_count; wp_run; order_solve.
Qed.

(** X7.  Whatever [preprocess_data] comes to, a value or an error part
    of the way, the table it worked on differs from the input only in
    the derived columns of the blocks whose raw columns the input has:
    a block whose raw column is absent assigns nothing, and a column of
    that block's name that the input already had is kept as it is. *)
Theorem preprocess_data_assigned_columns (h : gmap loc DataFrame) l df :
  h !! l = Some df ->
  exists r df',
    preprocess_data strptime l h = (r, <[fresh (dom h) := df']> h) /\
    nrows df' = nrows df /\
    (forall name, name ∉ assigned_names df ->
                  get_column name df' = get_column name df) /\
    (forall name, name ∈ assigned_names df -> name ∈ derived_names) /\
    (has_column "AN" df = false ->
     get_column "MoveCount" df' = get_column "MoveCount" df) /\
    (has_column "UTCDate" df = false ->
     forall name, name ∈ ["DateTime"; "Date"; "Hour"; "DayOfWeek"]%string ->
                  get_column name df' = get_column name df).
Proof.
  intros Hl. rewrite (preprocess_data_run strptime h l df Hl).
  pose proof (derive_columns_guarded df) as (Hrows & _ & Hget).
  eexists _, _. split_and!; [reflexivity|exact Hrows|exact Hget| | |].
  - apply assigned_names_derived.
  - intros Han. apply Hget. unfold assigned_names. rewrite Han.
    all_guards df.
  - intros Hdate name Hname. apply Hget. unfold assigned_names.
    rewrite Hdate. revert name Hname. apply Forall_forall.
    all_guards df.
Qed.

(** X8.  The table [preprocess_data] builds keeps the columns of the
    input in their order, at the front: a derived column is written in
    place when the input already has a column of that name and appended
    otherwise, and every column of the result is one of the input or an
    assigned one. *)
Theorem preprocess_data_column_order (h : gmap loc DataFrame) l df :
  h !! l = Some df ->
  exists r df',
    preprocess_data strptime l h = (r, <[fresh (dom h) := df']> h) /\
    column_names df `prefix_of` column_names df' /\
    forall name, name ∈ column_names df' ->
                 name ∈ column_names df \/ name ∈ assigned_names df.
Proof.
  intros Hl. rewrite (preprocess_data_run strptime h l df Hl).
  pose proof (derive_columns_guarded df) as (_ & _ & Hget).
  pose proof (derive_columns_order df) as Horder.
  eexists _, _. split_and!; [reflexivity|exact Horder|].
  intros name Hname.
  destruct (decide (name ∈ assigned_names df)) as [|Hnot]; [by right|left].
  specialize (Hget name Hnot).
  assert (forall d, name ∈ column_names d <-> has_column name d = true) as Hin.
  { intros d. unfold has_column. rewrite existsb_exists. split.
    - intros H. exists name. split; [by apply list_elem_of_In|].
      apply String.eqb_refl.
    - intros (k & Hk & Heq). apply String.eqb_eq in Heq as ->.
      by apply list_elem_of_In. }
  apply Hin. apply Hin in Hname.
  by rewrite has_column_get, <- Hget, <- has_column_get.
Qed.
End TouchedColumns.

Lemma preprocess_data_assigned_columns_witness :
  one_table !! 1%positive = Some two_games /\
  exists r df',
    preprocess_data no_calendar 1%positive one_table
      = (r, <[fresh (dom one_table) := df']> one_table) /\
    nrows df' = nrows two_games.
Proof.
  split; [reflexivity|].
  destruct (preprocess_data_assigned_columns no_calendar one_table
              1%positive two_games eq_refl)
    as (r & df' & Hrun & Hrows & _).
  exists r, df'. auto.
Defined.

Lemma preprocess_data_column_order_witness :
  one_table !! 1%positive = Some two_games /\
  exists r df',
    preprocess_data no_calendar 1%positive one_table
      = (r, <[fresh (dom one_table) := df']> one_table) /\
    column_names two_games `prefix_of` column_names df'.
Proof.
  split; [reflexivity|].
  destruct (preprocess_data_column_order no_calendar one_table
              1%positive two_games eq_refl)
    as (r & df' & Hrun & Horder & _).
  exists r, df'. auto.
Defined.

(** ** Counts and dates, row by row *)

Lemma all_present_map {A B} (f : A -> B) (l : list (option A)) :
  all_present (map (option_map f) l) = all_present l.
Proof.
  unfold all_present. induction l as [|[a|] l IH]; simpl; congruence.
Qed.

Lemma all_present_lookup {A} (l : list (option A)) i :
  all_present l = true -> l !! i = Some None -> False.
Proof.
  unfold all_present. revert i.
  induction l as [|[a|] l IH]; intros [|i]; simpl; try done.
  apply IH.
Qed.

Lemma omap_present_lookup {A} (l : list (option A)) i a :
  all_present l = true -> l !! i = Some (Some a) -> omap id l !! i = Some a.
Proof.
  unfold all_present. revert i.
  induction l as [|[b|] l IH]; intros [|i]; simpl; try done.
  - by intros _ [= ->].
  - apply IH.
Qed.

Lemma int_or_float_lookup (l : list (option Z)) i :
  (forall z, l !! i = Some (Some z) -> holds_int (int_or_float l) i z) /\
  (l !! i = Some None -> cell_missing (int_or_float l) i).
Proof.
  unfold int_or_float. destruct (all_present l) eqn:Hl; simpl; split.
  - intros z. by apply omap_present_lookup.
  - intros Hi. by destruct (all_present_lookup l i).
  - intros z Hi. by rewrite list_lookup_fmap, Hi.
  - intros Hi. by rewrite list_lookup_fmap, Hi.
Qed.

(** The sum of two counts over one text column. *)
Lemma count_columns_add (f g : string -> Z) (x : list obj) :
  exists total,
    col_add (int_or_float (map (option_map f) x))
            (int_or_float (map (option_map g) x)) = Ok total /\
    forall i : nat,
      (forall s, x !! i = Some (Some s) ->
                 Z.abs (f s) < 2 ^ 52 -> Z.abs (g s) < 2 ^ 52 ->
                 holds_int total i (f s + g s)) /\
      (x !! i = Some None -> cell_missing total i).
Proof.
  assert (2 ^ 53 = 2 * 2 ^ 52) as Hpow by done.
  unfold int_or_float. rewrite !all_present_map.
  destruct (all_present x) eqn:Hx; simpl; eexists; (split; [reflexivity|]).
  - intros i. split.
    + intros s Hs Hf Hg. simpl.
      rewrite lookup_zip_with.
      rewrite (omap_present_lookup (map (option_map f) x) i (f s)),
        (omap_present_lookup (map (option_map g) x) i (g s));
        rewrite ?all_present_map, ?list_lookup_fmap, ?Hs; try done.
      simpl. f_equal. apply wrap64_small. lia.
    + intros Hi. by destruct (all_present_lookup x i).
  - intros i. split.
    + intros s Hs Hf Hg. simpl.
      rewrite lookup_zip_with, !list_lookup_fmap, Hs. simpl.
      f_equal. apply add_of_Z; lia.
    + intros Hi. simpl.
      by rewrite lookup_zip_with, !list_lookup_fmap, Hi.
Qed.

Lemma count_digits_then_length lit s :
  0 <= count_digits_then lit s <= Z.of_nat (String.length s).
Proof.
  induction s as [|c s IH]; simpl String.length; simpl count_digits_then;
    [lia|].
  destruct (Py.is_digit c && String.prefix lit s); lia.
Qed.

Lemma day_name_of_day t : day_name_of t ∈ day_names.
Proof.
  unfold day_name_of.
  pose proof (Z.mod_pos_bound (t / 86400000000000 + 3) 7 ltac:(lia)) as H.
  assert (exists n : nat, Z.to_nat ((t / 86400000000000 + 3) mod 7) = n /\
                          (n < 7)%nat) as (n & -> & Hn).
  { eexists. split; [reflexivity|lia]. }
  do 7 (destruct n as [|n]; [compute_done|]). lia.
Qed.

Lemma hour_of_range t : 0 <= hour_of t < 24.
Proof. unfold hour_of. apply Z.mod_pos_bound. lia. Qed.

Lemma padded_date_and_time (x y : list obj) :
  zip_with (fun s t : obj =>
              match s, t with
              | Some s, Some t => Some (s ++ t)%string
              | _, _ => None
              end)
    (map (option_map (fun t : string => (t ++ " ")%string)) x) y
  = zip_with date_and_time x y.
Proof.
  revert y. induction x as [|[d|] x IH]; intros [|[t|] y]; simpl;
    by rewrite ?IH.
Qed.

Section RowFacts.
Variable strptime : string -> string -> option instant.

Ltac known_columns :=
  repeat match goal with
    | H : get_column ?n ?df = _, H' : context [get_column ?n ?df] |- _ =>
        rewrite H in H'; simpl in H'
    | H : _ && _ = true |- _ => apply andb_prop in H as [? ?]
    end.

Ltac known_ops :=
  repeat match goal with
    | H : _ = Ok _ |- _ =>
        progress cbn [col_add col_add_str str_count dt_hour dt_day_name
                        to_datetime] in H;
        try (injection H as <-)
    | H : _ = Raise _ |- _ =>
        progress cbn [col_add col_add_str str_count dt_hour dt_day_name
                        to_datetime] in H
    end.

Ltac closed_guard :=
  repeat match goal with
    | H : _ && _ = false |- _ => apply andb_false_iff in H as [H|H]
    end;
  match goal with
  | H : has_column ?n ?df = false |- _ =>
      exfalso; eapply has_column_false; [exact H|eassumption]
  end.

Lemma derive_move_count_value df x :
  get_column "AN" df = Some (ColObj x) ->
  wp derive_move_count df
    (fun r df' =>
       r = Ok tt ->
       exists total,
         col_add (int_or_float (map (option_map (count_digits_then ".")) x))
                 (int_or_float (map (option_map (count_digits_then "...")) x))
           = Ok total /\
         get_column "MoveCount" df' = Some total).
Proof.
  intros Hx. unfold derive_move_count.
  wp_run; known_columns; simplify_eq; known_ops; simplify_eq;
    try done; try closed_guard.
  intros _. eexists. split; [eassumption|]. by rewrite !get_set.
Qed.

Lemma derive_datetime_value df x y :
  get_column "UTCDate" df = Some (ColObj x) ->
  get_column "UTCTime" df = Some (ColObj y) ->
  wp (derive_datetime strptime) df
    (fun _ df' =>
       let date_time :=
         map (fun o => o ≫= strptime "%Y.%m.%d %H:%M:%S")
           (zip_with date_and_time x y) in
       let date := map (fun o => o ≫= strptime "%Y.%m.%d") x in
       get_column "DateTime" df' = Some (ColTime date_time) /\
       get_column "Date" df' = Some (ColTime date) /\
       get_column "Hour" df'
         = Some (int_or_float (map (option_map hour_of) date_time)) /\
       get_column "DayOfWeek" df'
         = Some (ColObj (map (option_map day_name_of) date))).
Proof.
  intros Hx Hy. unfold derive_datetime.
  wp_run; known_columns; simplify_eq; known_ops; simplify_eq;
    try closed_guard.
  rewrite !get_set. simpl. by rewrite !padded_date_and_time.
Qed.
End RowFacts.

Section RowProperties.
Variable strptime : string -> string -> option instant.

(** X9.  [MoveCount] of a game is the number of digits followed by a
    full stop in its move text plus the number of those followed by
    three: a move written [12. e4] counts once and one written
    [12... e5] counts twice.  A game without move text has a missing
    count. *)
Theorem move_count_per_row (h : gmap loc DataFrame) l df x :
  h !! l = Some df ->
  schema_ok df = true ->
  get_column "AN" df = Some (ColObj x) ->
  (forall (i : nat) (s : string),
      x !! i = Some (Some s) -> Z.of_nat (String.length s) < 2 ^ 52) ->
  exists l' df' counts,
    preprocess_data strptime l h = (Ok l', <[l' := df']> h) /\
    get_column "MoveCount" df' = Some counts /\
    forall i : nat,
      (forall s, x !! i = Some (Some s) ->
                 holds_int counts i (move_count s)) /\
      (x !! i = Some None -> cell_missing counts i).
Proof.
  intros Hl Hschema Han Hshort.
  destruct (derive_columns_run strptime df Hschema)
    as (df1 & df2 & df3 & df4 & df5 & _ & _ & _ & _ & E5 & Hrun
        & A1 & A2 & A3 & A4 & _).
  assert (get_column "AN" df4 = Some (ColObj x)) as Han4.
  { rewrite (assigns_get _ _ _ _ A4), (assigns_get _ _ _ _ A3),
      (assigns_get _ _ _ _ A2), (assigns_get _ _ _ _ A1); [done|compute_done..]. }
  destruct (wp_run_eq _ _ _ _ _ (derive_move_count_value df4 x Han4) E5
              eq_refl) as (total & Hadd & Hget).
  destruct (count_columns_add (count_digits_then ".")
              (count_digits_then "...") x) as (total' & Hadd' & Hrows).
  rewrite Hadd in Hadd'. injection Hadd' as <-.
  exists (fresh (dom h)), df5, total. split_and!; [|done|].
  - by rewrite (preprocess_data_run strptime h l df Hl), Hrun.
  - intros i. destruct (Hrows i) as [Hpresent Hmissing].
    split; [|done]. intros s Hs. apply Hpresent; [done| |].
    + pose proof (count_digits_then_length "." s). specialize (Hshort i s Hs).
      lia.
    + pose proof (count_digits_then_length "..." s).
      specialize (Hshort i s Hs). lia.
Qed.

(** X10.  The date columns row by row.  [Date] and [DayOfWeek] come from
    [UTCDate] alone and [DateTime] and [Hour] from date and time joined
    by a blank: a game whose time is missing or does not parse has no
    [DateTime] and no [Hour] but keeps its [Date] and [DayOfWeek].  The
    hour is a whole number from 0 to 23 and the day one of the seven
    English names. *)
Theorem datetime_per_row (h : gmap loc DataFrame) l df x y :
  h !! l = Some df ->
  schema_ok df = true ->
  get_column "UTCDate" df = Some (ColObj x) ->
  get_column "UTCTime" df = Some (ColObj y) ->
  exists l' df' date_time date hour day,
    preprocess_data strptime l h = (Ok l', <[l' := df']> h) /\
    get_column "DateTime" df' = Some (ColTime date_time) /\
    get_column "Date" df' = Some (ColTime date) /\
    get_column "Hour" df' = Some hour /\
    get_column "DayOfWeek" df' = Some (ColObj day) /\
    forall (i : nat) (d t : obj),
      x !! i = Some d -> y !! i = Some t ->
      date_time !! i
        = Some (date_and_time d t ≫= strptime "%Y.%m.%d %H:%M:%S") /\
      date !! i = Some (d ≫= strptime "%Y.%m.%d") /\
      day !! i = Some (day_name_of <$> (d ≫= strptime "%Y.%m.%d")) /\
      (forall name, day !! i = Some (Some name) -> name ∈ day_names) /\
      (t = None -> date_time !! i = Some None /\ cell_missing hour i) /\
      (forall stamp,
          date_time !! i = Some (Some stamp) ->
          holds_int hour i (hour_of stamp) /\ 0 <= hour_of stamp < 24) /\
      (date_time !! i = Some None -> cell_missing hour i).
Proof.
  intros Hl Hschema Hx Hy.
  destruct (derive_columns_run strptime df Hschema)
    as (df1 & df2 & df3 & df4 & df5 & E1 & _ & _ & _ & _ & Hrun
        & _ & A2 & A3 & A4 & A5).
  pose proof (wp_run_eq _ _ _ _ _ (derive_datetime_value strptime df x y Hx Hy)
                E1) as Hvalue.
  cbv beta zeta in Hvalue.
  assert (forall name,
             name ∈ ["DateTime"; "Date"; "Hour"; "DayOfWeek"]%string ->
             get_column name df5 = get_column name df1) as Hsame.
  { apply Forall_forall. repeat apply Forall_cons_2; [..|apply Forall_nil_2].
    all: rewrite (assigns_get _ _ _ _ A5), (assigns_get _ _ _ _ A4),
           (assigns_get _ _ _ _ A3), (assigns_get _ _ _ _ A2);
      [done|compute_done..]. }
  destruct Hvalue as (Hdt & Hdate & Hhour & Hday).
  rewrite <- Hsame in Hdt, Hdate, Hhour, Hday by compute_done.
  eexists (fresh (dom h)), df5, _, _, _, _.
  split_and!; [|exact Hdt|exact Hdate|exact Hhour|exact Hday|].
  { by rewrite (preprocess_data_run strptime h l df Hl), Hrun. }
  intros i d t Hd Ht.
  assert (map (fun o : obj => o ≫= strptime "%Y.%m.%d %H:%M:%S")
            (zip_with date_and_time x y) !! i
          = Some (date_and_time d t ≫= strptime "%Y.%m.%d %H:%M:%S"))
    as Hstamp.
  { by rewrite list_lookup_fmap, lookup_zip_with, Hd, Ht. }
  assert (map (option_map day_name_of)
            (map (fun o : obj => o ≫= strptime "%Y.%m.%d") x) !! i
          = Some (day_name_of <$> (d ≫= strptime "%Y.%m.%d"))) as Hname.
  { by rewrite !list_lookup_fmap, Hd. }
  pose proof (int_or_float_lookup
                (map (option_map hour_of)
                   (map (fun o : obj => o ≫= strptime "%Y.%m.%d %H:%M:%S")
                      (zip_with date_and_time x y))) i) as [Hint Hnan].
  rewrite list_lookup_fmap, Hstamp in Hint, Hnan. simpl in Hint, Hnan.
  split_and!.
  - exact Hstamp.
  - by rewrite list_lookup_fmap, Hd.
  - exact Hname.
  - intros name. rewrite Hname. intros [= Heq].
    destruct (d ≫= strptime "%Y.%m.%d") as [stamp|]; [|done].
    injection Heq as <-. apply day_name_of_day.
  - intros ->. rewrite Hstamp.
    assert (date_and_time d None = None) as Hnone by (by destruct d).
    rewrite Hnone in Hnan |- *. split; [done|]. by apply Hnan.
  - intros stamp. rewrite Hstamp. intros [= Heq]. rewrite Heq in Hint.
    split; [by apply Hint|apply hour_of_range].
  - rewrite Hstamp. intros [= Heq]. rewrite Heq in Hnan. by apply Hnan.
Qed.
End RowProperties.

Lemma move_count_per_row_witness :
  timed_table !! 1%positive = Some timed_games /\
  schema_ok timed_games = true /\
  get_column "AN" timed_games
    = Some (ColObj [Some "1. e4 e5 2. Nf3 Nc6"; Some "1. d4 1... d5"]%string) /\
  exists l' df' counts,
    preprocess_data no_calendar 1%positive timed_table
      = (Ok l', <[l' := df']> timed_table) /\
    get_column "MoveCount" df' = Some counts /\
    holds_int counts 0 2 /\ holds_int counts 1 3.
Proof.
  split_and!; [reflexivity..|].
  destruct (move_count_per_row no_calendar timed_table 1%positive timed_games
              [Some "1. e4 e5 2. Nf3 Nc6"; Some "1. d4 1... d5"]%string
              eq_refl eq_refl eq_refl)
    as (l' & df' & counts & Hrun & Hget & Hrows).
  { intros [|[|i]] s Hs; simplify_eq/=; by vm_compute. }
  exists l', df', counts. split_and!; [done|done| |].
  - exact (proj1 (Hrows 0%nat) _ eq_refl).
  - exact (proj1 (Hrows 1%nat) _ eq_refl).
Defined.

Lemma datetime_per_row_witness :
  dated_table !! 1%positive = Some dated_games /\
  schema_ok dated_games = true /\
  get_column "UTCDate" dated_games
    = Some (ColObj [Some "2016.06.30"; Some "2016.07.01"]%string) /\
  get_column "UTCTime" dated_games
    = Some (ColObj [Some "22:00:01"; None]%string) /\
  exists l' df' hour,
    preprocess_data no_calendar 1%positive dated_table
      = (Ok l', <[l' := df']> dated_table) /\
    get_column "Hour" df' = Some hour /\
    cell_missing hour 1.
Proof.
  split_and!; [reflexivity..|].
  destruct (datetime_per_row no_calendar dated_table 1%positive dated_games
              [Some "2016.06.30"; Some "2016.07.01"]%string
              [Some "22:00:01"; None]%string
              eq_refl eq_refl eq_refl eq_refl)
    as (l' & df' & date_time & date & hour & day & Hrun & _ & _ & Hhour & _
        & Hrows).
  exists l', df', hour. split_and!; [done|done|].
  exact (proj2 (proj1 (proj2 (proj2 (proj2 (proj2
           (Hrows 1%nat _ _ eq_refl eq_refl))))) eq_refl)).
Defined.

(** ** The loader *)

Lemma take_rows_all {Row} (rows : list Row) :
  take_rows (seq 0 (length rows)) rows = rows.
Proof.
  unfold take_rows.
  assert (forall (pre : list Row),
             omap (fun i => (pre ++ rows) !! i) (seq (length pre) (length rows))
             = rows) as H.
  { induction rows as [|r rows IH]; intros pre; [done|].
    cbn [length seq omap list_omap].
    rewrite list_lookup_middle by done. f_equal.
    specialize (IH (pre ++ [r])).
    rewrite length_app, Nat.add_1_r, <- app_assoc in IH. exact IH. }
  exact (H []).
Qed.

Lemma positions_all (positions : list nat) (n : nat) :
  NoDup positions ->
  Forall (fun i => (i < n)%nat) positions ->
  length positions = n ->
  positions ≡ₚ seq 0 n.
Proof.
  intros Hnodup Hlt Hlen.
  apply submseteq_length_Permutation.
  - apply NoDup_submseteq; [done|].
    intros i Hi. apply elem_of_seq.
    rewrite Forall_forall in Hlt. specialize (Hlt i Hi). lia.
  - rewrite length_seq. lia.
Qed.

(** The loop of the loader in closed form: the first
    [ceil (sample_size / chunk_size)] chunks. *)
Lemma accumulate_take {Row} (chunk_size sample_size : Z)
    (iterator chunks : list (list Row)) :
  0 < chunk_size ->
  Z.of_nat (length chunks) * chunk_size < sample_size ->
  accumulate chunk_size sample_size iterator chunks
  = chunks
    ++ take (Z.to_nat ((sample_size + chunk_size - 1) / chunk_size)
             - length chunks) iterator.
Proof.
  intros Hsize. revert chunks.
  induction iterator as [|chunk iterator IH]; intros chunks Hlt.
  { by rewrite take_nil, app_nil_r. }
  set (k := (sample_size + chunk_size - 1) / chunk_size).
  assert (k * chunk_size < sample_size + chunk_size /\
          sample_size <= k * chunk_size) as [Hk1 Hk2].
  { unfold k.
    pose proof (Z.div_mod (sample_size + chunk_size - 1) chunk_size
                  ltac:(lia)).
    pose proof (Z.mod_pos_bound (sample_size + chunk_size - 1) chunk_size
                  ltac:(lia)).
    nia. }
  cbn [accumulate]. rewrite length_app. cbn [length].
  destruct (Z.geb_spec (Z.of_nat (length chunks + 1) * chunk_size)
              sample_size) as [Hstop|Hgo].
  - assert (Z.to_nat k - length chunks = 1)%nat as -> by nia.
    done.
  - rewrite IH by (rewrite length_app; simpl; lia).
    rewrite length_app. cbn [length]. fold k.
    assert (Z.to_nat k - length chunks
            = S (Z.to_nat k - (length chunks + 1)))%nat as -> by nia.
    by rewrite <- app_assoc.
Qed.

Section LoaderProperties.
Context {Row : Type}.
Variable choice : Z -> nat -> nat -> list nat.
Variable advance : Z -> Z.

(** X11.  Without the file the loader raises [FileNotFoundError],
    whatever the sample size, and changes nothing. *)
Theorem load_chess_data_missing_file filepath sample_size (w : world Row) :
  files w !! filepath = None ->
  load_chess_data choice advance filepath sample_size w
    = (Raise FileNotFoundError, w).
Proof.
  intros Hfile.
  unfold load_chess_data, read_csv_chunks, read_csv.
  unfold mbind, mret, M_bind, M_ret.
  destruct (truthy sample_size); simpl; by rewrite Hfile.
Qed.

(** X12.  A negative sample size is not taken as "no sample": it is
    truthy, the loop reads one chunk, and sampling a negative number of
    rows raises [ValueError]. *)
Theorem load_chess_data_negative filepath sample_size (w : world Row) rows :
  files w !! filepath = Some rows ->
  sample_size < 0 ->
  accumulate 100000 sample_size (chunks_of (Z.to_nat 100000) rows) []
    = take 1 (chunks_of (Z.to_nat 100000) rows) /\
  load_chess_data choice advance filepath (Some sample_size) w
    = (Raise ValueError, w).
Proof.
  intros Hfile Hneg.
  pose proof (chunks_of_nonempty (Z.to_nat 100000) rows) as Hne.
  assert (accumulate 100000 sample_size (chunks_of (Z.to_nat 100000) rows) []
          = take 1 (chunks_of (Z.to_nat 100000) rows)) as Hacc.
  { destruct (chunks_of (Z.to_nat 100000) rows) as [|chunk iterator];
      [done|].
    cbn [accumulate app length].
    destruct (Z.geb_spec (Z.of_nat 1 * 100000) sample_size); [done|lia]. }
  split; [done|].
  unfold load_chess_data, read_csv_chunks, sample, lift.
  unfold mbind, mret, M_bind, M_ret.
  assert (truthy (Some sample_size) = true) as ->.
  { simpl. apply negb_true_iff, Z.eqb_neq. lia. }
  cbn [int_of]. change (100000 <? 1) with false. cbv iota.
  rewrite Hfile. cbv beta iota. rewrite Hacc.
  destruct (chunks_of (Z.to_nat 100000) rows) as [|chunk iterator];
    [done|].
  cbn [take pd_concat fst snd].
  match goal with
  | |- context [Z.min ?a ?b <? 0] =>
      destruct (Z.ltb_spec (Z.min a b) 0); [done|lia]
  end.
Qed.

(** X13.  The rows the loader samples from are the first
    [ceil (sample_size / 100000) * 100000] rows of the file: a row
    beyond them is never returned, however large the file is. *)
Theorem load_chess_data_sampled_prefix filepath sample_size
    (w : world Row) rows :
  files w !! filepath = Some rows ->
  0 < sample_size ->
  let read := take (Z.to_nat ((sample_size + 99999) / 100000 * 100000)) rows in
  concat (accumulate 100000 sample_size (chunks_of (Z.to_nat 100000) rows) [])
    = read /\
  exists positions,
    load_chess_data choice advance filepath (Some sample_size) w
      = (Ok (take_rows positions read), w) /\
    forall row, row ∈ take_rows positions read -> row ∈ read.
Proof.
  intros Hfile Hpos read.
  assert (concat (accumulate 100000 sample_size
                    (chunks_of (Z.to_nat 100000) rows) []) = read) as Hread.
  { rewrite accumulate_take by (simpl; lia).
    rewrite app_nil_l. cbn [length]. rewrite Nat.sub_0_r.
    rewrite chunks_of_take by lia. unfold read. f_equal.
    replace (sample_size + 100000 - 1) with (sample_size + 99999) by lia.
    pose proof (Z.div_pos (sample_size + 99999) 100000 ltac:(lia) ltac:(lia)).
    lia. }
  split; [done|].
  unfold load_chess_data, read_csv_chunks, sample, lift.
  unfold mbind, mret, M_bind, M_ret.
  assert (truthy (Some sample_size) = true) as ->.
  { simpl. apply negb_true_iff, Z.eqb_neq. lia. }
  cbn [int_of]. change (100000 <? 1) with false. cbv iota.
  rewrite Hfile. cbv beta iota.
  pose proof (chunks_of_nonempty (Z.to_nat 100000) rows) as Hne.
  destruct (accumulate 100000 sample_size
              (chunks_of (Z.to_nat 100000) rows) []) as [|c cs] eqn:Hacc.
  { exfalso. revert Hacc. rewrite accumulate_take by (simpl; lia).
    rewrite app_nil_l. cbn [length]. rewrite Nat.sub_0_r.
    destruct (chunks_of (Z.to_nat 100000) rows) as [|chunk iterator];
      [done|].
    assert (exists k, Z.to_nat ((sample_size + 100000 - 1) / 100000) = S k)
      as (k & ->); [|done].
    exists (Z.to_nat ((sample_size + 100000 - 1) / 100000) - 1)%nat.
    assert (1 <= (sample_size + 100000 - 1) / 100000); [|lia].
    apply Z.div_le_lower_bound; lia. }
  cbn [pd_concat fst snd]. rewrite Hread.
  destruct (Z.ltb_spec (Z.min sample_size (Z.of_nat (length read))) 0);
    [lia|].
  destruct (Z.ltb_spec (Z.of_nat (length read))
              (Z.min sample_size (Z.of_nat (length read)))); [lia|].
  cbn [orb].
  eexists. split; [reflexivity|].
  intros row. unfold take_rows. rewrite list_elem_of_omap.
  intros (i & _ & Hi). by apply list_elem_of_lookup_2 in Hi.
Qed.

(** X14.  With a sample size of at least the number of rows of the
    file, the loader returns every row of the file once, in the order
    drawn: the file, shuffled. *)
Theorem load_chess_data_whole_file filepath sample_size
    (w : world Row) rows :
  draws_without_replacement choice ->
  files w !! filepath = Some rows ->
  0 < sample_size ->
  Z.of_nat (length rows) <= sample_size ->
  exists df,
    load_chess_data choice advance filepath (Some sample_size) w
      = (Ok df, w) /\
    df ≡ₚ rows.
Proof.
  intros Hchoice Hfile Hpos Hall.
  assert (concat (accumulate 100000 sample_size
                    (chunks_of (Z.to_nat 100000) rows) []) = rows) as Hread.
  { rewrite accumulate_take by (simpl; lia).
    rewrite app_nil_l. cbn [length]. rewrite Nat.sub_0_r.
    rewrite chunks_of_take by lia. apply take_ge.
    assert (sample_size <= (sample_size + 100000 - 1) / 100000 * 100000).
    { pose proof (Z.div_mod (sample_size + 100000 - 1) 100000 ltac:(lia)).
      pose proof (Z.mod_pos_bound (sample_size + 100000 - 1) 100000
                    ltac:(lia)).
      lia. }
    nia. }
  unfold load_chess_data, read_csv_chunks, sample, lift.
  unfold mbind, mret, M_bind, M_ret.
  assert (truthy (Some sample_size) = true) as ->.
  { simpl. apply negb_true_iff, Z.eqb_neq. lia. }
  cbn [int_of]. change (100000 <? 1) with false. cbv iota.
  rewrite Hfile. cbv beta iota.
  destruct (accumulate 100000 sample_size
              (chunks_of (Z.to_nat 100000) rows) []) as [|c cs] eqn:Hacc.
  { exfalso. simpl in Hread. subst rows.
    pose proof (chunks_of_nonempty (Row := Row) (Z.to_nat 100000) []) as Hne.
    revert Hacc. rewrite accumulate_take by (simpl; lia).
    rewrite app_nil_l. cbn [length]. rewrite Nat.sub_0_r.
    destruct (chunks_of (Z.to_nat 100000) []) as [|chunk iterator];
      [done|].
    assert (exists k, Z.to_nat ((sample_size + 100000 - 1) / 100000) = S k)
      as (k & ->); [|done].
    exists (Z.to_nat ((sample_size + 100000 - 1) / 100000) - 1)%nat.
    assert (1 <= (sample_size + 100000 - 1) / 100000); [|lia].
    apply Z.div_le_lower_bound; lia. }
  cbn [pd_concat fst snd]. rewrite Hread.
  rewrite Z.min_r by lia. rewrite Nat2Z.id.
  destruct (Z.ltb_spec (Z.of_nat (length rows)) 0); [lia|].
  rewrite Z.ltb_irrefl. cbn [orb].
  eexists. split; [reflexivity|].
  destruct (Hchoice 42 (length rows) (length rows)) as (Hlen & Hnodup & Hlt);
    [lia|].
  assert (take_rows (choice 42 (length rows) (length rows)) rows
          ≡ₚ take_rows (seq 0 (length rows)) rows) as Hperm.
  { unfold take_rows. by apply omap_Permutation, positions_all. }
  by rewrite take_rows_all in Hperm.
Qed.
End LoaderProperties.

Lemma load_chess_data_missing_file_witness :
  files three_games !! "games.csv"%string = None /\
  load_chess_data first_positions (fun s => s) "games.csv" (Some 2)
    three_games
  = (Raise FileNotFoundError, three_games).
Proof.
  split; [reflexivity|].
  apply (load_chess_data_missing_file first_positions (fun s => s)).
  reflexivity.
Defined.

Lemma load_chess_data_negative_witness :
  files three_games !! "chess_games.csv"%string = Some [10; 20; 30]%nat /\
  -1 < 0 /\
  load_chess_data first_positions (fun s => s) "chess_games.csv" (Some (-1))
    three_games
  = (Raise ValueError, three_games).
Proof.
  split_and!; [reflexivity|lia|].
  apply (load_chess_data_negative first_positions (fun s => s)
           "chess_games.csv" (-1) three_games [10; 20; 30]%nat);
    [reflexivity|lia].
Defined.

Lemma load_chess_data_sampled_prefix_witness :
  files three_games !! "chess_games.csv"%string = Some [10; 20; 30]%nat /\
  0 < 2 /\
  concat (accumulate 100000 2 (chunks_of (Z.to_nat 100000) [10; 20; 30]%nat) [])
    = take (Z.to_nat ((2 + 99999) / 100000 * 100000)) [10; 20; 30]%nat.
Proof.
  split_and!; [reflexivity|lia|].
  apply (load_chess_data_sampled_prefix first_positions (fun s => s)
           "chess_games.csv" 2 three_games [10; 20; 30]%nat);
    [reflexivity|lia].
Defined.

Lemma load_chess_data_whole_file_witness :
  draws_without_replacement first_positions /\
  files three_games !! "chess_games.csv"%string = Some [10; 20; 30]%nat /\
  0 < 5 /\
  Z.of_nat (length [10; 20; 30]%nat) <= 5 /\
  exists df,
    load_chess_data first_positions (fun s => s) "chess_games.csv" (Some 5)
      three_games
    = (Ok df, three_games) /\
    df ≡ₚ [10; 20; 30]%nat.
Proof.
  split_and!; [exact first_positions_draws|reflexivity|lia|simpl; lia|].
  apply (load_chess_data_whole_file first_positions (fun s => s)
           "chess_games.csv" 5 three_games [10; 20; 30]%nat);
    [exact first_positions_draws|reflexivity|lia|simpl; lia].
Defined.

(** ** The dashboard *)

Lemma mask_sum_cons b (l : list bool) :
  mask_sum (b :: l) = (if b then 1 else 0) + mask_sum l.
Proof. unfold mask_sum. destruct b; simpl; lia. Qed.

Lemma mask_sum_bounds (l : list bool) :
  0 <= mask_sum l <= Z.of_nat (length l).
Proof.
  induction l as [|b l IH]; [done|].
  rewrite mask_sum_cons. simpl length. destruct b; lia.
Qed.

Lemma mask_sum_all {A} (f : A -> bool) (l : list A) :
  forallb f l = true -> mask_sum (map f l) = Z.of_nat (length l).
Proof.
  induction l as [|a l IH]; [done|].
  cbn [forallb map]. intros [Ha Hl]%andb_prop.
  rewrite mask_sum_cons, Ha, IH by done. simpl length. lia.
Qed.

Lemma mask_sum_some_false (l : list bool) i :
  l !! i = Some false -> mask_sum l < Z.of_nat (length l).
Proof.
  revert i. induction l as [|b l IH]; intros [|i]; simpl; try done.
  - intros [= ->]. rewrite mask_sum_cons.
    pose proof (mask_sum_bounds l). lia.
  - intros Hi. rewrite mask_sum_cons. specialize (IH i Hi).
    destruct b; lia.
Qed.

(** The three results the metrics count exclude each other. *)
Lemma results_counted (x : list obj) :
  mask_sum (col_eq_str (ColObj x) "1-0")
  + mask_sum (col_eq_str (ColObj x) "0-1")
  + mask_sum (col_eq_str (ColObj x) "1/2-1/2")
  = mask_sum (map decided x).
Proof.
  induction x as [|o x IH]; [done|].
  cbn [col_eq_str map] in *. rewrite !mask_sum_cons, <- IH.
  destruct o as [s|]; cbn [decided]; [|lia].
  destruct (String.eqb_spec s "1-0") as [->|]; [simpl; lia|].
  destruct (String.eqb_spec s "0-1") as [->|]; [simpl; lia|].
  destruct (String.eqb_spec s "1/2-1/2") as [->|]; simpl; lia.
Qed.

(** X15.  The key metrics: White Wins, Black Wins and Draws add up to
    the number of games whose result is one of ["1-0"], ["0-1"] and
    ["1/2-1/2"].  That is at most Total Games, and less as soon as one
    game has another result or none: the three percentages then do not
    add up to 100. *)
Theorem key_metrics_counts (df : DataFrame) (x : list obj) :
  get_column "Result" df = Some (ColObj x) ->
  length x = nrows df ->
  exists white_wins black_wins draws : Z,
    key_metrics df
      = (Ok (Z.of_nat (nrows df), white_wins, black_wins, draws), df) /\
    0 <= white_wins /\ 0 <= black_wins /\ 0 <= draws /\
    white_wins + black_wins + draws = mask_sum (map decided x) /\
    white_wins + black_wins + draws <= Z.of_nat (nrows df) /\
    (forallb decided x = true ->
     white_wins + black_wins + draws = Z.of_nat (nrows df)) /\
    (forall (i : nat) (o : obj),
        x !! i = Some o -> decided o = false ->
        white_wins + black_wins + draws < Z.of_nat (nrows df)).
Proof.
  intros Hres Hlen.
  eexists _, _, _. split_and!.
  - unfold key_metrics, Frame.getitem. unfold mbind, mret, M_bind, M_ret.
    repeat (rewrite Hres; cbv beta iota zeta). reflexivity.
  - apply mask_sum_bounds.
  - apply mask_sum_bounds.
  - apply mask_sum_bounds.
  - apply results_counted.
  - rewrite results_counted, <- Hlen.
    pose proof (mask_sum_bounds (map decided x)) as H.
    rewrite length_map in H. lia.
  - intros Hall. rewrite results_counted, <- Hlen.
    by rewrite mask_sum_all.
  - intros i o Hi Ho. rewrite results_counted, <- Hlen.
    rewrite <- (length_map decided).
    apply (mask_sum_some_false _ i).
    by rewrite list_lookup_fmap, Hi, <- Ho.
Qed.

Lemma key_metrics_counts_witness :
  get_column "Result" shown_games
    = Some (ColObj [Some "1/2-1/2"; Some "1-0"; Some "*"; Some "0-1"]%string) /\
  length [Some "1/2-1/2"; Some "1-0"; Some "*"; Some "0-1"]%string
    = nrows shown_games /\
  exists white_wins black_wins draws : Z,
    key_metrics shown_games
      = (Ok (4, white_wins, black_wins, draws), shown_games) /\
    white_wins + black_wins + draws < 4.
Proof.
  split_and!; [reflexivity..|].
  destruct (key_metrics_counts shown_games
              [Some "1/2-1/2"; Some "1-0"; Some "*"; Some "0-1"]%string
              eq_refl eq_refl)
    as (w & b & d & Hrun & _ & _ & _ & _ & _ & _ & Hless).
  exists w, b, d. split; [exact Hrun|].
  exact (Hless 2%nat (Some "*"%string) eq_refl eq_refl).
Defined.

(** The label of a rating difference, for every difference. *)
Lemma cut_elo_diff (d : Z) :
  cut_label ["0-50"; "50-100"; "100-200"; "200-500"; "500+"]%string 6
    (searchsorted_left (fun b => b <? d) [0; 50; 100; 200; 500; 1000])
  = elo_diff_bin d.
Proof.
  unfold elo_diff_bin. cbn [searchsorted_left].
  repeat match goal with
         | |- context [?a <? ?b] => destruct (Z.ltb_spec a b)
         end;
    repeat match goal with
           | |- context [?a <=? ?b] => destruct (Z.leb_spec a b)
           end;
    try lia; reflexivity.
Qed.

(** X16.  The rating-difference bins of the ELO tab, for integer
    ratings: a game falls in the bin whose label reads its difference,
    each bin including its upper edge; a game between equally rated
    players falls in no bin, and so does a game with a difference above
    1000, although the last label reads ["500+"]. *)
Theorem elo_diff_bins_rows (df : DataFrame) (white black : list Z) :
  get_column "WhiteElo" df = Some (ColInt white) ->
  get_column "BlackElo" df = Some (ColInt black) ->
  exists labels df',
    elo_diff_bins df = (Ok labels, df') /\
    forall (i : nat) (w b : Z),
      white !! i = Some w -> black !! i = Some b ->
      Z.abs w < 2 ^ 62 -> Z.abs b < 2 ^ 62 ->
      labels !! i = Some (elo_diff_bin (Z.abs (w - b))) /\
      (w = b -> labels !! i = Some None) /\
      (1000 < Z.abs (w - b) -> labels !! i = Some None) /\
      (500 < Z.abs (w - b) <= 1000 -> labels !! i = Some (Some "500+"%string)).
Proof.
  intros Hw Hb.
  unfold elo_diff_bins, Frame.getitem, Frame.setitem, lift.
  unfold mbind, mret, M_bind, M_ret.
  rewrite Hw, Hb. cbn [col_sub col_abs fst snd]. rewrite get_set.
  cbn [String.eqb Ascii.eqb Bool.eqb cut]. simpl negb. cbv iota.
  eexists _, _. split; [reflexivity|].
  intros i w b Hwi Hbi Hwsmall Hbsmall.
  assert (2 ^ 63 = 2 * 2 ^ 62) as Hpow by done.
  assert (map (fun z : Z =>
                 cut_label ["0-50"; "50-100"; "100-200"; "200-500"; "500+"]%string
                   (length [0; 50; 100; 200; 500; 1000])
                   (searchsorted_left (fun b0 : Z => b0 <? z)
                      [0; 50; 100; 200; 500; 1000]))
            (map (fun z : Z => wrap64 (Z.abs z))
               (zip_with (fun m n : Z => wrap64 (m - n)) white black)) !! i
          = Some (elo_diff_bin (Z.abs (w - b)))) as Hlabel.
  { rewrite !list_lookup_fmap, lookup_zip_with, Hwi, Hbi. simpl.
    rewrite (wrap64_small (w - b)) by lia.
    rewrite (wrap64_small (Z.abs (w - b))) by lia.
    f_equal. apply cut_elo_diff. }
  split_and!; [exact Hlabel| | |].
  - intros ->. rewrite Hlabel, Z.sub_diag. reflexivity.
  - intros Hfar. rewrite Hlabel. unfold elo_diff_bin.
    repeat match goal with
           | |- context [?a <=? ?b] => destruct (Z.leb_spec a b)
           end; try lia; reflexivity.
  - intros Hlast. rewrite Hlabel. unfold elo_diff_bin.
    repeat match goal with
           | |- context [?a <=? ?b] => destruct (Z.leb_spec a b)
           end; try lia; reflexivity.
Qed.

Lemma elo_diff_bins_rows_witness :
  get_column "WhiteElo" shown_games = Some (ColInt [1500; 1720; 1400; 2600]) /\
  get_column "BlackElo" shown_games = Some (ColInt [1520; 1690; 1400; 1500]) /\
  exists labels df',
    elo_diff_bins shown_games = (Ok labels, df') /\
    labels !! 2%nat = Some None /\ labels !! 3%nat = Some None.
Proof.
  split_and!; [reflexivity..|].
  destruct (elo_diff_bins_rows shown_games [1500; 1720; 1400; 2600]
              [1520; 1690; 1400; 1500] eq_refl eq_refl)
    as (labels & df' & Hrun & Hrows).
  exists labels, df'. split_and!; [exact Hrun| |].
  - destruct (Hrows 2%nat 1400 1400 eq_refl eq_refl) as (_ & Hsame & _);
      [by vm_compute..|].
    exact (Hsame eq_refl).
  - destruct (Hrows 3%nat 2600 1500 eq_refl eq_refl) as (_ & _ & Hfar & _);
      [by vm_compute..|].
    apply Hfar. by vm_compute.
Defined.

Lemma opening_label_of c :
  dict_get categories (Py.upper_char c) "Other"%string ∈ opening_labels.
Proof.
  unfold dict_get, categories, opening_labels.
  repeat case_match; compute_done.
Qed.

Lemma cells_apply_opening (x : list obj) :
  (Some ""%string ∈ x ->
   cells_apply get_opening_category x = Raise IndexError) /\
  (Some ""%string ∉ x ->
   exists labels,
     cells_apply get_opening_category x = Ok labels /\
     length labels = length x /\
     forall (i : nat) (o : obj),
       x !! i = Some o ->
       exists label,
         labels !! i = Some (Some label) /\
         get_opening_category o = Ok label /\
         (o = None -> label = "Unknown"%string) /\
         (o <> None -> label ∈ opening_labels)).
Proof.
  induction x as [|o x [IHraise IHok]].
  { split; [by intros ?%elem_of_nil|]. intros _. exists []. by split_and!. }
  split.
  - intros Hin. cbn [cells_apply].
    destruct o as [[|c s]|].
    + reflexivity.
    + rewrite get_opening_category_nonempty.
      apply elem_of_cons in Hin as [[=]|Hin].
      unfold mbind, result_bind. cbn [rbind]. by rewrite (IHraise Hin).
    + apply elem_of_cons in Hin as [[=]|Hin].
      rewrite get_opening_category_missing.
      unfold mbind, result_bind. cbn [rbind]. by rewrite (IHraise Hin).
  - intros Hnot. apply not_elem_of_cons in Hnot as [Ho Hx].
    destruct (IHok Hx) as (labels & Hrun & Hlen & Hrows).
    destruct (get_opening_category o) as [label|e] eqn:Hlabel.
    2:{ destruct o as [[|c s]|]; [done| |];
          [by rewrite get_opening_category_nonempty in Hlabel
          |by rewrite get_opening_category_missing in Hlabel]. }
    exists (Some label :: labels). split_and!.
    + cbn [cells_apply]. rewrite Hlabel, Hrun. reflexivity.
    + simpl. by rewrite Hlen.
    + intros [|i] o' Hi; [|by apply Hrows].
      injection Hi as <-. exists label. split_and!; [done|done| |].
      * intros ->. rewrite get_opening_category_missing in Hlabel.
        by injection Hlabel as <-.
      * intros Hsome. destruct o as [[|c s]|]; [done| |done].
        rewrite get_opening_category_nonempty in Hlabel.
        injection Hlabel as <-. apply opening_label_of.
Qed.

(** X17.  The opening categories of the Openings tab.  Over a column of
    codes the assignment succeeds exactly when no code is the empty
    string: then every game gets a category, ["Unknown"] where the code
    is missing and one of the five families or ["Other"] otherwise.  A
    single empty code raises [IndexError] and no column is assigned. *)
Theorem opening_categories_column (df : DataFrame) (x : list obj) :
  get_column "ECO" df = Some (ColObj x) ->
  (Some ""%string ∈ x -> opening_categories df = (Raise IndexError, df)) /\
  (Some ""%string ∉ x ->
   exists labels,
     opening_categories df
       = (Ok tt, set_column "OpeningCategory" (ColObj labels) df) /\
     length labels = length x /\
     forall (i : nat) (o : obj),
       x !! i = Some o ->
       exists label,
         labels !! i = Some (Some label) /\
         get_opening_category o = Ok label /\
         (o = None -> label = "Unknown"%string) /\
         (o <> None -> label ∈ opening_labels)).
Proof.
  intros Heco.
  destruct (cells_apply_opening x) as [Hraise Hok].
  unfold opening_categories, Frame.getitem, Frame.setitem, lift.
  unfold mbind, M_bind. rewrite Heco. cbn [col_apply_opening].
  unfold mbind, mret, result_bind, result_ret.
  split.
  - intros Hin. by rewrite (Hraise Hin).
  - intros Hnot. destruct (Hok Hnot) as (labels & Hrun & Hlen & Hrows).
    exists labels. rewrite Hrun. by split_and!.
Qed.

Lemma opening_categories_column_witness :
  get_column "ECO" shown_games
    = Some (ColObj [Some "C50"; Some "b12"; None; Some "X99"]%string) /\
  exists labels,
    opening_categories shown_games
      = (Ok tt, set_column "OpeningCategory" (ColObj labels) shown_games) /\
    length labels = 4%nat.
Proof.
  split; [reflexivity|].
  destruct (opening_categories_column shown_games
              [Some "C50"; Some "b12"; None; Some "X99"]%string eq_refl)
    as [_ Hok].
  destruct Hok as (labels & Hrun & Hlen & _); [compute_done|].
  exists labels. auto.
Defined.

(** *** The filters *)

Lemma select_nil_r {A} (mask : list bool) : select mask (@nil A) = [].
Proof. by destruct mask. Qed.

Lemma select_select {A} (m1 m2 : list bool) (l : list A) :
  select (select m1 m2) (select m1 l) = select (mask_and m1 m2) l.
Proof.
  revert m2 l. induction m1 as [|b m1 IH]; intros m2 l; [done|].
  destruct m2 as [|c m2], l as [|a l];
    rewrite ?select_nil_r; try done.
  unfold mask_and. cbn [select zip_with]. fold (mask_and m1 m2).
  destruct b; cbn [select andb]; [|apply IH].
  destruct c; by rewrite IH.
Qed.

Lemma select_map {A B} (f : A -> B) (mask : list bool) (l : list A) :
  select mask (map f l) = map f (select mask l).
Proof.
  revert l. induction mask as [|b mask IH]; intros [|a l]; try done.
  simpl. destruct b; simpl; by rewrite IH.
Qed.

Lemma select_mask_and (mask m1 m2 : list bool) :
  select mask (mask_and m1 m2)
  = mask_and (select mask m1) (select mask m2).
Proof.
  revert m1 m2. induction mask as [|b mask IH]; intros m1 m2; [done|].
  destruct m1 as [|c1 m1]; [done|].
  destruct m2 as [|c2 m2].
  { unfold mask_and. cbn [zip_with select].
    destruct b; by rewrite ?zip_with_nil_r. }
  unfold mask_and. cbn [select zip_with]. fold (mask_and m1 m2).
  destruct b; cbn [zip_with]; rewrite IH; done.
Qed.

Lemma length_select {A B} (mask : list bool) (l : list A) (l' : list B) :
  (length mask <= length l)%nat -> (length mask <= length l')%nat ->
  length (select mask l) = length (select mask l').
Proof.
  revert l l'. induction mask as [|b mask IH]; intros [|a l] [|a' l'];
    simpl; try done; try lia.
  intros H H'. destruct b; simpl; rewrite (IH l l'); lia.
Qed.

Lemma select_lookup_all {A} (mask : list bool) (l : list A) (P : A -> Prop) :
  (forall i a, mask !! i = Some true -> l !! i = Some a -> P a) ->
  Forall P (select mask l).
Proof.
  revert l. induction mask as [|b mask IH]; intros [|a l] H;
    simpl; try done.
  destruct b.
  - constructor; [exact (H 0%nat a eq_refl eq_refl)|].
    apply IH. intros i a'. apply (H (S i)).
  - apply IH. intros i a'. apply (H (S i)).
Qed.

Lemma col_select_select (m1 m2 : list bool) (c : column) :
  col_select (select m1 m2) (col_select m1 c)
  = col_select (mask_and m1 m2) c.
Proof. destruct c; simpl; by rewrite select_select. Qed.

Lemma length_mask_and (m1 m2 : list bool) :
  length m1 = length m2 -> length (mask_and m1 m2) = length m1.
Proof. intros H. unfold mask_and. rewrite length_zip_with. lia. Qed.

Lemma filter_rows_compose (m1 m2 : list bool) (df : DataFrame) :
  length m1 = length m2 ->
  filter_rows (select m1 m2) (filter_rows m1 df)
  = filter_rows (mask_and m1 m2) df.
Proof.
  intros Hlen. unfold filter_rows. cbn [nrows cols]. f_equal.
  - rewrite select_select.
    apply length_select; rewrite length_mask_and; lia.
  - rewrite map_map. apply map_ext. intros [k c]. simpl.
    by rewrite col_select_select.
Qed.

Lemma get_filter_rows name (mask : list bool) (df : DataFrame) :
  get_column name (filter_rows mask df)
  = col_select mask <$> get_column name df.
Proof.
  unfold get_column, filter_rows. cbn [cols].
  induction (cols df) as [|[k c] l IH]; simpl; [done|].
  by destruct (String.eqb k name).
Qed.

Lemma leb_nan_l (x : spec_float) : SFleb Float64.nan x = false.
Proof. done. Qed.

(** X18.  The filters of the sidebar amount to one test per game: a game
    is kept when its time-control label is the selected one (every game
    under ["All"]) and its average rating lies in the range, both ends
    included.  Kept games keep their order, and a game without an
    average rating is dropped under every selection and every range. *)
Theorem apply_filters_rows (selected : string) (lo hi : Z)
    (df : DataFrame) (grouped : list obj) (avg : list spec_float) :
  well_formed df = true ->
  get_column "TimeControl_Grouped" df = Some (ColObj grouped) ->
  get_column "AvgElo" df = Some (ColFloat avg) ->
  exists mask : list bool,
    apply_filters selected (lo, hi) df = (Ok tt, filter_rows mask df) /\
    length mask = nrows df /\
    (forall i : nat,
        mask !! i = Some true <->
        (selected = "All"%string \/ grouped !! i = Some (Some selected)) /\
        exists v, avg !! i = Some v /\
                  SFleb (Float64.of_Z lo) v = true /\
                  SFleb v (Float64.of_Z hi) = true) /\
    (forall i : nat, avg !! i = Some Float64.nan -> mask !! i = Some false) /\
    get_column "AvgElo" (filter_rows mask df)
      = Some (ColFloat (select mask avg)) /\
    Forall (fun v => SFleb (Float64.of_Z lo) v = true /\
                     SFleb v (Float64.of_Z hi) = true) (select mask avg).
Proof.
  intros Hwf Hgrouped Havg.
  pose proof (well_formed_get _ _ _ Hwf Hgrouped) as Hlen_grouped.
  pose proof (well_formed_get _ _ _ Hwf Havg) as Hlen_avg.
  simpl in Hlen_grouped, Hlen_avg.
  set (in_range := mask_and (map (fun v => SFleb (Float64.of_Z lo) v) avg)
                     (map (fun v => SFleb v (Float64.of_Z hi)) avg)).
  assert (length in_range = nrows df) as Hlen_range.
  { unfold in_range. rewrite length_mask_and; rewrite !length_map; done. }
  assert (forall i : nat,
             in_range !! i = Some true <->
             exists v, avg !! i = Some v /\
                       SFleb (Float64.of_Z lo) v = true /\
                       SFleb v (Float64.of_Z hi) = true) as Hrange.
  { intros i. unfold in_range, mask_and.
    rewrite lookup_zip_with, !list_lookup_fmap.
    destruct (avg !! i) as [v|]; simpl.
    - split.
      + intros [= [H1 H2]%andb_prop]. eauto.
      + intros (v' & [= <-] & H1 & H2). by rewrite H1, H2.
    - split; [done|]. by intros (v' & [=] & _). }
  assert (forall i : nat,
             avg !! i = Some Float64.nan -> in_range !! i = Some false)
    as Hnan.
  { intros i Hi. unfold in_range, mask_and.
    rewrite lookup_zip_with, !list_lookup_fmap, Hi. simpl.
    by rewrite andb_false_r. }
  unfold apply_filters.
  destruct (String.eqb_spec selected "All") as [->|Hsel].
  - exists in_range. split_and!.
    + cbn [negb]. unfold Frame.getitem, rebind_filtered, lift.
      unfold mbind, mret, M_bind, M_ret.
      repeat (rewrite Havg; cbv beta iota zeta).
      cbn [col_ge_int col_le_int fst snd]. by fold in_range.
    + done.
    + intros i. rewrite Hrange. split; [intros H; by split; [left|]|].
      by intros [_ H].
    + done.
    + by rewrite get_filter_rows, Havg.
    + apply select_lookup_all. intros i v Hi Hv.
      apply Hrange in Hi as (v' & Hv' & H1 & H2). by simplify_eq.
  - set (labelled := col_eq_str (ColObj grouped) selected).
    assert (length labelled = nrows df) as Hlen_labelled.
    { unfold labelled. simpl. by rewrite length_map. }
    assert (forall i : nat,
               labelled !! i = Some true <->
               grouped !! i = Some (Some selected)) as Hlabelled.
    { intros i. unfold labelled. simpl. rewrite list_lookup_fmap.
      destruct (grouped !! i) as [[t|]|]; simpl; [|done..].
      destruct (String.eqb_spec t selected) as [->|Hne]; [done|].
      split; [done|]. intros [= ->]. done. }
    exists (mask_and labelled in_range).
    assert (forall i : nat,
               mask_and labelled in_range !! i = Some true <->
               labelled !! i = Some true /\ in_range !! i = Some true)
      as Hboth.
    { intros i. unfold mask_and at 1. rewrite lookup_zip_with.
      destruct (labelled !! i) as [[]|], (in_range !! i) as [[]|];
        simpl; intuition congruence. }
    split_and!.
    + cbn [negb]. unfold Frame.getitem, rebind_filtered, lift.
      unfold mbind, mret, M_bind, M_ret.
      rewrite Hgrouped. cbv beta iota zeta. fold labelled.
      repeat (rewrite get_filter_rows, Havg; cbn [fmap option_fmap option_map
                col_select]; cbv beta iota zeta).
      cbn [col_ge_int col_le_int fst snd].
      rewrite <- !select_map, <- select_mask_and. fold in_range.
      rewrite filter_rows_compose by lia. done.
    + rewrite length_mask_and; lia.
    + intros i. rewrite Hboth, Hlabelled, Hrange. tauto.
    + intros i Hi. unfold mask_and. rewrite lookup_zip_with.
      rewrite (Hnan i Hi).
      assert (is_Some (labelled !! i)) as [b ->].
      { apply lookup_lt_is_Some. rewrite Hlen_labelled, <- Hlen_avg.
        by apply lookup_lt_is_Some. }
      simpl. by rewrite andb_false_r.
    + by rewrite get_filter_rows, Havg.
    + apply select_lookup_all. intros i v Hi Hv.
      apply Hboth in Hi as [_ Hi].
      apply Hrange in Hi as (v' & Hv' & H1 & H2). by simplify_eq.
Qed.

Lemma apply_filters_rows_witness :
  well_formed shown_games = true /\
  get_column "TimeControl_Grouped" shown_games
    = Some (ColObj [Some "Blitz (3-10min)"; Some "Blitz (3-10min)";
                    Some "Unknown"; Some "Bullet (<3min)"]%string) /\
  get_column "AvgElo" shown_games
    = Some (ColFloat [Float64.of_Z 1510; Float64.of_Z 1705;
                      Float64.of_Z 1400; Float64.of_Z 2050]) /\
  exists mask : list bool,
    apply_filters "Blitz (3-10min)" (1500, 1600) shown_games
      = (Ok tt, filter_rows mask shown_games) /\
    length mask = nrows shown_games.
Proof.
  split_and!; [reflexivity..|].
  destruct (apply_filters_rows "Blitz (3-10min)" 1500 1600 shown_games
              [Some "Blitz (3-10min)"; Some "Blitz (3-10min)";
               Some "Unknown"; Some "Bullet (<3min)"]%string
              [Float64.of_Z 1510; Float64.of_Z 1705;
               Float64.of_Z 1400; Float64.of_Z 2050]
              eq_refl eq_refl eq_refl)
    as (mask & Hrun & Hlen & _).
  exists mask. auto.
Defined.

(** ** A text column read as numbers *)

Section WrongDtype.
Variable strptime : string -> string -> option instant.

(** X19.  When the time controls were read as numbers (or as anything
    but text), [preprocess_data] raises [AttributeError] at the first
    statement of the time-control block: the date columns are assigned
    by then, and no later block runs, so that no rating, result or
    move-count column is derived.  The caller's table is unchanged. *)
Theorem preprocess_data_numeric_time_control
    (h : gmap loc DataFrame) l df c :
  h !! l = Some df ->
  column_is is_object df "UTCDate" = true ->
  column_is is_object df "UTCTime" = true ->
  get_column "TimeControl" df = Some c ->
  is_object c = false ->
  exists df',
    preprocess_data strptime l h
      = (Raise AttributeError, <[fresh (dom h) := df']> h) /\
    (<[fresh (dom h) := df']> h) !! l = Some df /\
    assigns ["DateTime"; "Date"; "Hour"; "DayOfWeek"]%string df df' /\
    forall name,
      name ∈ ["TimeControl_Base"; "TimeControl_Increment";
              "TimeControl_Grouped"; "AvgElo"; "EloDiff"; "WhiteWins";
              "BlackWins"; "Draw"; "MoveCount"]%string ->
      get_column name df' = get_column name df.
Proof.
  intros Hl Hdate Htime Hc Hobj.
  destruct (derive_datetime strptime df) as [r1 df1] eqn:E1.
  pose proof (wp_run_eq _ _ _ _ _
                (derive_datetime_ok strptime df Hdate Htime) E1) as ->.
  pose proof (wp_run_eq _ _ _ _ _ (derive_datetime_assigns strptime df) E1)
    as A1.
  cbv beta in A1.
  assert (get_column "TimeControl" df1 = Some c) as Hc1.
  { rewrite (assigns_get _ _ _ _ A1); [done|compute_done]. }
  assert (derive_time_control df1 = (Raise AttributeError, df1)) as E2.
  { unfold derive_time_control, Frame.contains, Frame.getitem, lift.
    unfold mbind, mret, M_bind, M_ret.
    rewrite has_column_get, Hc1. cbv beta iota zeta. rewrite Hc1.
    cbv beta iota zeta. by destruct c. }
  assert (derive_columns strptime df = (Raise AttributeError, df1)) as Hrun.
  { unfold derive_columns. rewrite (bind_run _ _ _ _ _ E1).
    unfold mbind, M_bind. by rewrite E2. }
  exists df1. split_and!.
  - by rewrite (preprocess_data_run strptime h l df Hl), Hrun.
  - rewrite lookup_insert_ne; [done|].
    intros <-. pose proof (is_fresh (dom h)) as Hfresh.
    apply Hfresh, elem_of_dom. by rewrite Hl.
  - exact A1.
  - intros name Hname. apply (assigns_get _ _ _ _ A1).
    revert name Hname. apply Forall_forall. compute_done.
Qed.
End WrongDtype.

Lemma preprocess_data_numeric_time_control_witness :
  numeric_clock_table !! 1%positive = Some numeric_clock /\
  column_is is_object numeric_clock "UTCDate" = true /\
  column_is is_object numeric_clock "UTCTime" = true /\
  get_column "TimeControl" numeric_clock = Some (ColInt [300; 600]) /\
  is_object (ColInt [300; 600]) = false /\
  exists df',
    preprocess_data no_calendar 1%positive numeric_clock_table
      = (Raise AttributeError,
         <[fresh (dom numeric_clock_table) := df']> numeric_clock_table).
Proof.
  split_and!; [reflexivity..|].
  destruct (preprocess_data_numeric_time_control no_calendar
              numeric_clock_table 1%positive numeric_clock
              (ColInt [300; 600]) eq_refl eq_refl eq_refl eq_refl eq_refl)
    as (df' & Hrun & _).
  exists df'. exact Hrun.
Defined.

(** ** Whole seconds

    A base time written in decimal digits is read exactly and compared
    exactly: the thresholds fall where the source writes them. *)

Lemma div_eucl_1 a : Z.div_eucl a 1 = (a, 0).
Proof.
  pose proof (Z.div_1_r a) as Hq. pose proof (Z.mod_1_r a) as Hr.
  unfold Z.div, Z.modulo in Hq, Hr.
  destruct (Z.div_eucl a 1) as [q r]. by subst.
Qed.

Lemma of_ratio_1 n :
  0 < n < 2 ^ 53 -> Float64.of_ratio false n 1 = Float64.canon n 0.
Proof.
  intros Hn.
  assert (n <> 0) as Hn0 by lia.
  pose proof (Zdigits2_bound n ltac:(lia)) as Hd.
  pose proof (Zdigits2_pos n Hn0) as Hd1.
  destruct (canon_finite n Hn0 Hd) as (m & Hc & Hm & _).
  assert ((n <? 0) = false) as Hsign by lia.
  rewrite Hsign in Hc. rewrite Z.abs_eq in Hm by lia.
  assert (Zdigits2 (Zpos m) = 53) as Hdm.
  { rewrite Hm, Zdigits2_mul_pow2 by lia. lia. }
  unfold Float64.of_ratio, SFdiv_core_binary, Float64.prec, Float64.emax.
  change (Zdigits2 1) with 1.
  rewrite fexp_normal by lia.
  replace (Z.min (Zdigits2 n + 0 - (1 + 0) - 53) (0 - 0))
    with (Zdigits2 n - 54) by lia.
  destruct (0 - 0 - (Zdigits2 n - 54)) as [|s|s] eqn:Hs; try lia.
  rewrite div_eucl_1.
  change (new_location 1 0) with loc_Exact.
  rewrite Z.shiftl_mul_pow2 by lia.
  assert (0 < n * 2 ^ Zpos s) as Hpos by (apply Z.mul_pos_pos; lia).
  destruct (n * 2 ^ Zpos s) as [|q|q] eqn:Hq; try lia.
  rewrite (binary_round_aux_shift false q m 1).
  - rewrite Hc. f_equal. lia.
  - done.
  - lia.
  - rewrite <- Hq, Hm. replace (Zpos s) with (53 - Zdigits2 n + 1) by lia.
    rewrite Z.pow_add_r by lia. ring.
  - lia.
Qed.

Lemma of_decimal_int n :
  0 <= n < 2 ^ 53 -> Float64.of_decimal false n 0 = Float64.of_Z n.
Proof.
  intros Hn. rewrite of_Z_canon by lia. unfold Float64.of_decimal.
  destruct (Z.eqb_spec n 0) as [->|Hn0]; [done|].
  cbn [Z.leb Z.compare]. rewrite Z.pow_0_r, Z.mul_1_r.
  apply of_ratio_1. lia.
Qed.

Lemma Zdigits2_spec n :
  0 < n -> 2 ^ (Zdigits2 n - 1) <= n < 2 ^ Zdigits2 n.
Proof.
  intros Hn. destruct n as [|p|p]; try lia.
  cbn [Zdigits2]. rewrite digits2_pos_log2.
  replace (Z.log2 (Zpos p) + 1 - 1) with (Z.log2 (Zpos p)) by lia.
  rewrite Z.add_1_r. apply Z.log2_spec. lia.
Qed.

(** Integers compare as their floats do. *)
Lemma ltb_of_Z n k :
  0 <= n < 2 ^ 53 -> 0 < k < 2 ^ 53 ->
  Float64.ltb (Float64.of_Z n) (Float64.of_Z k) = (n <? k).
Proof.
  intros Hn Hk. rewrite !of_Z_canon by lia.
  assert (k <> 0) as Hk0 by lia.
  pose proof (Zdigits2_bound k ltac:(lia)) as Hdk.
  destruct (canon_finite k Hk0 Hdk) as (mk & Hck & Hmk & _).
  assert ((k <? 0) = false) as Hsk by lia.
  rewrite Hsk in Hck. rewrite Z.abs_eq in Hmk by lia.
  rewrite Hck.
  destruct (Z.eq_dec n 0) as [->|Hn0].
  { cbn. symmetry. apply Z.ltb_lt. lia. }
  pose proof (Zdigits2_bound n ltac:(lia)) as Hdn.
  destruct (canon_finite n Hn0 Hdn) as (mn & Hcn & Hmn & _).
  assert ((n <? 0) = false) as Hsn by lia.
  rewrite Hsn in Hcn. rewrite Z.abs_eq in Hmn by lia.
  rewrite Hcn.
  pose proof (Zdigits2_spec n ltac:(lia)) as Hn2.
  pose proof (Zdigits2_spec k ltac:(lia)) as Hk2.
  unfold Float64.ltb, SFltb, SFcompare.
  destruct (Z.compare_spec (0 + Zdigits2 n - 53) (0 + Zdigits2 k - 53))
    as [He|He|He].
  - assert (Zdigits2 n = Zdigits2 k) as Hd by lia.
    change (Pos.compare_cont Eq mn mk) with (Zpos mn ?= Zpos mk).
    rewrite Hmn, Hmk, Hd.
    assert (0 < 2 ^ (53 - Zdigits2 k)) as Hpow by lia.
    destruct (Z.compare_spec (n * 2 ^ (53 - Zdigits2 k))
                (k * 2 ^ (53 - Zdigits2 k))) as [Hc|Hc|Hc];
      symmetry; [apply Z.ltb_ge|apply Z.ltb_lt|apply Z.ltb_ge]; nia.
  - symmetry. apply Z.ltb_lt.
    assert (2 ^ Zdigits2 n <= 2 ^ (Zdigits2 k - 1)); [|lia].
    apply Z.pow_le_mono_r; lia.
  - symmetry. apply Z.ltb_ge.
    assert (2 ^ Zdigits2 k <= 2 ^ (Zdigits2 n - 1)); [|lia].
    apply Z.pow_le_mono_r; lia.
Qed.

Lemma digit_other c :
  Py.is_digit c = true ->
  Py.is_space c = false /\ Ascii.eqb c "_" = false /\
  c <> "+"%char /\ Py.parse_sign [c] = (false, [c]).
Proof.
  destruct c as [[] [] [] [] [] [] [] []]; intros H; vm_compute in H;
    try discriminate H; by split_and!.
Qed.

Lemma parse_sign_digit c r :
  Py.is_digit c = true -> Py.parse_sign (c :: r) = (false, c :: r).
Proof.
  destruct c as [[] [] [] [] [] [] [] []]; intros H; vm_compute in H;
    try discriminate H; reflexivity.
Qed.

Lemma drop_underscores_digits prev ds :
  Ascii.eqb prev "_" = false ->
  Forall (fun c => Py.is_digit c = true) ds ->
  Py.drop_underscores prev ds = Some ds.
Proof.
  intros Hprev Hds. revert prev Hprev.
  induction Hds as [|c ds Hc Hds IH]; intros prev Hprev; simpl.
  - by rewrite Hprev.
  - destruct (digit_other c Hc) as (_ & Hu & _).
    rewrite Hu, Hc, andb_false_r. by rewrite IH.
Qed.

Lemma lstrip_digits c ds :
  Py.is_digit c = true -> Py.lstrip (c :: ds) = c :: ds.
Proof.
  intros Hc. destruct (digit_other c Hc) as (Hs & _). simpl.
  by rewrite Hs.
Qed.

Lemma strip_digits ds :
  Forall (fun c => Py.is_digit c = true) ds -> Py.strip ds = ds.
Proof.
  intros Hds. unfold Py.strip.
  assert (forall l, Forall (fun c => Py.is_digit c = true) l ->
                    Py.lstrip l = l) as Hl.
  { intros [|c l] H; [done|]. apply lstrip_digits.
    by apply Forall_cons_1 in H as [H _]. }
  rewrite (Hl ds Hds), Hl, rev_involutive; [done|].
  by apply Forall_rev.
Qed.

Lemma span_digits_all ds :
  Forall (fun c => Py.is_digit c = true) ds ->
  Py.span_digits ds = (ds, []).
Proof.
  induction 1 as [|c ds Hc Hds IH]; simpl; [done|].
  by rewrite Hc, IH.
Qed.

Lemma digits_value_nonneg ds :
  Forall (fun c => Py.is_digit c = true) ds -> 0 <= Py.digits_value ds.
Proof.
  intros Hds. unfold Py.digits_value.
  assert (forall acc, 0 <= acc ->
            0 <= fold_left (fun acc c => 10 * acc + Py.digit_val c) ds acc)
    as H; [|apply H; lia].
  induction Hds as [|c ds Hc Hds IH]; intros acc Hacc; simpl; [done|].
  apply IH. unfold Py.is_digit in Hc. unfold Py.digit_val.
  apply andb_prop in Hc as [Hc _]. lia.
Qed.

(** [float] on a numeral of decimal digits only. *)
Lemma float_digits ds :
  ds <> [] ->
  Forall (fun c => Py.is_digit c = true) ds ->
  Py.float (string_of_list_ascii ds)
  = Ok (Float64.of_decimal false (Py.digits_value ds) 0).
Proof.
  intros Hne Hds. unfold Py.float.
  rewrite list_ascii_of_string_of_list_ascii.
  rewrite drop_underscores_digits by done.
  unfold Py.float_of_chars. rewrite strip_digits by done.
  destruct ds as [|c ds]; [done|].
  pose proof Hds as [Hc _]%Forall_cons_1.
  rewrite lstrip_digits, parse_sign_digit by done.
  unfold Py.parse_decimal. rewrite span_digits_all by done.
  rewrite app_nil_r. reflexivity.
Qed.

Lemma split_digits ds :
  Forall (fun c => Py.is_digit c = true) ds ->
  Py.split "+" (string_of_list_ascii ds) = [string_of_list_ascii ds].
Proof.
  induction 1 as [|c ds Hc Hds IH]; simpl; [done|].
  destruct (digit_other c Hc) as (_ & _ & Hplus & _).
  apply Ascii.eqb_neq in Hplus as ->. by rewrite IH.
Qed.

(** X20.  A base time written in decimal digits (whole seconds, as in
    ["300+3"]) is classified by its value: below 180 bullet, below 600
    blitz, below 3600 rapid, classical from 3600 on, whatever the
    increment.  The thresholds are exact: 179 and 180, 599 and 600,
    3599 and 3600 fall on different sides. *)
Theorem categorize_time_control_whole_seconds (ds : list ascii)
    (inc : string) :
  ds <> [] ->
  Forall (fun c => Py.is_digit c = true) ds ->
  Py.digits_value ds < 2 ^ 53 ->
  categorize_time_control (Some (string_of_list_ascii ds))
    = seconds_label (Py.digits_value ds) /\
  categorize_time_control
    (Some (string_of_list_ascii ds ++ String "+" inc)%string)
    = seconds_label (Py.digits_value ds).
Proof.
  intros Hne Hds Hsmall.
  pose proof (digits_value_nonneg ds Hds) as Hpos.
  assert (categorize_time_control (Some (string_of_list_ascii ds))
          = seconds_label (Py.digits_value ds)) as Hlabel.
  { rewrite categorize_time_control_cases, base_seconds_head.
    rewrite split_digits by done. cbn [hd].
    rewrite float_digits, of_decimal_int by (done || lia).
    unfold Py.lt_int, seconds_label.
    by rewrite !ltb_of_Z by lia. }
  split; [done|].
  rewrite <- Hlabel. apply categorize_time_control_base.
  rewrite list_ascii_of_string_of_list_ascii. intros c Hc.
  rewrite Forall_forall in Hds.
  by destruct (digit_other c (Hds c Hc)) as (_ & _ & Hplus & _).
Qed.

Lemma categorize_time_control_whole_seconds_witness :
  ["1"; "7"; "9"]%char <> [] /\
  Forall (fun c => Py.is_digit c = true) ["1"; "7"; "9"]%char /\
  Py.digits_value ["1"; "7"; "9"]%char < 2 ^ 53 /\
  categorize_time_control (Some "179+0"%string) = "Bullet (<3min)"%string.
Proof.
  assert (Forall (fun c => Py.is_digit c = true) ["1"; "7"; "9"]%char)
    as Hds by (repeat constructor).
  split_and!; [done|exact Hds|by vm_compute|].
  apply (categorize_time_control_whole_seconds ["1"; "7"; "9"]%char "0");
    [done|exact Hds|by vm_compute].
Defined.
